(** * Coolant-hose pressure-drop / achievable-flow calculator

    A shallow embedding of [AIprojects/pressureFlowCalcGPT5m.py] and the
    properties of its forward solver ([pressure_drop_pipe]), its inverse
    solver ([flow_from_pump_pressure]) and its command line ([main]).

    Numbers.  Python floats are modelled by the real numbers [R]: there is
    no rounding, overflow, infinity or NaN in this development.  What Python
    does on top of arithmetic is kept: [x / 0.0] raises [ZeroDivisionError],
    [math.sqrt] and [math.log10] raise [ValueError] outside their domain, a
    negative base under a fractional exponent yields a [complex] that
    [math.log10] rejects with [TypeError], and [0.0 ** -2] raises
    [ZeroDivisionError].

    Range.  A binary64 computation can leave the path of the exact one: a
    product or quotient underflows to [0.0], [x ** 2] raises
    [OverflowError] above [1.3e154], a sum next to 1 rounds to [1.0].  A
    theorem that promises an outcome (a returned value or one particular
    exception) for every argument of a range is therefore stated for
    [ordinary] magnitudes, between [1e-10] and [1e10], where every
    intermediate value of both solvers stays far inside the binary64
    range, so that the float run ends the way the exact one does.
    Theorems about the values of a result that has come back hold up to
    rounding. *)

From Stdlib Require Import Reals Lra Lia ZArith Ascii String.
From stdpp Require Import gmap strings sorting.

Open Scope R_scope.

(* ===================================================================== *)
(** * Python runtime: exceptions and the error monad                      *)
(* ===================================================================== *)

Module Py.

(** The exception classes the calculator can raise, with the message where
    the source gives one. *)
Inductive exn : Type :=
| ValueError (msg : string)
| KeyError (msg : string)
| RuntimeError (msg : string)
| ZeroDivisionError
| TypeError.

Inductive result (A : Type) : Type :=
| Ok (a : A)
| Raise (e : exn).
Arguments Ok {A} a.
Arguments Raise {A} e.

Definition bind {A B : Type} (c : result A) (k : A -> result B) : result B :=
  match c with
  | Ok a => k a
  | Raise e => Raise e
  end.

(** The error kinds of the specification, as predicates on exceptions. *)
Definition is_InvalidArgument (e : exn) : bool :=
  match e with ValueError _ => true | _ => false end.
Definition is_UnknownFitting (e : exn) : bool :=
  match e with KeyError _ => true | _ => false end.
Definition is_NumericalError (e : exn) : bool :=
  match e with RuntimeError _ => true | _ => false end.

Definition raises {A : Type} (kind : exn -> bool) (c : result A) : Prop :=
  exists e, c = Raise e /\ kind e = true.

Definition returns {A : Type} (c : result A) : Prop :=
  exists a, c = Ok a.

(** Comparisons of floats are decidable. *)
#[global] Instance Rle_decision (x y : R) : Decision (x <= y) := Rle_dec x y.
#[global] Instance Rlt_decision (x y : R) : Decision (x < y) := Rlt_dec x y.
#[global] Instance Req_decision : EqDecision R := Req_dec_T.

(** [x / y] on floats. *)
Definition div (x y : R) : result R :=
  if decide (y = 0) then Raise ZeroDivisionError else Ok (x / y).

(** [math.sqrt(x)]. *)
Definition sqrt (x : R) : result R :=
  if decide (x < 0) then Raise (ValueError "math domain error")
  else Ok (R_sqrt.sqrt x).

(** The value of a float expression that may have left the reals:
    [float ** float] is a [complex] when the base is negative and the
    exponent is not an integer. *)
Inductive num : Type :=
| Float (x : R)
| Complex.

(** [x ** y] for a positive, non-integer float exponent [y]. *)
Definition pow_frac (x y : R) : num :=
  if decide (x < 0) then Complex
  else if decide (x = 0) then Float 0
  else Float (Rpower x y).

(** [a + b] where [b] is a float. *)
Definition add_float (a : num) (b : R) : num :=
  match a with
  | Float x => Float (x + b)
  | Complex => Complex
  end.

(** [math.log10(a)]. *)
Definition log10 (a : num) : result R :=
  match a with
  | Complex => Raise TypeError
  | Float x =>
      if decide (x <= 0) then Raise (ValueError "math domain error")
      else Ok (ln x / ln 10)
  end.

(** [x ** -2]. *)
Definition pow_neg2 (x : R) : result R :=
  if decide (x = 0) then Raise ZeroDivisionError else Ok (/ (x ^ 2)).

(** Truthiness of an optional list: [None] and [[]] are falsy. *)
Definition truthy {A : Type} (l : option (list A)) : bool :=
  match l with
  | Some (_ :: _) => true
  | _ => false
  end.

End Py.

Import Py.

Notation "'let*' x ':=' c 'in' k" := (Py.bind c (fun x => k))
  (at level 10, x name, c at level 100, k at level 200).

(* ===================================================================== *)
(** * The calculator                                                      *)
(* ===================================================================== *)

(** ** Unit helpers *)

Definition lpm_to_m3s (lpm : R) : R := lpm / 1000 / 60.
Definition m3s_to_lpm (m3s : R) : R := m3s * 1000 * 60.
Definition pa_to_psi (pa : R) : R := pa / 6894.75729.
Definition psi_to_pa (psi : R) : R := psi * 6894.75729.
Definition m_to_mm (m : R) : R := m * 1000.

(** ** Fluid mechanics *)

Definition reynolds_number (rho mu v d : R) : result R :=
  if decide (mu <= 0 \/ d <= 0)
  then Raise (ValueError "Viscosity and diameter must be positive")
  else Py.div (rho * v * d) mu.

Definition friction_factor_haland (d k Re : R) : result R :=
  if decide (Re <= 0)
  then Raise (ValueError "Reynolds number must be positive")
  else if decide (Re < 2300)
  then Py.div 64 Re
  else
    let* rel := Py.div k (3.7 * d) in
    let* r := Py.div 6.9 Re in
    let term := Py.add_float (Py.pow_frac rel 1.11) r in
    let* lg := Py.log10 term in
    Py.pow_neg2 (-1.8 * lg).

Definition darcy_weisbach_loss (f L d v : R) : result R :=
  let* Ld := Py.div L d in
  Ok (f * Ld * 0.5 * v ^ 2 * 1).

(** ** Minor (local) losses *)

Definition STANDARD_FITTING_K : gmap string R :=
  list_to_map
    [ ("straight_open_valve"%string, 0.05);
      ("globe_valve"%string, 10);
      ("gate_valve"%string, 0.2);
      ("90_elbow_smooth"%string, 0.3);
      ("90_elbow_sharp"%string, 1.5);
      ("45_elbow"%string, 0.2);
      ("tee_run"%string, 0.6);
      ("tee_branch"%string, 1.8);
      ("hose_barb"%string, 2);
      ("full_port_ball_valve"%string, 0.05);
      ("filter"%string, 1);
      ("quick_connect"%string, 0.8) ].

(** The body of the [for f in fittings] loop, threading [K_total]. *)
Fixpoint sum_fitting_K (K_total : R) (fittings : list string) : result R :=
  match fittings with
  | [] => Ok K_total
  | f :: rest =>
      match STANDARD_FITTING_K !! f with
      | None => Raise (KeyError (String.append "Unknown fitting key: " f))
      | Some K => sum_fitting_K (K_total + K) rest
      end
  end.

Definition minor_loss_coeffs (fittings : option (list string)) : result R :=
  match fittings with
  | None | Some [] => Ok 0
  | Some fs => sum_fitting_K 0 fs
  end.

(** ** High-level calculations *)

(** The dict returned by [pressure_drop_pipe]. *)
Record PressureDropResult : Type := mkPressureDrop {
  pd_Q_m3s : R;
  pd_velocity_m_s : R;
  pd_Re : R;
  pd_friction_factor : R;
  pd_friction_loss_Pa : R;
  pd_minor_loss_Pa : R;
  pd_total_loss_Pa : R;
  pd_total_loss_psi : R
}.

Definition pressure_drop_pipe (rho mu Q d L k : R)
    (fittings : option (list string)) : result PressureDropResult :=
  if decide (Q < 0) then Raise (ValueError "Flow must be non-negative")
  else if decide (d <= 0 \/ L < 0)
  then Raise (ValueError "Diameter must be positive and length non-negative")
  else
    let A := PI * (d / 2) ^ 2 in
    if decide (A <= 0)
    then Raise (ValueError "Invalid diameter generating non-positive area")
    else
      let* v := Py.div Q A in
      let* Re := if decide (0 < v) then reynolds_number rho mu v d else Ok 0 in
      let* f := if decide (0 < v) then friction_factor_haland d k Re else Ok 0 in
      let* Ld := Py.div L d in
      let friction_loss := f * Ld * 0.5 * rho * v ^ 2 in
      let* K_total :=
        if Py.truthy fittings then minor_loss_coeffs fittings else Ok 0 in
      let minor_loss := K_total * 0.5 * rho * v ^ 2 in
      let total_loss := friction_loss + minor_loss in
      Ok {| pd_Q_m3s := Q;
            pd_velocity_m_s := v;
            pd_Re := Re;
            pd_friction_factor := f;
            pd_friction_loss_Pa := friction_loss;
            pd_minor_loss_Pa := minor_loss;
            pd_total_loss_Pa := total_loss;
            pd_total_loss_psi := pa_to_psi total_loss |}.

(** The dict returned by [flow_from_pump_pressure] on its main path. *)
Record FlowEstimateResult : Type := mkFlowEstimate {
  Q_m3s : R;
  Q_lpm : R;
  velocity_m_s : R;
  Re : R;
  friction_factor : R
}.

(** What [flow_from_pump_pressure] hands back: the early exit returns the
    bare float [0.0], the main path a dict. *)
Inductive flow_return : Type :=
| RetFloat (x : R)
| RetDict (r : FlowEstimateResult).

(** How the [for ... else] loop over [range(maxiter)] is left, with the
    values of [v] and [Q] at that point: through [break], or by running out
    of iterations (the [else] arm). *)
Inductive loop_exit : Type :=
| Break (v Q : R)
| Exhausted (v Q : R).

Definition exit_v (e : loop_exit) : R :=
  match e with Break v _ | Exhausted v _ => v end.
Definition exit_Q (e : loop_exit) : R :=
  match e with Break _ Q | Exhausted _ Q => Q end.

Section Solver.

Variables rho mu d L pump_deltaP_pa k : R.
Variable K_total : R.
Variable tol : R.

(** The area [A] of line 175. *)
Definition area : R := PI * (d / 2) ^ 2.

(** Lines 182-187: one pass of the loop body up to [v_new]. *)
Definition velocity_update (v : R) : result R :=
  let* Re := reynolds_number rho mu v d in
  let* f := if decide (0 < v) then friction_factor_haland d k Re else Ok 0 in
  let* Ld := Py.div L d in
  let denom := rho * (f * Ld + K_total) / 2 in
  if decide (denom <= 0)
  then Raise (RuntimeError "Denominator non-positive during iteration")
  else
    let* q := Py.div pump_deltaP_pa denom in
    Py.sqrt q.

(** [n] remaining passes of the loop of lines 181-192. *)
Fixpoint solver_loop (n : nat) (v Q : R) : result loop_exit :=
  match n with
  | O => Ok (Exhausted v Q)
  | S n' =>
      let* v_new := velocity_update v in
      if decide (Rabs (v_new - v) < tol)
      then Ok (Break v_new Q)
      else solver_loop n' v_new (area * v_new)
  end.

(** The initial guess of lines 178-179. *)
Definition seed_velocity : result R :=
  let f_guess := 0.02 in
  let* Ld := Py.div L d in
  let* q := Py.div (2 * pump_deltaP_pa) (rho * (f_guess * Ld + K_total)) in
  Py.sqrt q.

(** The dict literal of lines 196-202, built from the final [v] and [Q]. *)
Definition flow_snapshot (v Q : R) : result FlowEstimateResult :=
  let* Re := if decide (0 < v) then reynolds_number rho mu v d else Ok 0 in
  let* f :=
    if decide (0 < v)
    then let* Re' := reynolds_number rho mu v d in friction_factor_haland d k Re'
    else Ok 0 in
  Ok {| Q_m3s := Q;
        Q_lpm := m3s_to_lpm Q;
        velocity_m_s := v;
        Re := Re;
        friction_factor := f |}.

End Solver.

Definition flow_from_pump_pressure (rho mu d L pump_deltaP_pa k : R)
    (fittings : option (list string)) (tol : R) (maxiter : Z)
  : result flow_return :=
  if decide (pump_deltaP_pa <= 0) then Ok (RetFloat 0)
  else
    let A := area d in
    let* K_total :=
      if Py.truthy fittings then minor_loss_coeffs fittings else Ok 0 in
    let* v := seed_velocity rho d L pump_deltaP_pa K_total in
    let Q := A * v in
    let* e := solver_loop rho mu d L pump_deltaP_pa k K_total tol
                (Z.to_nat maxiter) v Q in
    let* r := flow_snapshot rho mu d k (exit_v e) (exit_Q e) in
    Ok (RetDict r).

(** The defaults of the keyword arguments. *)
Definition default_k : R := 1.5e-6.
Definition default_tol : R := 1e-6.
Definition default_maxiter : Z := 100.

(** [res[key]] as [main] applies it to the value returned by
    [flow_from_pump_pressure]: a float is not subscriptable. *)
Definition flow_getitem (res : flow_return) (key : string) : result R :=
  match res with
  | RetFloat _ => Raise TypeError
  | RetDict r =>
      if String.eqb key "Q_m3s" then Ok (Q_m3s r)
      else if String.eqb key "Q_lpm" then Ok (Q_lpm r)
      else if String.eqb key "velocity_m_s" then Ok (velocity_m_s r)
      else if String.eqb key "Re" then Ok (Re r)
      else if String.eqb key "friction_factor" then Ok (friction_factor r)
      else Raise (KeyError key)
  end.

(* ===================================================================== *)
(** * Quantities of the specification                                     *)
(* ===================================================================== *)

(** Sum of a list of coefficients. *)
Definition sum_K (Ks : list R) : R := foldr Rplus 0 Ks.

(** Base-10 logarithm and [x ^ y] for [0 <= x], [0 < y], on the reals. *)
Definition Rlog10 (x : R) : R := ln x / ln 10.
Definition real_power (x y : R) : R :=
  if decide (x = 0) then 0 else Rpower x y.

(** The argument of the logarithm in the Haaland formula and the formula
    itself: [(-1.8 * log10((k/(3.7 d))^1.11 + 6.9/Re))^-2]. *)
Definition haaland_term (d k Re : R) : R :=
  real_power (k / (3.7 * d)) 1.11 + 6.9 / Re.
Definition haaland_value (d k Re : R) : R :=
  / ((-1.8 * Rlog10 (haaland_term d k Re)) ^ 2).

(** Magnitudes on which the float evaluation of the solvers neither
    underflows nor overflows: lengths, diameters, flows, pressures,
    densities and viscosities between [1e-10] and [1e10] SI units.  A
    length may also be exactly 0. *)
Definition ordinary (x : R) : Prop := 1e-10 <= x <= 1e10.
Definition ordinary_or_zero (x : R) : Prop := x = 0 \/ ordinary x.

(** The all-zero snapshot of the forward solver. *)
Definition zero_pressure_drop : PressureDropResult :=
  {| pd_Q_m3s := 0; pd_velocity_m_s := 0; pd_Re := 0;
     pd_friction_factor := 0; pd_friction_loss_Pa := 0;
     pd_minor_loss_Pa := 0; pd_total_loss_Pa := 0; pd_total_loss_psi := 0 |}.

(** The zero-flow record the specification expects from the inverse solver
    when there is no driving pressure. *)
Definition zero_flow_estimate : FlowEstimateResult :=
  {| Q_m3s := 0; Q_lpm := 0; velocity_m_s := 0; Re := 0;
     friction_factor := 0 |}.

(** What the solver loop leaves in [Q] when started with [Q = A * v]: [A]
    times the final velocity when the iterations run out, [A] times the
    velocity before the last update when it breaks. *)
Definition exit_inv (rho mu d L pump_deltaP_pa k K_total tol : R)
    (e : loop_exit) : Prop :=
  match e with
  | Exhausted v' Q' => Q' = area d * v'
  | Break v' Q' =>
      exists v_prev,
        Q' = area d * v_prev
        /\ velocity_update rho mu d L pump_deltaP_pa k K_total v_prev = Ok v'
        /\ Rabs (v' - v_prev) < tol
  end.

(** The round-trip scenario of the specification: coolant ([rho = 1050],
    [mu = 0.002]) in a 3/4 inch line ([d = 0.01905]) of 10 m at 20 L/min.
    Its mean velocity, Reynolds number, Haaland term and friction factor. *)
Definition scenario_v : R := lpm_to_m3s 20 / area 0.01905.
Definition scenario_Re : R := 1050 * scenario_v * 0.01905 / 0.002.
Definition scenario_term : R := haaland_term 0.01905 default_k scenario_Re.
Definition scenario_f : R := haaland_value 0.01905 default_k scenario_Re.

(* ===================================================================== *)
(** * Command line: [main] after [parse_args]                             *)
(* ===================================================================== *)

(** [argparse] is not modelled: [main] starts from the namespace that
    [parse_args] returns.  A string is a sequence of characters below
    U+0100.  Output is the list of printed lines. *)

(** The namespace that [parse_args] returns. *)
Record Args : Type := mkArgs {
  args_flow : option R;
  args_dia : R;
  args_length : R;
  args_units : string;
  args_pump_psi : option R;
  args_rho : R;
  args_mu : R;
  args_roughness : R;
  args_fittings : string
}.

(** [c.isspace()] for a character below U+0100. *)
Definition is_space (c : ascii) : bool :=
  let n := nat_of_ascii c in
  ((9 <=? n)%nat && (n <=? 13)%nat) || ((28 <=? n)%nat && (n <=? 32)%nat)
  || (n =? 133)%nat || (n =? 160)%nat.

Fixpoint lstrip (s : string) : string :=
  match s with
  | EmptyString => EmptyString
  | String c s' => if is_space c then lstrip s' else s
  end.

Fixpoint rstrip (s : string) : string :=
  match s with
  | EmptyString => EmptyString
  | String c s' =>
      match rstrip s' with
      | EmptyString => if is_space c then EmptyString else String c EmptyString
      | t => String c t
      end
  end.

(** [s.strip()]. *)
Definition strip (s : string) : string := rstrip (lstrip s).

(** [s.split(sep)] for a one-character separator. *)
Fixpoint split (sep : ascii) (s : string) : list string :=
  match s with
  | EmptyString => [EmptyString]
  | String c s' =>
      if Ascii.eqb c sep then EmptyString :: split sep s'
      else match split sep s' with
           | h :: t => String c h :: t
           | [] => [String c EmptyString]
           end
  end.

(** [sep.join(l)]. *)
Fixpoint join (sep : string) (l : list string) : string :=
  match l with
  | [] => EmptyString
  | [s] => s
  | s :: rest => String.append s (String.append sep (join sep rest))
  end.

(** Lines 231-233: the fitting list of the command line. *)
Definition parse_fittings (s : string) : list string :=
  let fittings :=
    if decide (s = EmptyString) then []
    else map strip (split ","%char s) in
  filter (fun f => f <> EmptyString) fittings.


(** What [main] writes to standard output.  Lines without numbers are kept
    as text; a line that formats floats is kept as the values it formats,
    in the order of its format fields. *)
Inductive line : Type :=
| Text (s : string)
| Line_input_flow (flow dia_mm length : R)
| Line_input_pump (pump_psi dia_mm length : R)
| Line_velocity (v : R)
| Line_Re (Re : R)
| Line_friction_factor (f : R)
| Line_frictional_loss (pa psi : R)
| Line_minor_loss (pa psi : R)
| Line_total_drop (pa psi : R)
| Line_estimated_flow (lpm : R).

(** How [main] ends: by returning, through [sys.exit], or with an
    exception that nothing catches. *)
Inductive ending : Type :=
| Returned
| SystemExit (code : Z)
| Uncaught (e : exn).

(** [sorted(STANDARD_FITTING_K.keys())]. *)
Definition sorted_fitting_keys : list string :=
  merge_sort (fun a b => Is_true (String.leb a b))
    (map fst (map_to_list STANDARD_FITTING_K)).

Definition double_quote : string := String (ascii_of_nat 34) EmptyString.
Definition newline : string := String (ascii_of_nat 10) EmptyString.

(** Lines 263-268. *)
Definition usage_lines : list line :=
  [ Text "No --flow or --pump_psi supplied. Example usages:";
    Text (String.append "  Compute pressure drop for 20 L/min in 3/4"
            (String.append double_quote " (0.01905 m) line, 10 m long:"));
    Text "    python coolantHoseCalcs.py --flow 20 --dia 0.01905 --length 10";
    Text "  Compute achievable flow with 50 psi pump pressure:";
    Text "    python coolantHoseCalcs.py --pump_psi 50 --dia 0.01905 --length 10";
    Text (String.append newline
            (String.append "Available standard fitting keys: "
               (join ", " sorted_fitting_keys))) ].

(** Lines 246-252. *)
Definition pressure_drop_lines (flow d length : R)
    (result : PressureDropResult) : list line :=
  [ Line_input_flow flow (m_to_mm d) length;
    Line_velocity (pd_velocity_m_s result);
    Line_Re (pd_Re result);
    Line_friction_factor (pd_friction_factor result);
    Line_frictional_loss (pd_friction_loss_Pa result)
      (pa_to_psi (pd_friction_loss_Pa result));
    Line_minor_loss (pd_minor_loss_Pa result)
      (pa_to_psi (pd_minor_loss_Pa result));
    Line_total_drop (pd_total_loss_Pa result) (pd_total_loss_psi result) ].

(** Lines 257-260: each line subscripts [res]; the lines before the first
    failing subscript have been printed. *)
Definition flow_lines (res : flow_return) : list line * ending :=
  match flow_getitem res "Q_lpm" with
  | Raise e => ([], Uncaught e)
  | Ok q =>
      match flow_getitem res "velocity_m_s" with
      | Raise e => ([Line_estimated_flow q], Uncaught e)
      | Ok v =>
          match flow_getitem res "Re" with
          | Raise e => ([Line_estimated_flow q; Line_velocity v], Uncaught e)
          | Ok re =>
              match flow_getitem res "friction_factor" with
              | Raise e =>
                  ([Line_estimated_flow q; Line_velocity v; Line_Re re],
                   Uncaught e)
              | Ok f =>
                  ([Line_estimated_flow q; Line_velocity v; Line_Re re;
                    Line_friction_factor f], Returned)
              end
          end
      end
  end.

(** Lines 228-230: the diameter in metres. *)
Definition diameter_m (args : Args) : R :=
  if String.eqb (args_units args) "in" then args_dia args * 0.0254
  else args_dia args.

(** [main], from the parsed arguments on. *)
Definition main (args : Args) : list line * ending :=
  let d := diameter_m args in
  let fittings := parse_fittings (args_fittings args) in
  let rho := args_rho args in
  let mu := args_mu args in
  let k := args_roughness args in
  match args_flow args, args_pump_psi args with
  | Some _, Some _ =>
      ([Text "Provide either --flow (to compute pressure drop) OR --pump_psi (to compute achievable flow), not both."],
       SystemExit 1)
  | Some flow, None =>
      let Q_m3s := lpm_to_m3s flow in
      match pressure_drop_pipe rho mu Q_m3s d (args_length args) k
              (Some fittings) with
      | Raise e => ([], Uncaught e)
      | Ok result =>
          (pressure_drop_lines flow d (args_length args) result, Returned)
      end
  | None, Some pump_psi =>
      let pump_pa := psi_to_pa pump_psi in
      match flow_from_pump_pressure rho mu d (args_length args) pump_pa k
              (Some fittings) default_tol default_maxiter with
      | Raise e => ([], Uncaught e)
      | Ok res =>
          let (printed, e) := flow_lines res in
          (Line_input_pump pump_psi (m_to_mm d) (args_length args) :: printed,
           e)
      end
  | None, None => (usage_lines, Returned)
  end.

(** Whether the character [c] occurs in [s]. *)
Fixpoint contains_char (c : ascii) (s : string) : bool :=
  match s with
  | EmptyString => false
  | String c' s' => Ascii.eqb c' c || contains_char c s'
  end.

(* ===================================================================== *)
(** * Basic facts about the runtime                                       *)
(* ===================================================================== *)

Lemma ordinary_pos (x : R) : ordinary x -> 0 < x.
Proof. unfold ordinary. lra. Qed.

Lemma ordinary_or_zero_nonneg (x : R) : ordinary_or_zero x -> 0 <= x.
Proof. unfold ordinary_or_zero, ordinary. lra. Qed.

Lemma div_ok (x y : R) : y <> 0 -> Py.div x y = Ok (x / y).
Proof. intros Hy. unfold Py.div. case_decide; [contradiction | reflexivity]. Qed.

Lemma div_zero (x : R) : Py.div x 0 = Raise ZeroDivisionError.
Proof. unfold Py.div. case_decide; [reflexivity | contradiction]. Qed.

Lemma sqrt_ok (x : R) : 0 <= x -> Py.sqrt x = Ok (R_sqrt.sqrt x).
Proof. intros Hx. unfold Py.sqrt. case_decide; [lra | reflexivity]. Qed.

Lemma sqrt_neg (x : R) :
  x < 0 -> Py.sqrt x = Raise (ValueError "math domain error").
Proof. intros Hx. unfold Py.sqrt. case_decide; [reflexivity | lra]. Qed.

Lemma raises_Raise {A : Type} (kind : exn -> bool) (e : exn) :
  kind e = true -> raises kind (@Raise A e).
Proof. intros H. exists e. split; [reflexivity | exact H]. Qed.

Lemma raises_not_Ok {A : Type} (kind : exn -> bool) (a : A) :
  ~ raises kind (Ok a).
Proof. intros [e [H _]]. discriminate H. Qed.

Lemma area_pos (d : R) : d <> 0 -> 0 < area d.
Proof.
  intros Hd. unfold area.
  apply Rmult_lt_0_compat; [apply PI_RGT_0 |].
  assert (H : d / 2 <> 0) by lra.
  replace ((d / 2) ^ 2) with (Rsqr (d / 2)) by (unfold Rsqr; ring).
  apply Rlt_0_sqr, H.
Qed.

Lemma reynolds_number_ok (rho mu v d : R) :
  0 < mu -> 0 < d -> reynolds_number rho mu v d = Ok (rho * v * d / mu).
Proof.
  intros Hmu Hd. unfold reynolds_number.
  case_decide as H; [destruct H; lra |].
  apply div_ok. lra.
Qed.

Lemma reynolds_number_invalid (rho mu v d : R) :
  mu <= 0 \/ d <= 0 ->
  reynolds_number rho mu v d =
    Raise (ValueError "Viscosity and diameter must be positive").
Proof.
  intros H. unfold reynolds_number. case_decide; [reflexivity | contradiction].
Qed.

(* ===================================================================== *)
(** * Minor-loss summation                                                *)
(* ===================================================================== *)

Lemma sum_fitting_K_known (fs : list string) (Ks : list R) (acc : R) :
  Forall2 (fun f K => STANDARD_FITTING_K !! f = Some K) fs Ks ->
  sum_fitting_K acc fs = Ok (acc + sum_K Ks).
Proof.
  intros H. revert acc.
  induction H as [| f K fs Ks Hf _ IH]; intros acc; simpl.
  - f_equal. lra.
  - rewrite Hf, IH. f_equal. lra.
Qed.

Lemma sum_fitting_K_unknown (pre post : list string) (f : string) (acc : R) :
  Forall (fun g => is_Some (STANDARD_FITTING_K !! g)) pre ->
  STANDARD_FITTING_K !! f = None ->
  sum_fitting_K acc (pre ++ f :: post) =
    Raise (KeyError (String.append "Unknown fitting key: " f)).
Proof.
  intros Hpre Hf. revert acc.
  induction Hpre as [| g pre [K Hg] _ IH]; intros acc; simpl.
  - rewrite Hf. reflexivity.
  - rewrite Hg. apply IH.
Qed.

(** Every list with an unknown name splits at its first unknown name. *)
Lemma first_unknown (fs : list string) :
  (exists f, f ∈ fs /\ STANDARD_FITTING_K !! f = None) ->
  exists pre f post,
    fs = pre ++ f :: post
    /\ Forall (fun g => is_Some (STANDARD_FITTING_K !! g)) pre
    /\ STANDARD_FITTING_K !! f = None.
Proof.
  induction fs as [| g fs IH]; intros [f [Hin Hf]].
  - inversion Hin.
  - destruct (STANDARD_FITTING_K !! g) as [K |] eqn:Hg.
    + assert (Hin' : f ∈ fs).
      { apply elem_of_cons in Hin as [-> | Hin]; [congruence | exact Hin]. }
      destruct IH as (pre & f' & post & -> & Hpre & Hf'); [eauto |].
      exists (g :: pre), f', post. repeat split; [| exact Hf'].
      constructor; [rewrite Hg; eauto | exact Hpre].
    + exists [], g, fs. repeat split; [constructor | exact Hg].
Qed.

Lemma minor_loss_coeffs_unknown (fs : list string) :
  (exists f, f ∈ fs /\ STANDARD_FITTING_K !! f = None) ->
  exists f, f ∈ fs /\ STANDARD_FITTING_K !! f = None /\
    minor_loss_coeffs (Some fs) =
      Raise (KeyError (String.append "Unknown fitting key: " f)).
Proof.
  intros H. destruct (first_unknown fs H) as (pre & f & post & -> & Hpre & Hf).
  exists f. split; [| split; [exact Hf |]].
  - apply elem_of_app. right. apply elem_of_cons. left. reflexivity.
  - assert (Hs := sum_fitting_K_unknown pre post f 0 Hpre Hf).
    unfold minor_loss_coeffs. destruct (pre ++ f :: post) eqn:E; [| exact Hs].
    destruct pre; discriminate E.
Qed.

(** C9.  [minor_loss_coeffs] returns the sum of the catalog coefficients of
    the requested names; as soon as one requested name is not a key of the
    catalog it raises [KeyError] (the specification's UnknownFitting) and no
    partial sum comes back; an absent ([None]) or empty list gives exactly 0. *)
Theorem minor_loss_coeffs_spec (fs : list string) :
  (forall Ks : list R,
      Forall2 (fun f K => STANDARD_FITTING_K !! f = Some K) fs Ks ->
      minor_loss_coeffs (Some fs) = Ok (sum_K Ks))
  /\ ((exists f, f ∈ fs /\ STANDARD_FITTING_K !! f = None) ->
      raises is_UnknownFitting (minor_loss_coeffs (Some fs))
      /\ ~ returns (minor_loss_coeffs (Some fs)))
  /\ minor_loss_coeffs None = Ok 0
  /\ minor_loss_coeffs (Some []) = Ok 0.
Proof.
  split; [| split; [| split; reflexivity]].
  - intros Ks H. unfold minor_loss_coeffs.
    destruct fs as [| f fs'].
    + inversion H; subst. reflexivity.
    + rewrite (sum_fitting_K_known _ _ 0 H). f_equal. lra.
  - intros H. destruct (minor_loss_coeffs_unknown fs H) as (f & _ & _ & ->).
    split; [apply raises_Raise; reflexivity |].
    intros [a Ha]. discriminate Ha.
Qed.

Lemma lookup_gate_valve : STANDARD_FITTING_K !! "gate_valve"%string = Some 0.2.
Proof. vm_compute. reflexivity. Qed.

Lemma lookup_filter : STANDARD_FITTING_K !! "filter"%string = Some 1.
Proof. vm_compute. reflexivity. Qed.

Lemma lookup_not_a_real_fitting :
  STANDARD_FITTING_K !! "not_a_real_fitting"%string = None.
Proof. vm_compute. reflexivity. Qed.

Lemma minor_loss_coeffs_spec_witness :
  minor_loss_coeffs (Some ["gate_valve"; "filter"]%string) = Ok (sum_K [0.2; 1])
  /\ raises is_UnknownFitting
       (minor_loss_coeffs (Some ["gate_valve"; "not_a_real_fitting"]%string)).
Proof.
  split.
  - apply (proj1 (minor_loss_coeffs_spec ["gate_valve"; "filter"]%string)).
    constructor; [apply lookup_gate_valve |].
    constructor; [apply lookup_filter | constructor].
  - apply (proj1 (proj2
      (minor_loss_coeffs_spec ["gate_valve"; "not_a_real_fitting"]%string))).
    exists "not_a_real_fitting"%string. split.
    + apply elem_of_cons. right. apply elem_of_cons. left. reflexivity.
    + apply lookup_not_a_real_fitting.
Defined.

(* ===================================================================== *)
(** * Friction factor                                                     *)
(* ===================================================================== *)

Lemma friction_factor_nonpositive (d k Re : R) :
  Re <= 0 ->
  friction_factor_haland d k Re =
    Raise (ValueError "Reynolds number must be positive").
Proof.
  intros H. unfold friction_factor_haland. case_decide; [reflexivity | lra].
Qed.

Lemma friction_factor_laminar (d k Re : R) :
  0 < Re < 2300 -> friction_factor_haland d k Re = Ok (64 / Re).
Proof.
  intros [H0 H1]. unfold friction_factor_haland.
  case_decide; [lra |]. case_decide; [| lra].
  apply div_ok. lra.
Qed.

Lemma real_power_nonneg (x y : R) : 0 <= real_power x y.
Proof.
  unfold real_power. case_decide; [lra |].
  left. unfold Rpower. apply exp_pos.
Qed.

Lemma haaland_term_pos (d k Re : R) : 0 < Re -> 0 < haaland_term d k Re.
Proof.
  intros HRe. unfold haaland_term.
  assert (H1 := real_power_nonneg (k / (3.7 * d)) 1.11).
  assert (H2 : 0 < 6.9 / Re) by (apply Rdiv_lt_0_compat; lra).
  lra.
Qed.

Lemma ln10_pos : 0 < ln 10.
Proof. rewrite <- ln_1. apply ln_increasing; lra. Qed.

Lemma Rlog10_eq_0 (x : R) : 0 < x -> Rlog10 x = 0 -> x = 1.
Proof.
  intros Hx H. unfold Rlog10 in H.
  assert (Hl := ln10_pos).
  assert (Hln : ln x = 0).
  { apply Rmult_eq_reg_r with (/ ln 10).
    - rewrite Rmult_0_l. exact H.
    - apply Rinv_neq_0_compat. lra. }
  apply ln_inv; [exact Hx | lra |]. rewrite ln_1. exact Hln.
Qed.

Lemma friction_factor_turbulent (d k Re : R) :
  2300 <= Re -> 0 < d -> 0 <= k -> haaland_term d k Re <> 1 ->
  friction_factor_haland d k Re = Ok (haaland_value d k Re).
Proof.
  intros HRe Hd Hk Hterm.
  assert (Hpos := haaland_term_pos d k Re ltac:(lra)).
  unfold friction_factor_haland.
  case_decide; [lra |]. case_decide; [lra |].
  rewrite (div_ok k (3.7 * d)) by lra. cbn [Py.bind].
  rewrite (div_ok 6.9 Re) by lra. cbn [Py.bind].
  assert (Hrel : 0 <= k / (3.7 * d)).
  { unfold Rdiv. apply Rmult_le_pos; [exact Hk |].
    left. apply Rinv_0_lt_compat. lra. }
  assert (Hlog : Rlog10 (haaland_term d k Re) <> 0).
  { intros Hl0. apply Hterm. apply Rlog10_eq_0; assumption. }
  unfold haaland_value. revert Hpos Hlog. clear Hterm.
  unfold haaland_term, real_power, Py.pow_frac.
  destruct (decide (k / (3.7 * d) < 0)) as [Hneg | _]; [lra |].
  destruct (decide (k / (3.7 * d) = 0)) as [Hz | Hz]; intros Hpos Hlog;
    cbn [Py.add_float Py.log10];
    (destruct (decide (_ <= 0)) as [Hle | _]; [lra |]);
    cbn [Py.bind]; unfold Py.pow_neg2;
    (destruct (decide (_ = 0)) as [Hl | _]; [| reflexivity]);
    exfalso; apply Hlog; unfold Rlog10; lra.
Qed.

(** On a physical pipe, whose roughness does not exceed its diameter, the
    Haaland term of a turbulent flow is below 1 and the formula is
    defined. *)
Lemma ln_nonpos (x : R) : 0 < x <= 1 -> ln x <= 0.
Proof.
  intros [H0 [H1 | ->]]; [| rewrite ln_1; lra].
  left. rewrite <- ln_1. apply ln_increasing; assumption.
Qed.

Lemma exp_le (x y : R) : x <= y -> exp x <= exp y.
Proof.
  intros [H | ->]; [left; apply exp_increasing, H | right; reflexivity].
Qed.

Lemma real_power_le_self (x : R) : 0 <= x <= 1 -> real_power x 1.11 <= x.
Proof.
  intros [H0 H1]. unfold real_power.
  destruct (decide (x = 0)) as [-> | Hx]; [lra |].
  assert (Hpos : 0 < x) by lra.
  assert (Hln := ln_nonpos x ltac:(lra)).
  unfold Rpower. rewrite <- (exp_ln x Hpos) at 2.
  apply exp_le. nra.
Qed.

Lemma haaland_term_lt_1 (d k Re : R) :
  0 < d -> 0 <= k <= d -> 2300 <= Re -> haaland_term d k Re < 1.
Proof.
  intros Hd [Hk0 Hkd] HRe. unfold haaland_term.
  assert (Hrel : 0 <= k / (3.7 * d) <= 0.3).
  { split.
    - unfold Rdiv. apply Rmult_le_pos; [exact Hk0 |].
      left. apply Rinv_0_lt_compat. lra.
    - apply Rmult_le_reg_r with (3.7 * d); [lra |].
      unfold Rdiv. rewrite Rmult_assoc, Rinv_l by lra. lra. }
  assert (Hp := real_power_le_self (k / (3.7 * d)) ltac:(lra)).
  assert (Hr : 6.9 / Re <= 0.003).
  { apply Rmult_le_reg_r with Re; [lra |].
    unfold Rdiv. rewrite Rmult_assoc, Rinv_l by lra. lra. }
  lra.
Qed.

Lemma haaland_value_pos (d k Re : R) :
  0 < Re -> haaland_term d k Re <> 1 -> 0 < haaland_value d k Re.
Proof.
  intros HRe Hterm. unfold haaland_value.
  assert (Hpos := haaland_term_pos d k Re HRe).
  assert (Hlog : Rlog10 (haaland_term d k Re) <> 0).
  { intros Hl0. apply Hterm. apply Rlog10_eq_0; assumption. }
  apply Rinv_0_lt_compat.
  assert (Hx : -1.8 * Rlog10 (haaland_term d k Re) <> 0) by lra.
  replace ((-1.8 * Rlog10 (haaland_term d k Re)) ^ 2)
    with (Rsqr (-1.8 * Rlog10 (haaland_term d k Re))) by (unfold Rsqr; ring).
  apply Rlt_0_sqr, Hx.
Qed.

Lemma friction_factor_defined (d k Re : R) :
  0 < d -> 0 <= k <= d -> 0 < Re ->
  exists f, friction_factor_haland d k Re = Ok f /\ 0 < f.
Proof.
  intros Hd Hk HRe.
  destruct (Rlt_dec Re 2300) as [Hlam | Hturb].
  - exists (64 / Re). split.
    + apply friction_factor_laminar. lra.
    + apply Rdiv_lt_0_compat; lra.
  - assert (Hlt := haaland_term_lt_1 d k Re Hd Hk ltac:(lra)).
    exists (haaland_value d k Re). split.
    + apply friction_factor_turbulent; lra.
    + apply haaland_value_pos; lra.
Qed.

(** The logarithm of a smooth pipe's Haaland term at the boundary:
    [9 * ln (1000/3) < 25 * ln 10], because [(1000/3)^9 < 10^25]. *)
Lemma ln_boundary_bound : 0 < - ln 0.003 /\ 9 * - ln 0.003 < 25 * ln 10.
Proof.
  assert (E : - ln 0.003 = ln (1000 / 3)).
  { rewrite <- ln_Rinv by lra. f_equal. lra. }
  rewrite E. split.
  - rewrite <- ln_1. apply ln_increasing; lra.
  - assert (H9 : 9 * ln (1000 / 3) = ln ((1000 / 3) ^ 9)).
    { rewrite ln_pow by lra. simpl INR. lra. }
    assert (H25 : 25 * ln 10 = ln (10 ^ 25)).
    { rewrite ln_pow by lra. simpl INR. lra. }
    rewrite H9, H25. apply ln_increasing.
    + apply pow_lt. lra.
    + lra.
Qed.

(** No smoothing at the boundary: for a smooth pipe the value at
    [Re = 2300] is above 0.04, the laminar values just below 2300 are
    below 0.03. *)
Lemma friction_factor_jump (d : R) :
  0 < d ->
  exists f, friction_factor_haland d 0 2300 = Ok f /\ 0.04 < f
            /\ forall Re, 2200 <= Re < 2300 ->
               exists f', friction_factor_haland d 0 Re = Ok f' /\ f' < 0.03.
Proof.
  intros Hd.
  assert (Ht : haaland_term d 0 2300 = 0.003).
  { unfold haaland_term, real_power.
    destruct (decide (0 / (3.7 * d) = 0)) as [_ | Hn]; [lra |].
    exfalso. apply Hn. unfold Rdiv. ring. }
  exists (haaland_value d 0 2300). split; [| split].
  - apply friction_factor_turbulent; lra.
  - unfold haaland_value, Rlog10. rewrite Ht.
    destruct ln_boundary_bound as [Ha Hb]. assert (Hl := ln10_pos).
    set (x := -1.8 * (ln 0.003 / ln 10)).
    assert (Hx : 0 < x < 5).
    { unfold x.
      replace (-1.8 * (ln 0.003 / ln 10)) with (1.8 * - ln 0.003 / ln 10)
        by (unfold Rdiv; lra).
      split.
      - apply Rdiv_lt_0_compat; lra.
      - apply Rmult_lt_reg_r with (ln 10); [lra |].
        unfold Rdiv. rewrite Rmult_assoc, Rinv_l by lra. lra. }
    assert (Hx2 : 0 < x ^ 2 < 25) by nra.
    replace 0.04 with (/ 25) by lra.
    apply Rinv_lt_contravar; [nra | lra].
  - intros Re [Hlo Hhi]. exists (64 / Re). split.
    + apply friction_factor_laminar. lra.
    + apply Rmult_lt_reg_r with Re; [lra |].
      unfold Rdiv. rewrite Rmult_assoc, Rinv_l by lra. lra.
Qed.

(** C6.  [friction_factor_haland] raises [ValueError] (InvalidArgument) for
    every [Re <= 0]; returns exactly [64 / Re], whatever [d] and [k], for
    [0 < Re < 2300]; and from [Re = 2300] on returns the Haaland value
    [(-1.8 log10((k/(3.7 d))^1.11 + 6.9/Re))^-2] on every physical pipe:
    [d > 0] and a roughness [0 <= k <= d], which keeps the argument of the
    logarithm inside (0, 0.3].  Nothing is blended at the boundary: the two
    formulas meet with a jump. *)
Theorem friction_factor_haland_spec (d k Re : R) :
  (Re <= 0 -> raises is_InvalidArgument (friction_factor_haland d k Re))
  /\ (0 < Re < 2300 -> friction_factor_haland d k Re = Ok (64 / Re))
  /\ (2300 <= Re -> 0 < d -> 0 <= k <= d ->
      friction_factor_haland d k Re = Ok (haaland_value d k Re))
  /\ (0 < d ->
      friction_factor_haland d 0 2300 = Ok (haaland_value d 0 2300)
      /\ 64 / 2300 < 0.03 /\ 0.04 < haaland_value d 0 2300).
Proof.
  split; [| split; [| split]].
  - intros H. rewrite friction_factor_nonpositive by exact H.
    apply raises_Raise. reflexivity.
  - apply friction_factor_laminar.
  - intros HRe Hd Hk.
    assert (Hlt := haaland_term_lt_1 d k Re Hd Hk HRe).
    apply friction_factor_turbulent; lra.
  - intros Hd. destruct (friction_factor_jump d Hd) as (f & Hf & Hgt & _).
    assert (Ht : haaland_term d 0 2300 <> 1).
    { unfold haaland_term, real_power.
      destruct (decide (0 / (3.7 * d) = 0)) as [_ | Hn]; [lra |].
      exfalso. apply Hn. unfold Rdiv. ring. }
    rewrite (friction_factor_turbulent d 0 2300) in Hf by (lra || exact Ht).
    inversion Hf; subst f.
    split; [| split; [lra | exact Hgt]].
    apply friction_factor_turbulent; lra || exact Ht.
Qed.

Lemma friction_factor_haland_spec_witness :
  raises is_InvalidArgument (friction_factor_haland 0.01905 default_k 0)
  /\ friction_factor_haland 0.01905 default_k 1000 = Ok (64 / 1000)
  /\ friction_factor_haland 1 0 6900 = Ok (haaland_value 1 0 6900)
  /\ 0.04 < haaland_value 1 0 2300.
Proof.
  split; [| split; [| split]].
  - apply (proj1 (friction_factor_haland_spec 0.01905 default_k 0)). lra.
  - apply (proj1 (proj2 (friction_factor_haland_spec 0.01905 default_k 1000))).
    lra.
  - apply (proj1 (proj2 (proj2 (friction_factor_haland_spec 1 0 6900))));
      lra.
  - apply (proj2 (proj2 (proj2 (friction_factor_haland_spec 1 0 2300)))). lra.
Defined.

(* ===================================================================== *)
(** * Forward solver                                                      *)
(* ===================================================================== *)

(** Past the entry checks the body of [pressure_drop_pipe] runs with a
    positive area. *)
Lemma pressure_drop_pipe_body (rho mu Q d L k : R)
    (fittings : option (list string)) :
  0 <= Q -> 0 < d -> 0 <= L ->
  pressure_drop_pipe rho mu Q d L k fittings =
    let v := Q / area d in
    let* Re := if decide (0 < v) then reynolds_number rho mu v d else Ok 0 in
    let* f := if decide (0 < v) then friction_factor_haland d k Re else Ok 0 in
    let friction_loss := f * (L / d) * 0.5 * rho * v ^ 2 in
    let* K_total :=
      if Py.truthy fittings then minor_loss_coeffs fittings else Ok 0 in
    let minor_loss := K_total * 0.5 * rho * v ^ 2 in
    let total_loss := friction_loss + minor_loss in
    Ok {| pd_Q_m3s := Q;
          pd_velocity_m_s := v;
          pd_Re := Re;
          pd_friction_factor := f;
          pd_friction_loss_Pa := friction_loss;
          pd_minor_loss_Pa := minor_loss;
          pd_total_loss_Pa := total_loss;
          pd_total_loss_psi := pa_to_psi total_loss |}.
Proof.
  intros HQ Hd HL. unfold pressure_drop_pipe.
  assert (HA := area_pos d ltac:(lra)). unfold area in *.
  destruct (decide (Q < 0)) as [? | _]; [lra |].
  destruct (decide (d <= 0 \/ L < 0)) as [[? | ?] | _]; [lra | lra |].
  destruct (decide (PI * (d / 2) ^ 2 <= 0)) as [? | _]; [lra |].
  rewrite div_ok by lra.
  cbn [Py.bind].
  destruct (decide (0 < Q / (PI * (d / 2) ^ 2))).
  - destruct (reynolds_number rho mu _ d); [| reflexivity]. cbn [Py.bind].
    destruct (friction_factor_haland d k a); [| reflexivity]. cbn [Py.bind].
    rewrite div_ok by lra. reflexivity.
  - cbn [Py.bind]. rewrite div_ok by lra. reflexivity.
Qed.

Lemma pressure_drop_pipe_entry_checks (rho mu Q d L k : R)
    (fittings : option (list string)) :
  Q < 0 \/ d <= 0 \/ L < 0 ->
  raises is_InvalidArgument (pressure_drop_pipe rho mu Q d L k fittings).
Proof.
  intros H. unfold pressure_drop_pipe.
  destruct (decide (Q < 0)) as [? | HQ]; [apply raises_Raise; reflexivity |].
  destruct (decide (d <= 0 \/ L < 0)) as [? | Hn];
    [apply raises_Raise; reflexivity |].
  exfalso. destruct H as [H | H]; [lra | apply Hn, H].
Qed.

Lemma pressure_drop_pipe_viscosity_check (rho mu Q d L k : R)
    (fittings : option (list string)) :
  0 < Q -> mu <= 0 ->
  raises is_InvalidArgument (pressure_drop_pipe rho mu Q d L k fittings).
Proof.
  intros HQ Hmu.
  destruct (decide (d <= 0 \/ L < 0)) as [Hbad | Hgood].
  - apply pressure_drop_pipe_entry_checks. right. exact Hbad.
  - assert (Hd : 0 < d) by (destruct (Rlt_dec 0 d); [assumption |];
                             exfalso; apply Hgood; left; lra).
    assert (HL : 0 <= L) by (destruct (Rle_dec 0 L); [assumption |];
                              exfalso; apply Hgood; right; lra).
    rewrite pressure_drop_pipe_body by lra. cbv zeta.
    assert (HA := area_pos d ltac:(lra)).
    assert (Hv : 0 < Q / area d) by (apply Rdiv_lt_0_compat; lra).
    destruct (decide (0 < Q / area d)) as [_ | ?]; [| contradiction].
    rewrite reynolds_number_invalid by (left; exact Hmu).
    apply raises_Raise. reflexivity.
Qed.

Lemma pressure_drop_pipe_zero_flow (rho mu d L k : R)
    (fittings : option (list string)) :
  0 < d -> 0 <= L -> Py.truthy fittings = false ->
  pressure_drop_pipe rho mu 0 d L k fittings = Ok zero_pressure_drop.
Proof.
  intros Hd HL Hf.
  rewrite pressure_drop_pipe_body by lra. cbv zeta.
  rewrite Hf.
  assert (Hv : 0 / area d = 0) by (unfold Rdiv; ring).
  rewrite Hv.
  destruct (decide (0 < 0)) as [? | _]; [lra |].
  cbn [Py.bind]. unfold zero_pressure_drop, pa_to_psi.
  f_equal. f_equal; lra.
Qed.

(** C5 (as the code has it).  [Q < 0], [d <= 0] and [L < 0] are rejected
    with [ValueError] (InvalidArgument) at entry, whatever the other
    arguments are.  The viscosity is only looked at inside
    [reynolds_number], which the solver calls for a positive velocity: a
    non-positive [mu] is rejected with [ValueError] for every flow that is
    negative or at least [1e-10] in a pipe of at most [1e10] across (the
    velocity [Q / A] is then a positive float), and with [Q = 0] in a pipe
    of ordinary diameter and a length up to [1e10] without fittings the
    all-zero result comes back whatever [mu] is. *)
Theorem pressure_drop_pipe_argument_checks (rho mu Q d L k : R)
    (fittings : option (list string)) :
  (Q < 0 \/ d <= 0 \/ L < 0 ->
   raises is_InvalidArgument (pressure_drop_pipe rho mu Q d L k fittings))
  /\ (Q < 0 \/ 1e-10 <= Q -> d <= 1e10 -> mu <= 0 ->
      raises is_InvalidArgument (pressure_drop_pipe rho mu Q d L k fittings))
  /\ (Q = 0 -> ordinary d -> 0 <= L <= 1e10 -> Py.truthy fittings = false ->
      pressure_drop_pipe rho mu Q d L k fittings = Ok zero_pressure_drop).
Proof.
  split; [| split].
  - apply pressure_drop_pipe_entry_checks.
  - intros HQ _ Hmu. destruct (Rlt_dec Q 0) as [Hneg | Hpos].
    + apply pressure_drop_pipe_entry_checks. left. exact Hneg.
    + apply pressure_drop_pipe_viscosity_check; lra.
  - intros -> Hd HL Hf. apply ordinary_pos in Hd.
    apply pressure_drop_pipe_zero_flow; [exact Hd | lra | exact Hf].
Qed.

Lemma pressure_drop_pipe_argument_checks_witness :
  raises is_InvalidArgument
    (pressure_drop_pipe 1050 0.002 (-1) 0.01905 10 default_k None)
  /\ raises is_InvalidArgument
       (pressure_drop_pipe 1050 0 1 0.01905 10 default_k None)
  /\ pressure_drop_pipe 1050 (-1) 0 0.01905 10 default_k None
       = Ok zero_pressure_drop.
Proof.
  split; [| split].
  - apply (proj1 (pressure_drop_pipe_argument_checks
                    1050 0.002 (-1) 0.01905 10 default_k None)).
    left. lra.
  - apply (proj1 (proj2 (pressure_drop_pipe_argument_checks
                           1050 0 1 0.01905 10 default_k None))); lra.
  - apply (proj2 (proj2 (pressure_drop_pipe_argument_checks
                           1050 (-1) 0 0.01905 10 default_k None)));
      unfold ordinary; lra || reflexivity.
Defined.

(** Counterexample to C5 as stated: with [Q = 0] a zero viscosity is never
    inspected and the all-zero result comes back. *)
Lemma pressure_drop_pipe_zero_flow_skips_viscosity :
  ~ (forall rho mu Q d L k fittings,
        mu <= 0 ->
        raises is_InvalidArgument (pressure_drop_pipe rho mu Q d L k fittings)).
Proof.
  intros H.
  specialize (H 1050 0 0 0.01905 10 default_k None ltac:(lra)).
  rewrite pressure_drop_pipe_zero_flow in H by (lra || reflexivity).
  exact (raises_not_Ok _ _ H).
Qed.

(** C8.  Zero-flow identity: with a diameter of ordinary magnitude, a
    length between 0 and [1e10] and no fittings ([None] or the empty
    list), [Q = 0] gives a result whose velocity, Reynolds number, friction
    factor, friction loss, minor loss and total loss (Pa and psi) are all
    0.  Density, viscosity and roughness play no part. *)
Theorem zero_flow_identity (rho mu d L k : R)
    (fittings : option (list string)) :
  0 < rho -> 0 < mu -> ordinary d -> 0 <= L <= 1e10 ->
  fittings = None \/ fittings = Some [] ->
  exists r,
    pressure_drop_pipe rho mu 0 d L k fittings = Ok r
    /\ pd_Q_m3s r = 0 /\ pd_velocity_m_s r = 0 /\ pd_Re r = 0
    /\ pd_friction_factor r = 0 /\ pd_friction_loss_Pa r = 0
    /\ pd_minor_loss_Pa r = 0 /\ pd_total_loss_Pa r = 0
    /\ pd_total_loss_psi r = 0.
Proof.
  intros _ _ Hd HL Hf. apply ordinary_pos in Hd.
  exists zero_pressure_drop. split.
  - apply pressure_drop_pipe_zero_flow; [exact Hd | lra |].
    destruct Hf as [-> | ->]; reflexivity.
  - repeat split; reflexivity.
Qed.

Lemma zero_flow_identity_witness :
  exists r,
    pressure_drop_pipe 1050 0.002 0 0.01905 10 default_k (Some []) = Ok r
    /\ pd_Q_m3s r = 0 /\ pd_velocity_m_s r = 0 /\ pd_Re r = 0
    /\ pd_friction_factor r = 0 /\ pd_friction_loss_Pa r = 0
    /\ pd_minor_loss_Pa r = 0 /\ pd_total_loss_Pa r = 0
    /\ pd_total_loss_psi r = 0.
Proof.
  apply (zero_flow_identity 1050 0.002 0.01905 10 default_k (Some []));
    try (unfold ordinary; lra).
  right. reflexivity.
Defined.

(** C10.  The zero-flow shortcut does not skip the fittings: with a
    diameter of ordinary magnitude, a length that is not negative, [Q = 0]
    and a fittings list that names something outside the catalog, the call
    raises [KeyError] (UnknownFitting) and returns nothing. *)
Theorem zero_flow_checks_fittings (rho mu d L k : R) (fs : list string) :
  ordinary d -> 0 <= L ->
  (exists f, f ∈ fs /\ STANDARD_FITTING_K !! f = None) ->
  raises is_UnknownFitting (pressure_drop_pipe rho mu 0 d L k (Some fs))
  /\ ~ returns (pressure_drop_pipe rho mu 0 d L k (Some fs)).
Proof.
  intros Hd HL Hbad. apply ordinary_pos in Hd.
  rewrite pressure_drop_pipe_body by lra. cbv zeta.
  assert (Hv : 0 / area d = 0) by (unfold Rdiv; ring).
  rewrite Hv.
  destruct (decide (0 < 0)) as [? | _]; [lra |].
  cbn [Py.bind].
  assert (Htruthy : Py.truthy (Some fs) = true).
  { destruct Hbad as [f [Hin _]]. destruct fs; [inversion Hin | reflexivity]. }
  rewrite Htruthy.
  destruct (minor_loss_coeffs_unknown fs Hbad) as (f & _ & _ & ->).
  cbn [Py.bind]. split.
  - apply raises_Raise. reflexivity.
  - intros [a Ha]. discriminate Ha.
Qed.

Lemma zero_flow_checks_fittings_witness :
  raises is_UnknownFitting
    (pressure_drop_pipe 1050 0.002 0 0.01905 10 default_k
       (Some ["gate_valve"; "not_a_real_fitting"]%string)).
Proof.
  apply (zero_flow_checks_fittings 1050 0.002 0.01905 10 default_k
           ["gate_valve"; "not_a_real_fitting"]%string);
    try (unfold ordinary; lra).
  exists "not_a_real_fitting"%string. split.
  - apply elem_of_cons. right. apply elem_of_cons. left. reflexivity.
  - apply lookup_not_a_real_fitting.
Defined.

(* ===================================================================== *)
(** * Inverse solver: exits that never reach the loop                     *)
(* ===================================================================== *)

(** C2 (what the code does).  Without driving pressure the function
    returns at once and raises nothing, but what comes back is the bare
    float [0.0], not the zero-flow record: the caller in [main] that
    subscripts the result with ['Q_lpm'] gets a [TypeError]. *)
Theorem flow_from_pump_pressure_no_pressure (rho mu d L pump_deltaP_pa k : R)
    (fittings : option (list string)) (tol : R) (maxiter : Z) :
  pump_deltaP_pa <= 0 ->
  let res := flow_from_pump_pressure rho mu d L pump_deltaP_pa k fittings
               tol maxiter in
  res = Ok (RetFloat 0)
  /\ res <> Ok (RetDict zero_flow_estimate)
  /\ (let* r := res in flow_getitem r "Q_lpm") = Raise TypeError.
Proof.
  intros H res. subst res. unfold flow_from_pump_pressure.
  destruct (decide (pump_deltaP_pa <= 0)) as [_ | ?]; [| contradiction].
  split; [reflexivity | split; [discriminate | reflexivity]].
Qed.

Lemma flow_from_pump_pressure_no_pressure_witness :
  flow_from_pump_pressure 1050 0.002 0.01905 10 0 default_k None
    default_tol default_maxiter = Ok (RetFloat 0).
Proof.
  apply (flow_from_pump_pressure_no_pressure 1050 0.002 0.01905 10 0
           default_k None default_tol default_maxiter).
  lra.
Defined.

Lemma seed_velocity_zero_length (rho d pump_deltaP_pa : R) :
  seed_velocity rho d 0 pump_deltaP_pa 0 = Raise ZeroDivisionError.
Proof.
  unfold seed_velocity, Py.div.
  destruct (decide (d = 0)) as [_ | Hd]; [reflexivity |].
  cbn [Py.bind].
  destruct (decide (rho * (0.02 * (0 / d) + 0) = 0)) as [_ | Hn];
    [reflexivity |].
  exfalso. apply Hn. unfold Rdiv. ring.
Qed.

(** C4 (what the code does).  A pipe of length 0 without fittings makes
    the energy-balance denominator [rho * (f * (L/d) + K_total)] vanish
    whatever [f] is.  The guard that raises [RuntimeError] sits inside the
    loop; the initial guess divides by the same denominator before the loop
    and the call ends in [ZeroDivisionError], which is not a NumericalError. *)
Theorem flow_from_pump_pressure_zero_denominator (rho mu d pump_deltaP_pa k : R)
    (fittings : option (list string)) (tol : R) (maxiter : Z) :
  0 < pump_deltaP_pa ->
  Py.truthy fittings = false ->
  let res := flow_from_pump_pressure rho mu d 0 pump_deltaP_pa k fittings
               tol maxiter in
  res = Raise ZeroDivisionError /\ ~ raises is_NumericalError res.
Proof.
  intros HP Hf res. subst res. unfold flow_from_pump_pressure.
  destruct (decide (pump_deltaP_pa <= 0)) as [? | _]; [lra |].
  rewrite Hf. cbn [Py.bind]. rewrite seed_velocity_zero_length. cbn [Py.bind].
  split; [reflexivity |].
  intros [e [He Hk]]. inversion He; subst e. discriminate Hk.
Qed.

Lemma flow_from_pump_pressure_zero_denominator_witness :
  flow_from_pump_pressure 1050 0.002 0.01905 0 1000 default_k None
    default_tol default_maxiter = Raise ZeroDivisionError.
Proof.
  apply (flow_from_pump_pressure_zero_denominator 1050 0.002 0.01905 1000
           default_k None default_tol default_maxiter).
  - lra.
  - reflexivity.
Defined.

(** The guard inside the loop does what C4 asks for: a pass that reaches
    the denominator with a non-positive value raises [RuntimeError]. *)
Lemma velocity_update_guard (rho mu d L pump_deltaP_pa k K_total v Re f : R) :
  d <> 0 ->
  reynolds_number rho mu v d = Ok Re ->
  (if decide (0 < v) then friction_factor_haland d k Re else Ok 0) = Ok f ->
  rho * (f * (L / d) + K_total) / 2 <= 0 ->
  velocity_update rho mu d L pump_deltaP_pa k K_total v =
    Raise (RuntimeError "Denominator non-positive during iteration").
Proof.
  intros Hd HRe Hf Hden. unfold velocity_update.
  rewrite HRe. cbn [Py.bind]. rewrite Hf. cbn [Py.bind].
  rewrite div_ok by exact Hd. cbn [Py.bind].
  destruct (decide (_ <= 0)) as [_ | ?]; [reflexivity | contradiction].
Qed.

(** A negative length without fittings makes the same denominator negative;
    the initial guess then takes the square root of a negative number. *)
Lemma flow_from_pump_pressure_negative_denominator
    (rho mu d L pump_deltaP_pa k tol : R) (maxiter : Z) :
  0 < rho -> 0 < d -> L < 0 -> 0 < pump_deltaP_pa ->
  flow_from_pump_pressure rho mu d L pump_deltaP_pa k None tol maxiter =
    Raise (ValueError "math domain error").
Proof.
  intros Hrho Hd HL HP. unfold flow_from_pump_pressure.
  destruct (decide (pump_deltaP_pa <= 0)) as [? | _]; [lra |].
  cbn [Py.truthy Py.bind]. unfold seed_velocity.
  rewrite div_ok by lra. cbn [Py.bind].
  assert (HLd : L / d < 0).
  { unfold Rdiv. apply Rmult_neg_pos; [lra |]. apply Rinv_0_lt_compat. lra. }
  assert (Hden : rho * (0.02 * (L / d) + 0) < 0) by nra.
  rewrite div_ok by lra. cbn [Py.bind].
  rewrite sqrt_neg; [reflexivity |].
  unfold Rdiv. apply Rmult_pos_neg; [lra |]. apply Rinv_lt_0_compat, Hden.
Qed.

(* ===================================================================== *)
(** * Inverse solver: the loop and the returned snapshot                  *)
(* ===================================================================== *)

Section SolverFacts.

Variables rho mu d L pump_deltaP_pa k K_total tol : R.

Local Abbreviation update :=
  (velocity_update rho mu d L pump_deltaP_pa k K_total).
Local Abbreviation loop :=
  (solver_loop rho mu d L pump_deltaP_pa k K_total tol).
Local Abbreviation snapshot := (flow_snapshot rho mu d k).

Lemma solver_loop_S (n : nat) (v Q : R) :
  loop (S n) v Q =
    let* v_new := update v in
    if decide (Rabs (v_new - v) < tol)
    then Ok (Break v_new Q)
    else loop n v_new (area d * v_new).
Proof. reflexivity. Qed.

Lemma solver_loop_inv (n : nat) :
  forall (v : R) (e : loop_exit),
    loop n v (area d * v) = Ok e ->
    exit_inv rho mu d L pump_deltaP_pa k K_total tol e.
Proof.
  induction n as [| n IH]; intros v e H.
  - inversion H; subst e. reflexivity.
  - rewrite solver_loop_S in H.
    destruct (update v) as [v_new |] eqn:Hup; [| discriminate H].
    cbn [Py.bind] in H.
    destruct (decide (Rabs (v_new - v) < tol)) as [Hlt | _].
    + inversion H; subst e. exists v. auto.
    + exact (IH _ _ H).
Qed.

(** The iterations ran out: every pass succeeded and none met the
    tolerance. *)
Lemma solver_loop_exhausted (n : nat) :
  forall (v Q v' Q' : R),
    loop (S n) v Q = Ok (Exhausted v' Q') ->
    exists v1, update v = Ok v1 /\ ~ Rabs (v1 - v) < tol
               /\ loop n v1 (area d * v1) = Ok (Exhausted v' Q').
Proof.
  intros v Q v' Q' H. rewrite solver_loop_S in H.
  destruct (update v) as [v_new |] eqn:Hup; [| discriminate H].
  cbn [Py.bind] in H.
  destruct (decide (Rabs (v_new - v) < tol)) as [Hlt | Hge];
    [discriminate H |].
  exists v_new. auto.
Qed.

Lemma flow_snapshot_fields (v Q : R) (r : FlowEstimateResult) :
  snapshot v Q = Ok r ->
  Q_m3s r = Q /\ Q_lpm r = 60000 * Q /\ velocity_m_s r = v
  /\ (0 < v ->
      reynolds_number rho mu v d = Ok (Re r)
      /\ friction_factor_haland d k (Re r) = Ok (friction_factor r))
  /\ (~ 0 < v -> Re r = 0 /\ friction_factor r = 0).
Proof.
  unfold flow_snapshot. intros H.
  destruct (decide (0 < v)) as [Hv | Hv].
  - destruct (reynolds_number rho mu v d) as [Re0 |] eqn:HRe;
      [| discriminate H].
    cbn [Py.bind] in H.
    destruct (friction_factor_haland d k Re0) as [f0 |] eqn:Hf;
      [| discriminate H].
    cbn [Py.bind] in H. inversion H; subst r. cbn.
    unfold m3s_to_lpm.
    repeat split; try lra; try assumption; contradiction.
  - cbn [Py.bind] in H. inversion H; subst r. cbn.
    unfold m3s_to_lpm.
    repeat split; try lra; contradiction.
Qed.

End SolverFacts.

(** The path of a call that returns a dict. *)
Lemma flow_from_pump_pressure_dict (rho mu d L pump_deltaP_pa k : R)
    (fittings : option (list string)) (tol : R) (maxiter : Z)
    (r : FlowEstimateResult) :
  flow_from_pump_pressure rho mu d L pump_deltaP_pa k fittings tol maxiter
    = Ok (RetDict r) ->
  exists K_total v0 e,
    0 < pump_deltaP_pa
    /\ (if Py.truthy fittings then minor_loss_coeffs fittings else Ok 0)
         = Ok K_total
    /\ seed_velocity rho d L pump_deltaP_pa K_total = Ok v0
    /\ solver_loop rho mu d L pump_deltaP_pa k K_total tol
         (Z.to_nat maxiter) v0 (area d * v0) = Ok e
    /\ flow_snapshot rho mu d k (exit_v e) (exit_Q e) = Ok r.
Proof.
  unfold flow_from_pump_pressure. intros H.
  destruct (decide (pump_deltaP_pa <= 0)) as [? | HP]; [discriminate H |].
  destruct (if Py.truthy fittings then minor_loss_coeffs fittings else Ok 0)
    as [K_total |] eqn:HK; [| discriminate H].
  cbn [Py.bind] in H.
  destruct (seed_velocity rho d L pump_deltaP_pa K_total) as [v0 |] eqn:Hseed;
    [| discriminate H].
  cbn [Py.bind] in H.
  destruct (solver_loop _ _ _ _ _ _ _ _ _ _ _) as [e |] eqn:Hloop;
    [| discriminate H].
  cbn [Py.bind] in H.
  destruct (flow_snapshot rho mu d k (exit_v e) (exit_Q e)) as [r' |] eqn:Hs;
    [| discriminate H].
  cbn [Py.bind] in H. inversion H; subst r'.
  exists K_total, v0, e.
  split; [lra |]. repeat split; assumption.
Qed.

(** What does hold of every returned dict: the L/min figure, the Reynolds
    number and the friction factor belong to the stored [Q] and velocity,
    and [Q] is [A] times a velocity that is either the final one (loop ran
    out) or the one the final velocity was computed from (loop broke), the
    two being closer than [tol]. *)
Lemma flow_from_pump_pressure_consistency (rho mu d L pump_deltaP_pa k : R)
    (fittings : option (list string)) (tol : R) (maxiter : Z)
    (r : FlowEstimateResult) :
  flow_from_pump_pressure rho mu d L pump_deltaP_pa k fittings tol maxiter
    = Ok (RetDict r) ->
  Q_lpm r = 60000 * Q_m3s r
  /\ (0 < velocity_m_s r ->
      reynolds_number rho mu (velocity_m_s r) d = Ok (Re r)
      /\ friction_factor_haland d k (Re r) = Ok (friction_factor r))
  /\ exists v_prev,
       Q_m3s r = area d * v_prev
       /\ (v_prev = velocity_m_s r \/ Rabs (velocity_m_s r - v_prev) < tol).
Proof.
  intros H.
  destruct (flow_from_pump_pressure_dict _ _ _ _ _ _ _ _ _ _ H)
    as (K_total & v0 & e & HP & HK & Hseed & Hloop & Hsnap).
  apply flow_snapshot_fields in Hsnap
    as (HQ & Hlpm & Hv & Hpos & _).
  apply solver_loop_inv in Hloop.
  rewrite HQ, Hv. split; [exact Hlpm | split; [exact Hpos |]].
  destruct e as [v' Q' | v' Q']; cbn in *.
  - destruct Hloop as (v_prev & HQ' & _ & Hclose).
    exists v_prev. auto.
  - exists v'. auto.
Qed.

(* ===================================================================== *)
(** * The returned dict is defined on physical pipes                      *)
(* ===================================================================== *)

Lemma flow_snapshot_defined (rho mu d k v Q : R) :
  0 < rho -> 0 < mu -> 0 < d -> 0 <= k <= d ->
  exists r, flow_snapshot rho mu d k v Q = Ok r.
Proof.
  intros Hrho Hmu Hd Hk. unfold flow_snapshot.
  destruct (decide (0 < v)) as [Hv | Hv].
  - rewrite reynolds_number_ok by assumption. cbn [Py.bind].
    assert (HRe : 0 < rho * v * d / mu).
    { apply Rdiv_lt_0_compat; [| exact Hmu].
      apply Rmult_lt_0_compat; [| exact Hd].
      apply Rmult_lt_0_compat; assumption. }
    destruct (friction_factor_defined d k _ Hd Hk HRe) as (f & -> & _).
    cbn [Py.bind]. eauto.
  - cbn [Py.bind]. eauto.
Qed.

(* ===================================================================== *)
(** * Inverse solver: running out of iterations                           *)
(* ===================================================================== *)

(** Whatever the inputs, once the loop has run out the call is the dict
    literal evaluated at the last estimate: no error is raised on account
    of the missed tolerance. *)
Lemma flow_from_pump_pressure_exhausted (rho mu d L pump_deltaP_pa k : R)
    (fittings : option (list string)) (tol : R) (maxiter : Z)
    (K_total v0 v Q : R) :
  0 < pump_deltaP_pa ->
  (if Py.truthy fittings then minor_loss_coeffs fittings else Ok 0)
    = Ok K_total ->
  seed_velocity rho d L pump_deltaP_pa K_total = Ok v0 ->
  solver_loop rho mu d L pump_deltaP_pa k K_total tol (Z.to_nat maxiter)
    v0 (area d * v0) = Ok (Exhausted v Q) ->
  Q = area d * v
  /\ flow_from_pump_pressure rho mu d L pump_deltaP_pa k fittings tol maxiter
     = (let* r := flow_snapshot rho mu d k v (area d * v) in Ok (RetDict r)).
Proof.
  intros HP HK Hseed Hloop.
  assert (HQ := solver_loop_inv _ _ _ _ _ _ _ _ _ _ _ Hloop). cbn in HQ.
  split; [exact HQ |].
  unfold flow_from_pump_pressure.
  destruct (decide (pump_deltaP_pa <= 0)) as [? | _]; [lra |].
  rewrite HK. cbn [Py.bind]. rewrite Hseed. cbn [Py.bind].
  rewrite Hloop. cbn [Py.bind exit_v exit_Q]. rewrite HQ. reflexivity.
Qed.

(** Passes that all succeed and all miss the tolerance: the loop runs out
    with the last of the estimates [vs 0], [vs 1], ..., and with [Q]
    brought up to date. *)
Lemma solver_loop_misses (rho mu d L pump_deltaP_pa k K_total tol : R)
    (n : nat) :
  forall vs : nat -> R,
    (forall i, (i < n)%nat ->
       velocity_update rho mu d L pump_deltaP_pa k K_total (vs i)
         = Ok (vs (S i))
       /\ tol <= Rabs (vs (S i) - vs i)) ->
    solver_loop rho mu d L pump_deltaP_pa k K_total tol n
      (vs 0%nat) (area d * vs 0%nat)
    = Ok (Exhausted (vs n) (area d * vs n)).
Proof.
  induction n as [| n IH]; intros vs H; [reflexivity |].
  rewrite solver_loop_S.
  destruct (H 0%nat ltac:(lia)) as [Hup Hmiss]. rewrite Hup. cbn [Py.bind].
  destruct (decide (Rabs (vs 1%nat - vs 0%nat) < tol)) as [Hlt | _]; [lra |].
  apply (IH (fun i => vs (S i))).
  intros i Hi. apply H. lia.
Qed.

(** C3.  Non-convergence is silent.  Take a fluid and pipe of ordinary
    magnitude and let [vs 0] be the initial guess and [vs 1], [vs 2], ...
    the estimates of the successive passes.  If each of the [maxiter]
    passes moves the estimate by at least the tolerance, the loop runs
    through all of them, ends in its [else] arm with the last estimate
    [v = vs maxiter] and [Q = A * v], and the call returns the ordinary
    five-field dict built from that [v]: nothing is raised, and nothing in
    the dict tells that the tolerance was missed. *)
Theorem non_convergence_is_silent (rho mu d L pump_deltaP_pa k : R)
    (fittings : option (list string)) (tol : R) (maxiter : Z)
    (K_total : R) (vs : nat -> R) :
  ordinary rho -> ordinary mu -> ordinary d -> ordinary_or_zero L ->
  0 <= k <= d -> ordinary pump_deltaP_pa ->
  (if Py.truthy fittings then minor_loss_coeffs fittings else Ok 0)
    = Ok K_total ->
  seed_velocity rho d L pump_deltaP_pa K_total = Ok (vs 0%nat) ->
  (forall i, (i < Z.to_nat maxiter)%nat ->
     velocity_update rho mu d L pump_deltaP_pa k K_total (vs i)
       = Ok (vs (S i))
     /\ tol <= Rabs (vs (S i) - vs i)) ->
  let v := vs (Z.to_nat maxiter) in
  let res := flow_from_pump_pressure rho mu d L pump_deltaP_pa k fittings
               tol maxiter in
  solver_loop rho mu d L pump_deltaP_pa k K_total tol (Z.to_nat maxiter)
    (vs 0%nat) (area d * vs 0%nat) = Ok (Exhausted v (area d * v))
  /\ res = (let* r := flow_snapshot rho mu d k v (area d * v) in
            Ok (RetDict r))
  /\ exists Re_v f_v,
       res = Ok (RetDict {| Q_m3s := area d * v;
                            Q_lpm := m3s_to_lpm (area d * v);
                            velocity_m_s := v;
                            Re := Re_v;
                            friction_factor := f_v |})
       /\ (0 < v -> reynolds_number rho mu v d = Ok Re_v
                    /\ friction_factor_haland d k Re_v = Ok f_v).
Proof.
  intros Hrho Hmu Hd _ Hk HP HK Hseed Hmiss v res. subst v res.
  apply ordinary_pos in Hrho, Hmu, Hd, HP.
  assert (Hloop := solver_loop_misses _ _ _ _ _ _ _ _ _ vs Hmiss).
  split; [exact Hloop |].
  destruct (flow_from_pump_pressure_exhausted _ _ _ _ _ _ _ _ _ _ _ _ _
              HP HK Hseed Hloop) as [_ Hres].
  split; [exact Hres |]. rewrite Hres.
  destruct (flow_snapshot_defined rho mu d k (vs (Z.to_nat maxiter))
              (area d * vs (Z.to_nat maxiter)) Hrho Hmu Hd Hk) as [r Hr].
  rewrite Hr. cbn [Py.bind].
  destruct (flow_snapshot_fields _ _ _ _ _ _ _ Hr)
    as (HQr & Hlpm & Hv & Hpos & _).
  exists (Re r), (friction_factor r). split; [| exact Hpos].
  do 2 f_equal. destruct r as [q ql vv re ff]. cbn in *.
  unfold m3s_to_lpm. subst. f_equal. lra.
Qed.

(* ===================================================================== *)
(** * Evaluating the solver on concrete laminar flows                     *)
(* ===================================================================== *)

Lemma sqrt_eval (x y : R) : 0 <= y -> y * y = x -> Py.sqrt x = Ok y.
Proof.
  intros Hy <-. rewrite sqrt_ok by nra. f_equal. apply sqrt_square, Hy.
Qed.

Lemma seed_velocity_eval (rho d L pump_deltaP_pa K_total v0 : R) :
  d <> 0 ->
  rho * (0.02 * (L / d) + K_total) <> 0 ->
  0 <= v0 ->
  v0 * v0 * (rho * (0.02 * (L / d) + K_total)) = 2 * pump_deltaP_pa ->
  seed_velocity rho d L pump_deltaP_pa K_total = Ok v0.
Proof.
  intros Hd Hden Hv0 Heq. unfold seed_velocity.
  rewrite div_ok by exact Hd. cbn [Py.bind].
  rewrite div_ok by exact Hden. cbn [Py.bind].
  apply sqrt_eval; [exact Hv0 |].
  rewrite <- Heq. generalize dependent (rho * (0.02 * (L / d) + K_total)).
  intros D HD _. field. exact HD.
Qed.

Lemma velocity_update_laminar
    (rho mu d L pump_deltaP_pa k K_total v v_new : R) :
  0 < mu -> 0 < d -> 0 < v ->
  0 < rho * v * d / mu < 2300 ->
  0 < rho * (64 / (rho * v * d / mu) * (L / d) + K_total) / 2 ->
  0 <= v_new ->
  v_new * v_new * (rho * (64 / (rho * v * d / mu) * (L / d) + K_total) / 2)
    = pump_deltaP_pa ->
  velocity_update rho mu d L pump_deltaP_pa k K_total v = Ok v_new.
Proof.
  intros Hmu Hd Hv HRe Hden Hnew Heq. unfold velocity_update.
  rewrite reynolds_number_ok by assumption. cbn [Py.bind].
  destruct (decide (0 < v)) as [_ | ?]; [| contradiction].
  rewrite friction_factor_laminar by exact HRe. cbn [Py.bind].
  rewrite div_ok by lra. cbn [Py.bind].
  destruct (decide (_ <= 0)) as [? | _]; [lra |].
  rewrite div_ok by lra. cbn [Py.bind].
  apply sqrt_eval; [exact Hnew |].
  rewrite <- Heq.
  generalize dependent
    (rho * (64 / (rho * v * d / mu) * (L / d) + K_total) / 2).
  intros D HD _. field. lra.
Qed.

(** A thick oil ([rho = 1], [mu = 0.8]) in a pipe of 1 m by 1 m under
    1 Pa: the estimates are 10, 0.625, 0.15625 and 0.078125 m/s, each far
    from the one before. *)
Lemma oil_seed : seed_velocity 1 1 1 1 0 = Ok 10.
Proof. apply seed_velocity_eval; lra. Qed.

Lemma oil_pass_1 (k : R) : velocity_update 1 0.8 1 1 1 k 0 10 = Ok 0.625.
Proof. apply velocity_update_laminar; lra. Qed.

Lemma oil_pass_2 (k : R) :
  velocity_update 1 0.8 1 1 1 k 0 0.625 = Ok 0.15625.
Proof. apply velocity_update_laminar; lra. Qed.

Lemma oil_pass_3 (k : R) :
  velocity_update 1 0.8 1 1 1 k 0 0.15625 = Ok 0.078125.
Proof. apply velocity_update_laminar; lra. Qed.

Lemma non_convergence_is_silent_witness :
  exists Re_v f_v,
    flow_from_pump_pressure 1 0.8 1 1 1 default_k None default_tol 3
    = Ok (RetDict {| Q_m3s := area 1 * 0.078125;
                     Q_lpm := m3s_to_lpm (area 1 * 0.078125);
                     velocity_m_s := 0.078125;
                     Re := Re_v;
                     friction_factor := f_v |}).
Proof.
  destruct (non_convergence_is_silent 1 0.8 1 1 1 default_k None
              default_tol 3 0
              (fun i => match i with
                        | 0%nat => 10
                        | 1%nat => 0.625
                        | 2%nat => 0.15625
                        | _ => 0.078125
                        end))
    as (_ & _ & Re_v & f_v & Hres & _).
  - unfold ordinary. lra.
  - unfold ordinary. lra.
  - unfold ordinary. lra.
  - right. unfold ordinary. lra.
  - unfold default_k. lra.
  - unfold ordinary. lra.
  - reflexivity.
  - apply oil_seed.
  - intros i Hi. change (Z.to_nat 3) with 3%nat in Hi.
    destruct i as [| [| [| i]]]; [| | | lia].
    + split; [apply oil_pass_1 |].
      unfold default_tol. rewrite Rabs_left by lra. lra.
    + split; [apply oil_pass_2 |].
      unfold default_tol. rewrite Rabs_left by lra. lra.
    + split; [apply oil_pass_3 |].
      unfold default_tol. rewrite Rabs_left by lra. lra.
  - exists Re_v, f_v. exact Hres.
Defined.

(** A slow flow under the default tolerance [1e-6] and the default 100
    passes: [rho = 1000], [mu = 5e-7], [d = 1], [L = 1], 1.6e-12 Pa.  The
    initial guess is 4e-7 m/s, the first pass gives 2e-7 m/s, which is
    within the tolerance. *)
Lemma slow_seed : seed_velocity 1000 1 1 1.6e-12 0 = Ok 4e-7.
Proof. apply seed_velocity_eval; lra. Qed.

Lemma slow_first_pass (k : R) :
  velocity_update 1000 5e-7 1 1 1.6e-12 k 0 4e-7 = Ok 2e-7.
Proof. apply velocity_update_laminar; lra. Qed.

Lemma slow_loop_breaks (k : R) :
  solver_loop 1000 5e-7 1 1 1.6e-12 k 0 default_tol (Z.to_nat default_maxiter)
    4e-7 (area 1 * 4e-7) = Ok (Break 2e-7 (area 1 * 4e-7)).
Proof.
  replace (Z.to_nat default_maxiter) with (S 99) by reflexivity.
  rewrite solver_loop_S, slow_first_pass. cbn [Py.bind].
  destruct (decide (Rabs (2e-7 - 4e-7) < default_tol)) as [_ | Hge];
    [reflexivity |].
  exfalso. apply Hge. unfold default_tol. rewrite Rabs_left by lra. lra.
Qed.

(** C1 (what the code does).  On the slow flow the call returns a dict
    whose velocity is the final estimate 2e-7 m/s while [Q_m3s] is the area
    times the previous estimate 4e-7 m/s: [Q] is twice what the stored
    velocity gives.  The [break] arm assigns [v = v_new] and leaves without
    the [Q = A * v] that every other pass performs. *)
Theorem flow_from_pump_pressure_stale_Q :
  exists r,
    flow_from_pump_pressure 1000 5e-7 1 1 1.6e-12 default_k None
      default_tol default_maxiter = Ok (RetDict r)
    /\ velocity_m_s r = 2e-7
    /\ Q_m3s r = area 1 * 4e-7
    /\ Q_m3s r <> area 1 * velocity_m_s r
    /\ Q_m3s r = 2 * (area 1 * velocity_m_s r).
Proof.
  unfold flow_from_pump_pressure.
  destruct (decide (1.6e-12 <= 0)) as [? | _]; [lra |].
  cbn [Py.truthy Py.bind]. rewrite slow_seed. cbn [Py.bind].
  rewrite slow_loop_breaks. cbn [Py.bind exit_v exit_Q].
  destruct (flow_snapshot_defined 1000 5e-7 1 default_k 2e-7 (area 1 * 4e-7))
    as [r Hr]; try (unfold default_k; lra).
  rewrite Hr. cbn [Py.bind]. exists r.
  destruct (flow_snapshot_fields _ _ _ _ _ _ _ Hr) as (HQ & _ & Hv & _).
  assert (HA := area_pos 1 ltac:(lra)).
  rewrite HQ, Hv. repeat split; lra.
Qed.

(* ===================================================================== *)
(** * Round trip: the fixed-point iteration contracts                     *)
(* ===================================================================== *)

Lemma ln_le (x y : R) : 0 < x -> x <= y -> ln x <= ln y.
Proof.
  intros Hx [H | ->]; [left; apply ln_increasing; assumption | right; reflexivity].
Qed.

Lemma ln_le_sub1 (x : R) : 0 < x -> ln x <= x - 1.
Proof.
  intros Hx. assert (H := exp_ineq1_le (ln x)). rewrite exp_ln in H by exact Hx. lra.
Qed.

Lemma ln_ge_sub_inv (x : R) : 0 < x -> 1 - / x <= ln x.
Proof.
  intros Hx. assert (H := exp_ineq1_le (- ln x)).
  rewrite exp_Ropp, exp_ln in H by exact Hx. lra.
Qed.

Lemma ln_ratio (x y : R) : 0 < x -> 0 < y -> ln (x / y) = ln x - ln y.
Proof.
  intros Hx Hy. unfold Rdiv. rewrite ln_mult, ln_Rinv; try assumption; [lra |].
  apply Rinv_0_lt_compat, Hy.
Qed.

Lemma balance_algebra (c l10 ls lv Ld rho vs : R) :
  c <> 0 -> l10 <> 0 -> ls <> 0 -> lv <> 0 -> Ld <> 0 -> rho <> 0 ->
  vs * (lv / ls) * (vs * (lv / ls)) =
    (/ ((c * (ls / l10)) ^ 2) * Ld * / 2 * rho * vs ^ 2
     + 0 * / 2 * rho * vs ^ 2)
    / (rho * (/ ((c * (lv / l10)) ^ 2) * Ld + 0) / 2).
Proof. intros. field. repeat split; assumption. Qed.

Section RoundTrip.

Variables rho mu d L k vs : R.
Hypothesis Hrho : 0 < rho.
Hypothesis Hmu : 0 < mu.
Hypothesis Hd : 0 < d.
Hypothesis HL : 0 < L.
Hypothesis Hk : 0 <= k <= d.
Hypothesis Hvs : 0 < vs.
Hypothesis Hturb : 2300 <= rho * vs * d / mu.

Local Abbreviation T v := (haaland_term d k (rho * v * d / mu)).
Local Abbreviation dP :=
  (haaland_value d k (rho * vs * d / mu) * (L / d) * 0.5 * rho * vs ^ 2
   + 0 * 0.5 * rho * vs ^ 2).

Lemma Re_monotone (v : R) : vs <= v -> rho * vs * d / mu <= rho * v * d / mu.
Proof.
  intros Hv. unfold Rdiv. apply Rmult_le_compat_r.
  - left. apply Rinv_0_lt_compat, Hmu.
  - apply Rmult_le_compat_r; [lra |]. apply Rmult_le_compat_l; lra.
Qed.

Lemma term_bounds (v : R) : vs <= v -> 0 < T v /\ T v <= T vs /\ T vs < 1.
Proof.
  intros Hv. assert (HRe := Re_monotone v Hv).
  split; [apply haaland_term_pos; lra |].
  split; [| apply haaland_term_lt_1; assumption].
  unfold haaland_term. apply Rplus_le_compat_l.
  unfold Rdiv. apply Rmult_le_compat_l; [lra |].
  apply Rinv_le_contravar; lra.
Qed.

Lemma term_ratio (v : R) : vs <= v -> T vs * vs <= T v * v.
Proof.
  intros Hv. unfold haaland_term.
  assert (Hc := real_power_nonneg (k / (3.7 * d)) 1.11).
  assert (E1 : 6.9 / (rho * vs * d / mu) * vs = 6.9 * mu / (rho * d))
    by (field; lra).
  assert (E2 : 6.9 / (rho * v * d / mu) * v = 6.9 * mu / (rho * d))
    by (field; lra).
  rewrite !Rmult_plus_distr_r, E1, E2. nra.
Qed.

Lemma ln_term_neg (v : R) : vs <= v -> ln (T v) <= ln (T vs) /\ ln (T vs) < 0.
Proof.
  intros Hv. destruct (term_bounds v Hv) as (H0 & H1 & H2).
  split; [apply ln_le; assumption |].
  rewrite <- ln_1. apply ln_increasing; lra.
Qed.

Lemma update_formula (v : R) :
  vs <= v ->
  velocity_update rho mu d L dP k 0 v = Ok (vs * (ln (T v) / ln (T vs))).
Proof.
  intros Hv.
  destruct (term_bounds v Hv) as (Ht0 & Htle & Hts1).
  destruct (term_bounds vs ltac:(lra)) as (Hts0 & _ & _).
  destruct (ln_term_neg v Hv) as (Hln & Hlns).
  assert (HRe := Re_monotone v Hv).
  assert (Hl10 := ln10_pos).
  unfold velocity_update.
  rewrite reynolds_number_ok by assumption. cbn [Py.bind].
  destruct (decide (0 < v)) as [_ | ?]; [| lra].
  rewrite friction_factor_turbulent by (lra || assumption).
  cbn [Py.bind]. rewrite div_ok by lra. cbn [Py.bind].
  assert (Hfv := haaland_value_pos d k (rho * v * d / mu) ltac:(lra) ltac:(lra)).
  assert (HLd : 0 < L / d) by (apply Rdiv_lt_0_compat; assumption).
  assert (Hden : 0 < rho * (haaland_value d k (rho * v * d / mu) * (L / d) + 0) / 2).
  { assert (0 < haaland_value d k (rho * v * d / mu) * (L / d))
      by (apply Rmult_lt_0_compat; assumption).
    nra. }
  destruct (decide (_ <= 0)) as [? | _]; [lra |].
  rewrite div_ok by lra. cbn [Py.bind].
  apply sqrt_eval.
  - apply Rmult_le_pos; [lra |].
    replace (ln (T v) / ln (T vs)) with ((- ln (T v)) / (- ln (T vs)))
      by (field; lra).
    apply Rmult_le_pos; [lra |]. left. apply Rinv_0_lt_compat. lra.
  - unfold haaland_value, Rlog10.
    replace 0.5 with (/ 2) by lra.
    apply balance_algebra; lra.
Qed.

Lemma update_contracts (v : R) :
  vs <= v ->
  let v' := vs * (ln (T v) / ln (T vs)) in
  vs <= v' /\ (v' - vs) * - ln (T vs) <= v - vs.
Proof.
  intros Hv v'. subst v'.
  destruct (term_bounds v Hv) as (Ht0 & Htle & Hts1).
  destruct (term_bounds vs ltac:(lra)) as (Hts0 & _ & _).
  destruct (ln_term_neg v Hv) as (Hln & Hlns).
  assert (Hratio := term_ratio v Hv).
  assert (E : (vs * (ln (T v) / ln (T vs)) - vs) * - ln (T vs)
              = vs * (ln (T vs) - ln (T v))) by (field; lra).
  split.
  - assert (0 <= (vs * (ln (T v) / ln (T vs)) - vs) * - ln (T vs)) by (rewrite E; nra).
    nra.
  - rewrite E, <- ln_ratio by assumption.
    assert (Hq : 0 < T vs / T v) by (apply Rdiv_lt_0_compat; assumption).
    assert (Hle := ln_le_sub1 _ Hq).
    assert (Hqv : T vs / T v <= v / vs).
    { apply Rmult_le_reg_r with (T v * vs); [nra |].
      replace (T vs / T v * (T v * vs)) with (T vs * vs) by (field; lra).
      replace (v / vs * (T v * vs)) with (T v * v) by (field; lra).
      exact Hratio. }
    assert (Hvv : vs * (v / vs - 1) = v - vs) by (field; lra).
    nra.
Qed.

Lemma update_gap (v : R) :
  vs <= v ->
  vs * (1 - T v / T vs)
    <= (vs * (ln (T v) / ln (T vs)) - vs) * - ln (T vs).
Proof.
  intros Hv.
  destruct (term_bounds v Hv) as (Ht0 & Htle & Hts1).
  destruct (term_bounds vs ltac:(lra)) as (Hts0 & _ & _).
  destruct (ln_term_neg v Hv) as (Hln & Hlns).
  assert (E : (vs * (ln (T v) / ln (T vs)) - vs) * - ln (T vs)
              = vs * (ln (T vs) - ln (T v))) by (field; lra).
  rewrite E, <- ln_ratio by assumption.
  assert (Hq : 0 < T vs / T v) by (apply Rdiv_lt_0_compat; assumption).
  assert (Hge := ln_ge_sub_inv _ Hq).
  replace (/ (T vs / T v)) with (T v / T vs) in Hge by (field; lra).
  nra.
Qed.

Lemma seed_formula :
  seed_velocity rho d L dP 0
    = Ok (vs * R_sqrt.sqrt (haaland_value d k (rho * vs * d / mu) / 0.02)).
Proof.
  assert (Hfs := haaland_value_pos d k (rho * vs * d / mu) ltac:(lra)
                   ltac:(assert (H := haaland_term_lt_1 d k _ Hd Hk Hturb); lra)).
  assert (HLd : 0 < L / d) by (apply Rdiv_lt_0_compat; assumption).
  set (fs := haaland_value d k (rho * vs * d / mu)) in *.
  assert (Hq : 0 <= fs / 0.02) by (apply Rmult_le_pos; lra).
  apply seed_velocity_eval; try lra.
  - nra.
  - apply Rmult_le_pos; [lra | apply sqrt_pos].
  - replace (vs * R_sqrt.sqrt (fs / 0.02) * (vs * R_sqrt.sqrt (fs / 0.02)))
      with (vs * vs * (R_sqrt.sqrt (fs / 0.02) * R_sqrt.sqrt (fs / 0.02))) by ring.
    rewrite sqrt_sqrt by exact Hq. unfold Rdiv. lra.
Qed.

(** From a velocity within a factor [1 + eps] above [vs] the loop stays
    within that band however it is left. *)
Lemma loop_stays_close (tol eps : R) :
  1 <= - ln (T vs) ->
  forall (n : nat) (v : R),
    vs <= v <= (1 + eps) * vs ->
    exists e,
      solver_loop rho mu d L dP k 0 tol n v (area d * v) = Ok e
      /\ vs <= exit_v e <= (1 + eps) * vs
      /\ area d * vs <= exit_Q e <= (1 + eps) * (area d * vs).
Proof.
  intros HM. assert (HA := area_pos d ltac:(lra)).
  induction n as [| n IH]; intros v [Hlo Hhi].
  - exists (Exhausted v (area d * v)). cbn. repeat split; try lra; nra.
  - rewrite solver_loop_S, update_formula by exact Hlo. cbn [Py.bind].
    destruct (update_contracts v Hlo) as [Hlo' Hc].
    set (v' := vs * (ln (T v) / ln (T vs))) in *.
    assert (Hhi' : v' <= (1 + eps) * vs) by nra.
    destruct (decide (Rabs (v' - v) < tol)) as [_ | _].
    + exists (Break v' (area d * v)). cbn. repeat split; try lra; nra.
    + apply IH. lra.
Qed.

End RoundTrip.

(* ===================================================================== *)
(** * Round trip: the 20 L/min scenario                                   *)
(* ===================================================================== *)

Lemma ln10_ge_2 : 2 <= ln 10.
Proof.
  assert (H3 := exp_le_3). assert (Hp := exp_pos 1).
  assert (H : exp 2 <= 10).
  { replace 2 with (1 + 1) by lra. rewrite exp_plus. nra. }
  rewrite <- (ln_exp 2). apply ln_le; [apply exp_pos | exact H].
Qed.

Lemma ln2_le_1 : ln 2 <= 1.
Proof.
  assert (H := exp_ineq1_le 1).
  rewrite <- (ln_exp 1). apply ln_le; lra.
Qed.

Lemma ln_pow10 (n : nat) : ln (/ 10 ^ n) = - INR n * ln 10.
Proof.
  rewrite ln_Rinv by (apply pow_lt; lra). rewrite ln_pow by lra. lra.
Qed.

Lemma ln_pow2 (n : nat) : ln (/ 2 ^ n) = - INR n * ln 2.
Proof.
  rewrite ln_Rinv by (apply pow_lt; lra). rewrite ln_pow by lra. lra.
Qed.

(** Bounds on the logarithm of a Haaland term between 5.6e-4 and 7.8e-4. *)
Lemma ln_term_window (t : R) :
  5.6e-4 <= t <= 7.8e-4 ->
  6 <= - ln t <= 11 /\ 3 <= - (ln t / ln 10) <= 3.5.
Proof.
  intros [Hlo Hhi].
  assert (H10 := ln10_ge_2). assert (H2 := ln2_le_1).
  assert (Hup : ln t <= - 3 * ln 10).
  { replace (- 3 * ln 10) with (ln (/ 10 ^ 3)) by (rewrite ln_pow10; simpl; lra).
    apply ln_le; lra. }
  assert (Hdn : - 11 * ln 2 <= ln t).
  { replace (- 11 * ln 2) with (ln (/ 2 ^ 11)) by (rewrite ln_pow2; simpl; lra).
    apply ln_le; lra. }
  assert (Hsq : - 7 * ln 10 <= 2 * ln t).
  { replace (- 7 * ln 10) with (ln (/ 10 ^ 7)) by (rewrite ln_pow10; simpl; lra).
    replace (2 * ln t) with (ln (t ^ 2)) by (rewrite ln_pow by lra; simpl; lra).
    apply ln_le; [lra | nra]. }
  split; [split; nra |].
  assert (E : - (ln t / ln 10) * ln 10 = - ln t) by (field; lra).
  split.
  - apply Rmult_le_reg_r with (ln 10); [lra |]. rewrite E. lra.
  - apply Rmult_le_reg_r with (ln 10); [lra |]. rewrite E. lra.
Qed.

Lemma div_window (a x lo hi : R) :
  0 < x -> lo * x <= a <= hi * x -> lo <= a / x <= hi.
Proof.
  intros Hx [H1 H2].
  assert (E : a / x * x = a) by (field; lra).
  split; apply Rmult_le_reg_r with x; lra.
Qed.

Lemma PI_window : 3 < PI <= 4.
Proof. split; [assert (H := PI2_3_2); lra | apply PI_4]. Qed.

Lemma scenario_area : area 0.01905 * scenario_v = lpm_to_m3s 20.
Proof.
  unfold scenario_v. assert (HA := area_pos 0.01905 ltac:(lra)).
  field. lra.
Qed.

Lemma scenario_v_window : 0.918 <= scenario_v <= 1.225.
Proof.
  assert (HA := scenario_area). assert (HP := PI_window).
  assert (Hpos : 0 < scenario_v).
  { unfold scenario_v. apply Rdiv_lt_0_compat;
      [unfold lpm_to_m3s; lra | apply area_pos; lra]. }
  unfold area, lpm_to_m3s in HA.
  generalize dependent scenario_v. generalize dependent PI.
  intros p Hp v Hv Hpv. split; nra.
Qed.

Lemma scenario_Re_window : 9180 <= scenario_Re <= 12252.
Proof.
  assert (H := scenario_v_window). unfold scenario_Re. lra.
Qed.

Lemma roughness_power_window :
  0 <= real_power (default_k / (3.7 * 0.01905)) 1.11 <= 2.2e-5.
Proof.
  split; [apply real_power_nonneg |].
  assert (H : 0 <= default_k / (3.7 * 0.01905) <= 2.2e-5)
    by (unfold default_k; lra).
  assert (Hp := real_power_le_self (default_k / (3.7 * 0.01905))
                  ltac:(lra)).
  lra.
Qed.

Lemma term_window (Re : R) :
  9180 <= Re ->
  6.9 / Re <= haaland_term 0.01905 default_k Re <= 2.2e-5 + 6.9 / Re
  /\ 0 < 6.9 / Re <= 7.52e-4.
Proof.
  intros HRe. assert (Hc := roughness_power_window). unfold haaland_term.
  assert (Hr : 0 < 6.9 / Re <= 7.52e-4).
  { split; [apply Rdiv_lt_0_compat; lra |].
    apply (div_window 6.9 Re 0 7.52e-4); lra. }
  lra.
Qed.

Lemma scenario_term_window : 5.6e-4 <= scenario_term <= 7.8e-4.
Proof.
  assert (HRe := scenario_Re_window).
  destruct (term_window scenario_Re ltac:(lra)) as [[Hlo Hhi] [Hr0 Hr1]].
  assert (Hr : 5.63e-4 <= 6.9 / scenario_Re).
  { apply (div_window 6.9 scenario_Re 5.63e-4 1); lra. }
  unfold scenario_term. lra.
Qed.

Lemma scenario_f_window : 0.0251 <= scenario_f <= 0.0343.
Proof.
  destruct (ln_term_window _ scenario_term_window) as [_ [Hlo Hhi]].
  unfold scenario_f, haaland_value, Rlog10. fold scenario_term.
  set (x := ln scenario_term / ln 10) in *.
  assert (Hsq : 29.16 <= (-1.8 * x) ^ 2 <= 39.69) by nra.
  replace (/ (-1.8 * x) ^ 2) with (1 / (-1.8 * x) ^ 2) by (unfold Rdiv; lra).
  apply div_window; lra.
Qed.

Lemma sqrt_window (x lo hi : R) :
  0 <= lo -> 0 <= hi -> lo * lo <= x <= hi * hi ->
  lo <= R_sqrt.sqrt x <= hi.
Proof.
  intros Hlo Hhi [H1 H2]. split.
  - rewrite <- (sqrt_square lo Hlo). apply sqrt_le_1_alt, H1.
  - rewrite <- (sqrt_square hi Hhi). apply sqrt_le_1_alt, H2.
Qed.

Lemma scenario_seed_ratio_window :
  1.12 <= R_sqrt.sqrt (scenario_f / 0.02) <= 1.31.
Proof.
  assert (H := scenario_f_window). apply sqrt_window; lra.
Qed.

Lemma pressure_drop_turbulent (rho mu Q d L k : R)
    (fittings : option (list string)) :
  0 < mu -> 0 < d -> 0 <= L -> 0 <= k <= d -> 0 < Q ->
  Py.truthy fittings = false ->
  2300 <= rho * (Q / area d) * d / mu ->
  exists pd,
    pressure_drop_pipe rho mu Q d L k fittings = Ok pd
    /\ pd_velocity_m_s pd = Q / area d
    /\ pd_total_loss_Pa pd =
         haaland_value d k (rho * (Q / area d) * d / mu) * (L / d) * 0.5
           * rho * (Q / area d) ^ 2
         + 0 * 0.5 * rho * (Q / area d) ^ 2.
Proof.
  intros Hmu Hd HL Hk HQ Hf Hturb.
  rewrite pressure_drop_pipe_body by lra. cbv zeta.
  assert (HA := area_pos d ltac:(lra)).
  assert (Hv : 0 < Q / area d) by (apply Rdiv_lt_0_compat; assumption).
  destruct (decide (0 < Q / area d)) as [_ | ?]; [| contradiction].
  rewrite reynolds_number_ok by assumption. cbn [Py.bind].
  assert (Hlt := haaland_term_lt_1 d k _ Hd Hk Hturb).
  rewrite friction_factor_turbulent by (lra || assumption).
  cbn [Py.bind]. rewrite Hf. cbn [Py.bind].
  eexists. split; [reflexivity |]. cbn. split; reflexivity.
Qed.

Lemma scenario_turbulent : 2300 <= 1050 * scenario_v * 0.01905 / 0.002.
Proof. assert (H := scenario_Re_window). unfold scenario_Re in H. lra. Qed.

Lemma scenario_roughness : 0 <= default_k <= 0.01905.
Proof. unfold default_k. lra. Qed.

Lemma scenario_v_pos : 0 < scenario_v.
Proof. assert (H := scenario_v_window). lra. Qed.

(** The Haaland term at the initial guess is at least 7% below the term at
    the true velocity. *)
Lemma scenario_seed_term (r0 : R) :
  1.12 <= r0 ->
  haaland_term 0.01905 default_k (1050 * (scenario_v * r0) * 0.01905 / 0.002)
    <= 0.93 * scenario_term.
Proof.
  intros Hr0. assert (HRe := scenario_Re_window).
  assert (Hc := roughness_power_window).
  assert (Ha : 5.63e-4 <= 6.9 / scenario_Re)
    by (apply (div_window 6.9 scenario_Re 5.63e-4 1); lra).
  assert (E : 6.9 / (1050 * (scenario_v * r0) * 0.01905 / 0.002) * r0
              = 6.9 / scenario_Re).
  { unfold scenario_Re. assert (Hv := scenario_v_pos). field. lra. }
  unfold scenario_term, haaland_term.
  set (a0 := 6.9 / (1050 * (scenario_v * r0) * 0.01905 / 0.002)) in *.
  set (a := 6.9 / scenario_Re) in *.
  set (c := real_power (default_k / (3.7 * 0.01905)) 1.11) in *.
  assert (Ha0 : 0 <= a0).
  { unfold a0. apply Rmult_le_pos; [lra |]. left. apply Rinv_0_lt_compat.
    assert (Hv := scenario_v_pos).
    apply Rdiv_lt_0_compat; [| lra].
    apply Rmult_lt_0_compat; [| lra]. apply Rmult_lt_0_compat; [lra |].
    apply Rmult_lt_0_compat; lra. }
  nra.
Qed.

(** C7.  Round trip on the scenario [rho = 1050], [mu = 0.002],
    [d = 0.01905], [L = 10], no fittings, 20 L/min: the pressure drop that
    [pressure_drop_pipe] computes, fed to [flow_from_pump_pressure] with the
    default tolerance [1e-6] and the default 100 passes, comes back as a
    flow within 1% of 20 L/min.  The first two passes do not meet the
    tolerance; from the third on every velocity, and with it the [Q] that a
    [break] leaves one pass behind, is within 1% of the true one. *)
Theorem round_trip_20_lpm :
  exists pd r,
    pressure_drop_pipe 1050 0.002 (lpm_to_m3s 20) 0.01905 10 default_k None
      = Ok pd
    /\ flow_from_pump_pressure 1050 0.002 0.01905 10 (pd_total_loss_Pa pd)
         default_k None default_tol default_maxiter = Ok (RetDict r)
    /\ Rabs (Q_lpm r - 20) <= 0.01 * 20.
Proof.
  assert (Hv := scenario_v_window). assert (Hvpos := scenario_v_pos).
  assert (Hk := scenario_roughness). assert (Hturb := scenario_turbulent).
  assert (Hf := scenario_f_window).
  destruct (ln_term_window _ scenario_term_window) as [[HM6 HM11] _].
  destruct scenario_seed_ratio_window as [Hr_lo Hr_hi].
  assert (HA := area_pos 0.01905 ltac:(lra)).
  (* forward *)
  destruct (pressure_drop_turbulent 1050 0.002 (lpm_to_m3s 20) 0.01905 10
              default_k None) as (pd & Hpd & _ & HdP);
    try lra; [unfold lpm_to_m3s; lra | reflexivity | exact Hturb |].
  fold scenario_v in HdP.
  exists pd.
  (* inverse: entry and initial guess *)
  unfold flow_from_pump_pressure. rewrite HdP.
  fold scenario_Re scenario_f.
  destruct (decide (_ <= 0)) as [Hneg | _].
  { exfalso. assert (Hs : 0 < scenario_v ^ 2) by (apply pow_lt; lra).
    set (s := scenario_v ^ 2) in *. nra. }
  cbn [Py.truthy Py.bind]. unfold scenario_f, scenario_Re.
  rewrite (seed_formula 1050 0.002 0.01905 10 default_k scenario_v)
    by (lra || assumption).
  cbn [Py.bind]. fold scenario_Re scenario_f.
  set (r0 := R_sqrt.sqrt (scenario_f / 0.02)) in *.
  set (v0 := scenario_v * r0).
  assert (Hv0 : scenario_v <= v0) by (unfold v0; nra).
  (* first pass *)
  replace (Z.to_nat default_maxiter) with (S (S 98)) by reflexivity.
  unfold scenario_f, scenario_Re.
  rewrite solver_loop_S.
  rewrite (update_formula 1050 0.002 0.01905 10 default_k scenario_v)
    by (lra || assumption).
  cbn [Py.bind].
  destruct (update_contracts 1050 0.002 0.01905 default_k scenario_v
              ltac:(lra) ltac:(lra) ltac:(lra) Hk Hvpos Hturb v0 Hv0)
    as [Hv1 Hc1].
  assert (Hg1 := update_gap 1050 0.002 0.01905 default_k scenario_v
              ltac:(lra) ltac:(lra) ltac:(lra) Hk Hvpos Hturb v0 Hv0).
  assert (Hseed := scenario_seed_term r0 Hr_lo). fold v0 in Hseed.
  fold scenario_Re scenario_term in *.
  set (T0 := haaland_term 0.01905 default_k (1050 * v0 * 0.01905 / 0.002)) in *.
  set (v1 := scenario_v * (ln T0 / ln scenario_term)) in *.
  assert (Hts := scenario_term_window).
  assert (Hq : T0 / scenario_term <= 0.93).
  { apply (div_window T0 scenario_term 0 0.93); [lra |].
    split; [| lra]. unfold T0. left. rewrite Rmult_0_l. apply haaland_term_pos.
    apply Rdiv_lt_0_compat; [| lra]. unfold v0. nra. }
  assert (Hv1lo : 0.005 <= v1 - scenario_v) by nra.
  assert (Hv1hi : v1 - scenario_v <= (v0 - scenario_v) / 6) by nra.
  destruct (decide (Rabs (v1 - v0) < default_tol)) as [Hbrk | _].
  { exfalso. unfold default_tol in Hbrk.
    rewrite Rabs_left1 in Hbrk by (unfold v0 in *; nra).
    unfold v0 in *. nra. }
  (* second pass *)
  rewrite solver_loop_S.
  rewrite (update_formula 1050 0.002 0.01905 10 default_k scenario_v)
    by (lra || assumption).
  cbn [Py.bind].
  destruct (update_contracts 1050 0.002 0.01905 default_k scenario_v
              ltac:(lra) ltac:(lra) ltac:(lra) Hk Hvpos Hturb v1 Hv1)
    as [Hv2 Hc2].
  fold scenario_Re scenario_term in *.
  set (T1 := haaland_term 0.01905 default_k (1050 * v1 * 0.01905 / 0.002)) in *.
  set (v2 := scenario_v * (ln T1 / ln scenario_term)) in *.
  assert (Hv2hi : v2 - scenario_v <= (v1 - scenario_v) / 6) by nra.
  destruct (decide (Rabs (v2 - v1) < default_tol)) as [Hbrk | _].
  { exfalso. unfold default_tol in Hbrk.
    rewrite Rabs_left1 in Hbrk by lra. lra. }
  (* the remaining passes stay within 1% *)
  assert (Hband : scenario_v <= v2 <= (1 + 0.01) * scenario_v)
    by (unfold v0 in *; nra).
  destruct (loop_stays_close 1050 0.002 0.01905 10 default_k scenario_v
              ltac:(lra) ltac:(lra) ltac:(lra) ltac:(lra) Hk Hvpos Hturb
              default_tol 0.01 ltac:(fold scenario_Re scenario_term; lra)
              98%nat v2 Hband)
    as (e & He & Hev & HeQ).
  unfold scenario_f, scenario_Re, scenario_term in He |- *.
  rewrite He. cbn [Py.bind].
  destruct (flow_snapshot_defined 1050 0.002 0.01905 default_k
              (exit_v e) (exit_Q e)) as [r Hr]; try lra.
  rewrite Hr. cbn [Py.bind]. exists r.
  split; [exact Hpd | split; [reflexivity |]].
  destruct (flow_snapshot_fields _ _ _ _ _ _ _ Hr) as (_ & Hlpm & _).
  rewrite Hlpm. rewrite scenario_area in HeQ. unfold lpm_to_m3s in HeQ.
  apply Rabs_le. lra.
Qed.

(* ===================================================================== *)
(** * Units                                                               *)
(* ===================================================================== *)

(** X1.  Over the reals the unit helpers are mutually inverse: L/min to
    m3/s and back, Pa to psi and back, in both orders. *)
Theorem unit_conversions_round_trip (x : R) :
  m3s_to_lpm (lpm_to_m3s x) = x /\ lpm_to_m3s (m3s_to_lpm x) = x
  /\ psi_to_pa (pa_to_psi x) = x /\ pa_to_psi (psi_to_pa x) = x.
Proof.
  unfold m3s_to_lpm, lpm_to_m3s, psi_to_pa, pa_to_psi.
  repeat split; unfold Rdiv; lra.
Qed.

(* ===================================================================== *)
(** * Reynolds number                                                     *)
(* ===================================================================== *)

(** X2.  [reynolds_number] raises [ValueError] exactly when the viscosity
    or the diameter is not positive and otherwise returns; on valid
    arguments with a positive density the value grows strictly with the
    velocity and with the diameter and falls strictly with the viscosity. *)
Theorem reynolds_number_monotone (rho mu v d : R) :
  (raises is_InvalidArgument (reynolds_number rho mu v d)
   <-> mu <= 0 \/ d <= 0)
  /\ (returns (reynolds_number rho mu v d) <-> 0 < mu /\ 0 < d)
  /\ (0 < rho -> 0 < mu -> 0 < d ->
      exists Re1,
        reynolds_number rho mu v d = Ok Re1
        /\ (forall v', v < v' ->
            exists Re2, reynolds_number rho mu v' d = Ok Re2 /\ Re1 < Re2)
        /\ (forall d', 0 < v -> d < d' ->
            exists Re2, reynolds_number rho mu v d' = Ok Re2 /\ Re1 < Re2)
        /\ (forall mu', 0 < v -> mu < mu' ->
            exists Re2, reynolds_number rho mu' v d = Ok Re2 /\ Re2 < Re1)).
Proof.
  split; [| split].
  - split.
    + intros [e [He _]]. unfold reynolds_number in He.
      destruct (decide (mu <= 0 \/ d <= 0)) as [Hbad | Hgood]; [exact Hbad |].
      rewrite div_ok in He; [discriminate He |].
      intros ->. apply Hgood. left. lra.
    + intros H. rewrite reynolds_number_invalid by exact H.
      apply raises_Raise. reflexivity.
  - split.
    + intros [a Ha]. unfold reynolds_number in Ha.
      destruct (decide (mu <= 0 \/ d <= 0)) as [Hbad | Hgood];
        [discriminate Ha |].
      split.
      * destruct (Rlt_dec 0 mu); [assumption |]. exfalso. apply Hgood. left. lra.
      * destruct (Rlt_dec 0 d); [assumption |]. exfalso. apply Hgood. right. lra.
    + intros [Hmu Hd]. rewrite reynolds_number_ok by assumption.
      eexists. reflexivity.
  - intros Hrho Hmu Hd. exists (rho * v * d / mu).
    split; [apply reynolds_number_ok; assumption |].
    assert (Hi : 0 < / mu) by (apply Rinv_0_lt_compat, Hmu).
    split; [| split].
    + intros v' Hv. exists (rho * v' * d / mu).
      split; [apply reynolds_number_ok; assumption |].
      unfold Rdiv. apply Rmult_lt_compat_r; [exact Hi |].
      apply Rmult_lt_compat_r; [exact Hd |].
      apply Rmult_lt_compat_l; assumption.
    + intros d' Hv Hdd. exists (rho * v * d' / mu).
      split; [apply reynolds_number_ok; lra |].
      unfold Rdiv. apply Rmult_lt_compat_r; [exact Hi |].
      apply Rmult_lt_compat_l; [| exact Hdd].
      apply Rmult_lt_0_compat; assumption.
    + intros mu' Hv Hmm. exists (rho * v * d / mu').
      split; [apply reynolds_number_ok; lra |].
      assert (Hn : 0 < rho * v * d)
        by (repeat apply Rmult_lt_0_compat; assumption).
      unfold Rdiv. apply Rmult_lt_compat_l; [exact Hn |].
      apply Rinv_lt_contravar; [| exact Hmm].
      apply Rmult_lt_0_compat; lra.
Qed.

Lemma reynolds_number_monotone_witness :
  exists Re1 Re2,
    reynolds_number 1050 0.002 1 0.01905 = Ok Re1
    /\ reynolds_number 1050 0.002 2 0.01905 = Ok Re2 /\ Re1 < Re2.
Proof.
  destruct (reynolds_number_monotone 1050 0.002 1 0.01905) as (_ & _ & Hm).
  destruct (Hm ltac:(lra) ltac:(lra) ltac:(lra)) as (Re1 & H1 & Hv & _).
  destruct (Hv 2 ltac:(lra)) as (Re2 & H2 & Hlt).
  exists Re1, Re2. auto.
Defined.

(* ===================================================================== *)
(** * Friction factor: sign, monotonicity, error edges                    *)
(* ===================================================================== *)

Lemma friction_factor_positive (d k Re0 f : R) :
  friction_factor_haland d k Re0 = Ok f -> 0 < f.
Proof.
  unfold friction_factor_haland. intros H.
  destruct (decide (Re0 <= 0)); [discriminate H |].
  destruct (decide (Re0 < 2300)).
  - rewrite div_ok in H by lra. injection H as <-.
    apply Rdiv_lt_0_compat; lra.
  - destruct (Py.div k (3.7 * d)) as [rel |]; [| discriminate H].
    cbn [Py.bind] in H.
    destruct (Py.div 6.9 Re0) as [r |]; [| discriminate H].
    cbn [Py.bind] in H.
    destruct (Py.log10 _) as [lg |]; [| discriminate H].
    cbn [Py.bind] in H. unfold Py.pow_neg2 in H.
    destruct (decide (-1.8 * lg = 0)) as [? | Hx]; [discriminate H |].
    assert (Hf : f = / (-1.8 * lg) ^ 2) by congruence.
    rewrite Hf. apply Rinv_0_lt_compat.
    replace ((-1.8 * lg) ^ 2) with (Rsqr (-1.8 * lg)) by (unfold Rsqr; ring).
    apply Rlt_0_sqr, Hx.
Qed.

Lemma real_power_monotone (x y : R) :
  0 <= x <= y -> real_power x 1.11 <= real_power y 1.11.
Proof.
  intros [Hx Hxy]. unfold real_power.
  destruct (decide (x = 0)) as [-> | Hx0]; destruct (decide (y = 0)) as [-> | Hy0];
    try lra.
  - left. unfold Rpower. apply exp_pos.
  - apply Rle_Rpower_l; lra.
Qed.

(** For [t1 <= t2 < 1] the Haaland value at [t1] is at most that at [t2]. *)
Lemma haaland_value_monotone (d k k' Re1 Re2 : R) :
  0 < haaland_term d k Re1 <= haaland_term d k' Re2 ->
  haaland_term d k' Re2 < 1 ->
  haaland_value d k Re1 <= haaland_value d k' Re2.
Proof.
  intros [H0 Hle] H1. unfold haaland_value, Rlog10.
  assert (Hl10 := ln10_pos).
  assert (Hln1 : ln (haaland_term d k Re1) <= ln (haaland_term d k' Re2))
    by (apply ln_le; assumption).
  assert (Hln2 : ln (haaland_term d k' Re2) < 0)
    by (rewrite <- ln_1; apply ln_increasing; lra).
  set (a := ln (haaland_term d k Re1)) in *.
  set (b := ln (haaland_term d k' Re2)) in *.
  assert (Ha : a / ln 10 <= b / ln 10).
  { unfold Rdiv. apply Rmult_le_compat_r; [| exact Hln1].
    left. apply Rinv_0_lt_compat, Hl10. }
  assert (Hb : b / ln 10 < 0).
  { unfold Rdiv. apply Rmult_neg_pos; [exact Hln2 |].
    apply Rinv_0_lt_compat, Hl10. }
  apply Rinv_le_contravar; nra.
Qed.

(** X3.  Every friction factor that comes back is positive.  It falls
    strictly as the Reynolds number grows inside the laminar range, and on
    a physical pipe ([0 <= k <= d]) it does not rise with the Reynolds
    number inside the turbulent range and does not fall when the pipe gets
    rougher. *)
Theorem friction_factor_monotone (d k k' Re1 Re2 : R) :
  (forall f, friction_factor_haland d k Re1 = Ok f -> 0 < f)
  /\ (0 < Re1 < Re2 -> Re2 < 2300 ->
      exists f1 f2,
        friction_factor_haland d k Re1 = Ok f1
        /\ friction_factor_haland d k Re2 = Ok f2 /\ f2 < f1)
  /\ (0 < d -> 0 <= k <= d -> 2300 <= Re1 <= Re2 ->
      exists f1 f2,
        friction_factor_haland d k Re1 = Ok f1
        /\ friction_factor_haland d k Re2 = Ok f2 /\ f2 <= f1)
  /\ (0 < d -> 0 <= k <= k' -> k' <= d -> 2300 <= Re1 ->
      exists f f',
        friction_factor_haland d k Re1 = Ok f
        /\ friction_factor_haland d k' Re1 = Ok f' /\ f <= f').
Proof.
  split; [| split; [| split]].
  - intros f. apply friction_factor_positive.
  - intros [H0 H12] H2. exists (64 / Re1), (64 / Re2).
    split; [apply friction_factor_laminar; lra |].
    split; [apply friction_factor_laminar; lra |].
    unfold Rdiv. apply Rmult_lt_compat_l; [lra |].
    apply Rinv_lt_contravar; [nra | exact H12].
  - intros Hd Hk [H1 H12].
    assert (Hlt1 := haaland_term_lt_1 d k Re1 Hd Hk H1).
    assert (Hlt2 := haaland_term_lt_1 d k Re2 Hd Hk ltac:(lra)).
    exists (haaland_value d k Re1), (haaland_value d k Re2).
    split; [apply friction_factor_turbulent; lra |].
    split; [apply friction_factor_turbulent; lra |].
    apply haaland_value_monotone; [| exact Hlt1].
    split; [apply haaland_term_pos; lra |].
    unfold haaland_term. apply Rplus_le_compat_l.
    unfold Rdiv. apply Rmult_le_compat_l; [lra |].
    apply Rinv_le_contravar; lra.
  - intros Hd [Hk0 Hkk] Hkd H1.
    assert (Hlt1 := haaland_term_lt_1 d k Re1 Hd ltac:(lra) H1).
    assert (Hlt2 := haaland_term_lt_1 d k' Re1 Hd ltac:(lra) H1).
    exists (haaland_value d k Re1), (haaland_value d k' Re1).
    split; [apply friction_factor_turbulent; lra |].
    split; [apply friction_factor_turbulent; lra |].
    apply haaland_value_monotone; [| exact Hlt2].
    split; [apply haaland_term_pos; lra |].
    unfold haaland_term. apply Rplus_le_compat_r.
    apply real_power_monotone.
    assert (Hi : 0 < / (3.7 * d)) by (apply Rinv_0_lt_compat; lra).
    unfold Rdiv. split; [apply Rmult_le_pos; lra |].
    apply Rmult_le_compat_r; lra.
Qed.

Lemma friction_factor_monotone_witness :
  (exists f1 f2,
      friction_factor_haland 0.01905 default_k 1000 = Ok f1
      /\ friction_factor_haland 0.01905 default_k 2000 = Ok f2 /\ f2 < f1)
  /\ (exists f1 f2,
         friction_factor_haland 0.01905 default_k 5000 = Ok f1
         /\ friction_factor_haland 0.01905 default_k 9000 = Ok f2 /\ f2 <= f1)
  /\ (exists f f',
         friction_factor_haland 0.01905 default_k 5000 = Ok f
         /\ friction_factor_haland 0.01905 1e-4 5000 = Ok f' /\ f <= f').
Proof.
  destruct (friction_factor_monotone 0.01905 default_k 1e-4 1000 2000)
    as (_ & Hlam & _ & _).
  destruct (friction_factor_monotone 0.01905 default_k 1e-4 5000 9000)
    as (_ & _ & Hturb & Hrough).
  unfold default_k in *.
  split; [apply Hlam; lra | split; [apply Hturb; lra | apply Hrough; lra]].
Defined.

(** X4.  Error edges of the turbulent branch ([Re >= 2300]): a zero
    diameter ends in [ZeroDivisionError]; a roughness and a diameter of
    ordinary magnitude and opposite signs make the base of the power
    negative, the power a [complex], and [log10] raises [TypeError].
    Neither is the [ValueError] that an invalid argument gets elsewhere. *)
Theorem friction_factor_turbulent_errors (d k Re0 : R) :
  2300 <= Re0 ->
  (d = 0 -> friction_factor_haland d k Re0 = Raise ZeroDivisionError)
  /\ (ordinary (Rabs k) -> ordinary (Rabs d) -> k * d < 0 ->
      friction_factor_haland d k Re0 = Raise TypeError).
Proof.
  intros HRe. unfold friction_factor_haland.
  destruct (decide (Re0 <= 0)); [lra |].
  destruct (decide (Re0 < 2300)); [lra |].
  split.
  - intros ->. replace (3.7 * 0) with 0 by lra. rewrite div_zero. reflexivity.
  - intros _ Hd Hsign.
    assert (Hd0 : d <> 0).
    { intros ->. unfold ordinary in Hd. rewrite Rabs_R0 in Hd. lra. }
    assert (Hneg : k / (3.7 * d) < 0).
    { destruct (Rlt_dec 0 d) as [Hpos | Hnpos].
      - assert (k < 0) by nra.
        apply Rmult_neg_pos; [lra |]. apply Rinv_0_lt_compat. lra.
      - assert (d < 0) by lra. assert (0 < k) by nra.
        replace (k / (3.7 * d)) with (- (k / (3.7 * - d)))
          by (field; lra).
        assert (0 < k / (3.7 * - d)); [| lra].
        apply Rdiv_lt_0_compat; lra. }
    rewrite div_ok by lra. cbn [Py.bind].
    rewrite div_ok by lra. cbn [Py.bind]. unfold Py.pow_frac.
    destruct (decide (k / (3.7 * d) < 0)); [reflexivity | contradiction].
Qed.

Lemma friction_factor_turbulent_errors_witness :
  friction_factor_haland 0 default_k 5000 = Raise ZeroDivisionError
  /\ friction_factor_haland 0.01905 (-1e-6) 5000 = Raise TypeError.
Proof.
  destruct (friction_factor_turbulent_errors 0 default_k 5000) as [H0 _];
    [lra |].
  destruct (friction_factor_turbulent_errors 0.01905 (-1e-6) 5000) as [_ Hn];
    [lra |].
  split; [apply H0; reflexivity | apply Hn].
  - unfold ordinary. rewrite Rabs_left by lra. lra.
  - unfold ordinary. rewrite Rabs_right by lra. lra.
  - lra.
Defined.

(* ===================================================================== *)
(** * Minor losses: catalog bounds, order independence                    *)
(* ===================================================================== *)

Lemma catalog_values (f : string) (K : R) :
  STANDARD_FITTING_K !! f = Some K -> 0 < K <= 10.
Proof.
  intros H. unfold STANDARD_FITTING_K in H.
  apply elem_of_list_to_map_2 in H.
  repeat (apply elem_of_cons in H as [H | H];
          [injection H as _ ->; lra |]).
  inversion H.
Qed.

Lemma sum_fitting_K_app (fs1 fs2 : list string) (acc : R) :
  sum_fitting_K acc (fs1 ++ fs2)
  = let* K1 := sum_fitting_K acc fs1 in sum_fitting_K K1 fs2.
Proof.
  revert acc. induction fs1 as [| f fs1 IH]; intros acc;
    cbn [sum_fitting_K app Py.bind]; [reflexivity |].
  destruct (STANDARD_FITTING_K !! f); [apply IH | reflexivity].
Qed.

Lemma sum_fitting_K_shift (fs : list string) (acc K : R) :
  sum_fitting_K acc fs = Ok K ->
  forall acc', sum_fitting_K acc' fs = Ok (K - acc + acc').
Proof.
  revert acc K. induction fs as [| f fs IH]; intros acc K H acc';
    cbn [sum_fitting_K] in *.
  - injection H as <-. f_equal. lra.
  - destruct (STANDARD_FITTING_K !! f) as [Kf |]; [| discriminate H].
    rewrite (IH _ _ H (acc' + Kf)). f_equal. lra.
Qed.

Lemma sum_fitting_K_bounds (fs : list string) (acc K : R) :
  sum_fitting_K acc fs = Ok K ->
  acc <= K <= acc + 10 * INR (length fs)
  /\ (fs <> [] -> acc < K).
Proof.
  revert acc K. induction fs as [| f fs IH]; intros acc K H.
  - cbn [sum_fitting_K length] in *. injection H as <-.
    split; [cbn; lra | congruence].
  - cbn [sum_fitting_K] in H.
    destruct (STANDARD_FITTING_K !! f) as [Kf |] eqn:Hf; [| discriminate H].
    apply catalog_values in Hf. destruct (IH _ _ H) as [[Hlo Hhi] _].
    rewrite length_cons, S_INR. split; [lra | intros _; lra].
Qed.

Lemma sum_fitting_K_perm (fs1 fs2 : list string) :
  fs1 ≡ₚ fs2 ->
  forall acc K, sum_fitting_K acc fs1 = Ok K -> sum_fitting_K acc fs2 = Ok K.
Proof.
  induction 1 as [| f fs1 fs2 _ IH | f g fs | fs1 fs2 fs3 _ IH1 _ IH2];
    intros acc K H.
  - exact H.
  - cbn [sum_fitting_K] in *.
    destruct (STANDARD_FITTING_K !! f); [apply IH, H | discriminate H].
  - cbn [sum_fitting_K] in *.
    destruct (STANDARD_FITTING_K !! g) as [Kg |]; [| discriminate H].
    destruct (STANDARD_FITTING_K !! f) as [Kf |]; [| discriminate H].
    replace (acc + Kf + Kg) with (acc + Kg + Kf) by lra. exact H.
  - apply IH2, IH1, H.
Qed.

Lemma minor_loss_coeffs_Some (fs : list string) :
  minor_loss_coeffs (Some fs) = sum_fitting_K 0 fs.
Proof. destruct fs; reflexivity. Qed.

(** X5.  The order of the fittings does not matter: over the reals a
    reordered list gives the same total, and it raises when the original
    raises.  Totals add up over concatenation. *)
Theorem minor_loss_coeffs_order (fs1 fs2 : list string) :
  (Permutation fs1 fs2 ->
   (forall K, minor_loss_coeffs (Some fs1) = Ok K
              <-> minor_loss_coeffs (Some fs2) = Ok K)
   /\ (raises is_UnknownFitting (minor_loss_coeffs (Some fs1))
       <-> raises is_UnknownFitting (minor_loss_coeffs (Some fs2))))
  /\ (forall K1 K2,
        minor_loss_coeffs (Some fs1) = Ok K1 ->
        minor_loss_coeffs (Some fs2) = Ok K2 ->
        minor_loss_coeffs (Some (fs1 ++ fs2)) = Ok (K1 + K2)).
Proof.
  split.
  - intros Hp.
    assert (Hiff : forall K, minor_loss_coeffs (Some fs1) = Ok K
                             <-> minor_loss_coeffs (Some fs2) = Ok K).
    { intros K. rewrite !minor_loss_coeffs_Some. split.
      - apply sum_fitting_K_perm, Hp.
      - apply sum_fitting_K_perm. symmetry. exact Hp. }
    split; [exact Hiff |].
    assert (Hkind : forall fs, raises is_UnknownFitting
                                 (minor_loss_coeffs (Some fs))
                               <-> ~ returns (minor_loss_coeffs (Some fs))).
    { intros fs. rewrite minor_loss_coeffs_Some. split.
      - intros [e [He _]] [a Ha]. congruence.
      - intros Hn. revert Hn. generalize 0.
        induction fs as [| f fs IH]; intros acc Hn; cbn [sum_fitting_K] in *.
        + exfalso. apply Hn. eexists. reflexivity.
        + destruct (STANDARD_FITTING_K !! f);
            [apply IH, Hn | apply raises_Raise; reflexivity]. }
    rewrite !Hkind. split; intros Hn [K HK]; apply Hn; exists K;
      apply Hiff, HK.
  - intros K1 K2 H1 H2. rewrite minor_loss_coeffs_Some in *.
    rewrite sum_fitting_K_app, H1. cbn [Py.bind].
    rewrite (sum_fitting_K_shift _ _ _ H2 K1). f_equal. lra.
Qed.

Lemma minor_loss_coeffs_order_witness :
  minor_loss_coeffs (Some ["filter"; "gate_valve"]%string)
  = minor_loss_coeffs (Some ["gate_valve"; "filter"]%string).
Proof.
  destruct (minor_loss_coeffs_order ["gate_valve"; "filter"]%string
              ["filter"; "gate_valve"]%string) as [Hp _].
  destruct (Hp (perm_swap _ _ _)) as [Hiff _].
  assert (H : minor_loss_coeffs (Some ["gate_valve"; "filter"]%string)
              = Ok (0 + 0.2 + 1)).
  { cbn [minor_loss_coeffs sum_fitting_K].
    rewrite lookup_gate_valve, lookup_filter. reflexivity. }
  rewrite H. apply Hiff, H.
Defined.

(** X6.  A total that comes back is the sum of positive catalog entries,
    none above 10: it lies between 0 and 10 times the number of fittings
    and is positive for a non-empty list.  The call returns exactly when
    every requested name is a key of the catalog. *)
Theorem minor_loss_coeffs_bounds (fs : list string) :
  (forall K, minor_loss_coeffs (Some fs) = Ok K ->
             0 <= K <= 10 * INR (length fs) /\ (fs <> [] -> 0 < K))
  /\ (returns (minor_loss_coeffs (Some fs))
      <-> Forall (fun f => is_Some (STANDARD_FITTING_K !! f)) fs).
Proof.
  split.
  - intros K H. rewrite minor_loss_coeffs_Some in H.
    destruct (sum_fitting_K_bounds _ _ _ H) as [Hb Hpos].
    split; [lra | exact Hpos].
  - rewrite minor_loss_coeffs_Some. generalize 0.
    induction fs as [| f fs IH]; intros acc; cbn [sum_fitting_K].
    + split; [constructor | intros _; eexists; reflexivity].
    + destruct (STANDARD_FITTING_K !! f) as [Kf |] eqn:Hf.
      * rewrite IH. split.
        -- intros H. constructor; [rewrite Hf; eauto | exact H].
        -- intros H. inversion H; assumption.
      * split.
        -- intros [a Ha]. discriminate Ha.
        -- intros H. inversion H as [| ? ? [K HK] _]; subst. congruence.
Qed.

Lemma minor_loss_coeffs_bounds_witness :
  returns (minor_loss_coeffs (Some ["filter"; "gate_valve"]%string)).
Proof.
  apply (proj2 (minor_loss_coeffs_bounds ["filter"; "gate_valve"]%string)).
  constructor; [rewrite lookup_filter; eauto |].
  constructor; [rewrite lookup_gate_valve; eauto | constructor].
Defined.

(* ===================================================================== *)
(** * Forward solver: what every result satisfies                         *)
(* ===================================================================== *)

Lemma pressure_drop_pipe_returns_valid (rho mu Q d L k : R)
    (fittings : option (list string)) :
  returns (pressure_drop_pipe rho mu Q d L k fittings) ->
  0 <= Q /\ 0 < d /\ 0 <= L.
Proof.
  intros [pd H]. unfold pressure_drop_pipe in H.
  destruct (decide (Q < 0)); [discriminate H |].
  destruct (decide (d <= 0 \/ L < 0)) as [? | Hn]; [discriminate H |].
  repeat split.
  - lra.
  - destruct (Rlt_dec 0 d); [assumption |]. exfalso. apply Hn. left. lra.
  - destruct (Rle_dec 0 L); [assumption |]. exfalso. apply Hn. right. lra.
Qed.

Lemma optional_K_nonneg (fittings : option (list string)) (K : R) :
  (if Py.truthy fittings then minor_loss_coeffs fittings else Ok 0) = Ok K ->
  0 <= K.
Proof.
  destruct fittings as [[| f fs] |]; cbn [Py.truthy]; intros H;
    try (injection H as <-; lra).
  rewrite minor_loss_coeffs_Some in H.
  destruct (sum_fitting_K_bounds _ _ _ H) as [[H0 _] _]. exact H0.
Qed.

(** The shape of every returned result. *)
Lemma pressure_drop_pipe_inv (rho mu Q d L k : R)
    (fittings : option (list string)) (pd : PressureDropResult) :
  pressure_drop_pipe rho mu Q d L k fittings = Ok pd ->
  let v := Q / area d in
  exists Re0 f K,
    (0 <= Q /\ 0 < d /\ 0 <= L)
    /\ (if decide (0 < v) then reynolds_number rho mu v d else Ok 0) = Ok Re0
    /\ (if decide (0 < v) then friction_factor_haland d k Re0 else Ok 0)
       = Ok f
    /\ (if Py.truthy fittings then minor_loss_coeffs fittings else Ok 0)
       = Ok K
    /\ pd = {| pd_Q_m3s := Q; pd_velocity_m_s := v; pd_Re := Re0;
               pd_friction_factor := f;
               pd_friction_loss_Pa := f * (L / d) * 0.5 * rho * v ^ 2;
               pd_minor_loss_Pa := K * 0.5 * rho * v ^ 2;
               pd_total_loss_Pa :=
                 f * (L / d) * 0.5 * rho * v ^ 2 + K * 0.5 * rho * v ^ 2;
               pd_total_loss_psi :=
                 pa_to_psi (f * (L / d) * 0.5 * rho * v ^ 2
                            + K * 0.5 * rho * v ^ 2) |}.
Proof.
  intros H v.
  destruct (pressure_drop_pipe_returns_valid rho mu Q d L k fittings)
    as (HQ & Hd & HL); [eexists; exact H |].
  rewrite pressure_drop_pipe_body in H by assumption. cbv zeta in H.
  fold v in H.
  destruct (if decide (0 < v) then reynolds_number rho mu v d else Ok 0)
    as [Re0 |] eqn:HRe; [| discriminate H].
  cbn [Py.bind] in H.
  destruct (if decide (0 < v) then friction_factor_haland d k Re0 else Ok 0)
    as [f |] eqn:Hf; [| discriminate H].
  cbn [Py.bind] in H.
  destruct (if Py.truthy fittings then minor_loss_coeffs fittings else Ok 0)
    as [K |] eqn:HK; [| discriminate H].
  cbn [Py.bind] in H.
  exists Re0, f, K. repeat split; try assumption; try reflexivity. congruence.
Qed.

(** X7.  Every result of [pressure_drop_pipe] is coherent: it echoes [Q],
    its velocity times the pipe area is [Q], the total loss is the friction
    loss plus the minor loss and its psi figure converts back to it, the
    friction loss is [rho] times [darcy_weisbach_loss] of the reported
    friction factor and velocity, and with a non-negative density no loss
    is negative. *)
Theorem pressure_drop_pipe_result (rho mu Q d L k : R)
    (fittings : option (list string)) (pd : PressureDropResult) :
  pressure_drop_pipe rho mu Q d L k fittings = Ok pd ->
  pd_Q_m3s pd = Q
  /\ area d * pd_velocity_m_s pd = Q
  /\ pd_total_loss_Pa pd = pd_friction_loss_Pa pd + pd_minor_loss_Pa pd
  /\ psi_to_pa (pd_total_loss_psi pd) = pd_total_loss_Pa pd
  /\ (exists dw,
        darcy_weisbach_loss (pd_friction_factor pd) L d (pd_velocity_m_s pd)
          = Ok dw
        /\ pd_friction_loss_Pa pd = rho * dw)
  /\ (exists K,
        (if Py.truthy fittings then minor_loss_coeffs fittings else Ok 0)
          = Ok K
        /\ pd_minor_loss_Pa pd = K * 0.5 * rho * pd_velocity_m_s pd ^ 2)
  /\ (0 <= rho ->
      0 <= pd_friction_loss_Pa pd /\ 0 <= pd_minor_loss_Pa pd
      /\ 0 <= pd_total_loss_Pa pd).
Proof.
  intros H.
  destruct (pressure_drop_pipe_inv _ _ _ _ _ _ _ _ H)
    as (Re0 & f & K & (HQ & Hd & HL) & HRe & Hf & HK & Hpd).
  assert (HA := area_pos d ltac:(lra)).
  set (v := Q / area d) in *.
  assert (Hv : 0 <= v) by (unfold v; apply Rmult_le_pos; [lra |];
                           left; apply Rinv_0_lt_compat, HA).
  assert (HLd : 0 <= L / d) by (apply Rmult_le_pos; [lra |];
                                left; apply Rinv_0_lt_compat, Hd).
  assert (Hf0 : 0 <= f).
  { destruct (decide (0 < v)).
    - left. exact (friction_factor_positive _ _ _ _ Hf).
    - injection Hf as <-. lra. }
  assert (HK0 := optional_K_nonneg _ _ HK).
  rewrite Hpd. cbn [pd_Q_m3s pd_velocity_m_s pd_friction_factor
                    pd_friction_loss_Pa pd_minor_loss_Pa pd_total_loss_Pa
                    pd_total_loss_psi].
  split; [reflexivity |].
  split; [unfold v; field; lra |].
  split; [reflexivity |].
  split; [unfold psi_to_pa, pa_to_psi, Rdiv; lra |].
  split.
  { exists (f * (L / d) * 0.5 * v ^ 2 * 1). split; [| lra].
    unfold darcy_weisbach_loss. rewrite div_ok by lra. reflexivity. }
  split; [exists K; split; [exact HK | reflexivity] |].
  intros Hrho.
  assert (Hv2 : 0 <= v ^ 2) by nra.
  assert (H1 : 0 <= f * (L / d)) by (apply Rmult_le_pos; assumption).
  assert (H2 : 0 <= rho * v ^ 2) by (apply Rmult_le_pos; assumption).
  nra.
Qed.

(** On valid numbers the forward solver returns exactly when every fitting
    is known. *)
Lemma pressure_drop_pipe_defined (rho mu Q d L k : R)
    (fittings : option (list string)) :
  0 < mu -> 0 < d -> 0 <= L -> 0 <= k <= d -> 0 < rho -> 0 <= Q ->
  forall K,
    (if Py.truthy fittings then minor_loss_coeffs fittings else Ok 0) = Ok K ->
    exists pd, pressure_drop_pipe rho mu Q d L k fittings = Ok pd.
Proof.
  intros Hmu Hd HL Hk Hrho HQ K HK.
  rewrite pressure_drop_pipe_body by assumption. cbv zeta.
  assert (HA := area_pos d ltac:(lra)). rewrite HK.
  destruct (decide (0 < Q / area d)) as [Hv | Hv].
  - rewrite reynolds_number_ok by assumption. cbn [Py.bind].
    assert (HRe : 0 < rho * (Q / area d) * d / mu).
    { apply Rdiv_lt_0_compat; [| exact Hmu].
      apply Rmult_lt_0_compat; [| exact Hd].
      apply Rmult_lt_0_compat; assumption. }
    destruct (friction_factor_defined d k _ Hd Hk HRe) as (f & -> & _).
    cbn [Py.bind]. eexists. reflexivity.
  - cbn [Py.bind]. eexists. reflexivity.
Qed.

Lemma pressure_drop_pipe_result_witness :
  exists pd,
    pressure_drop_pipe 1050 0.002 (lpm_to_m3s 20) 0.01905 10 default_k
      (Some ["filter"]%string) = Ok pd
    /\ area 0.01905 * pd_velocity_m_s pd = lpm_to_m3s 20
    /\ pd_total_loss_Pa pd = pd_friction_loss_Pa pd + pd_minor_loss_Pa pd
    /\ 0 <= pd_total_loss_Pa pd.
Proof.
  destruct (pressure_drop_pipe_defined 1050 0.002 (lpm_to_m3s 20) 0.01905 10
              default_k (Some ["filter"]%string)) with (K := 0 + 1)
    as [pd Hpd]; try (unfold default_k, lpm_to_m3s; lra).
  { cbn [Py.truthy minor_loss_coeffs sum_fitting_K].
    rewrite lookup_filter. reflexivity. }
  exists pd. split; [exact Hpd |].
  destruct (pressure_drop_pipe_result _ _ _ _ _ _ _ _ Hpd)
    as (_ & HA & Htot & _ & _ & _ & Hpos).
  destruct (Hpos ltac:(lra)) as (_ & _ & H0). auto.
Defined.

(** X8.  With a fluid and pipe of ordinary magnitude ([rho], [mu], [d]
    between [1e-10] and [1e10], [L] and [Q] zero or in that range,
    roughness between 0 and [d]), the forward solver returns exactly when
    every requested fitting is in the catalog, and raises [KeyError]
    otherwise: no other error is possible. *)
Theorem pressure_drop_pipe_total (rho mu Q d L k : R)
    (fittings : option (list string)) :
  ordinary rho -> ordinary mu -> ordinary d -> ordinary_or_zero L ->
  0 <= k <= d -> ordinary_or_zero Q ->
  (returns (pressure_drop_pipe rho mu Q d L k fittings)
   <-> returns (if Py.truthy fittings then minor_loss_coeffs fittings
                else Ok 0))
  /\ (~ returns (pressure_drop_pipe rho mu Q d L k fittings) ->
      raises is_UnknownFitting (pressure_drop_pipe rho mu Q d L k fittings)).
Proof.
  intros Hrho Hmu Hd HL Hk HQ.
  apply ordinary_pos in Hrho, Hmu, Hd.
  apply ordinary_or_zero_nonneg in HL, HQ.
  assert (Hiff : returns (pressure_drop_pipe rho mu Q d L k fittings)
                 <-> returns (if Py.truthy fittings
                              then minor_loss_coeffs fittings else Ok 0)).
  { split.
    - intros [pd Hpd].
      destruct (pressure_drop_pipe_inv _ _ _ _ _ _ _ _ Hpd)
        as (_ & _ & K & _ & _ & _ & HK & _).
      exists K. exact HK.
    - intros [K HK].
      exact (pressure_drop_pipe_defined _ _ _ _ _ _ _ Hmu Hd HL Hk Hrho HQ K HK). }
  split; [exact Hiff |].
  intros Hn.
  destruct (if Py.truthy fittings then minor_loss_coeffs fittings else Ok 0)
    as [K | e] eqn:HK.
  { exfalso. apply Hn, Hiff. exists K. reflexivity. }
  assert (Hkind : is_UnknownFitting e = true).
  { destruct fittings as [[| f fs] |]; cbn [Py.truthy] in HK;
      try discriminate HK.
    rewrite minor_loss_coeffs_Some in HK. revert HK. generalize 0.
    generalize (f :: fs). intros l. induction l as [| g l IH]; intros acc HK;
      cbn [sum_fitting_K] in HK; [discriminate HK |].
    destruct (STANDARD_FITTING_K !! g); [exact (IH _ HK) |].
    injection HK as <-. reflexivity. }
  rewrite pressure_drop_pipe_body by assumption. cbv zeta. rewrite HK.
  assert (HA := area_pos d ltac:(lra)).
  destruct (decide (0 < Q / area d)) as [Hv | Hv].
  - rewrite reynolds_number_ok by assumption. cbn [Py.bind].
    assert (HRe : 0 < rho * (Q / area d) * d / mu).
    { apply Rdiv_lt_0_compat; [| exact Hmu].
      apply Rmult_lt_0_compat; [| exact Hd].
      apply Rmult_lt_0_compat; assumption. }
    destruct (friction_factor_defined d k _ Hd Hk HRe) as (f & -> & _).
    cbn [Py.bind]. apply raises_Raise, Hkind.
  - cbn [Py.bind]. apply raises_Raise, Hkind.
Qed.

Lemma pressure_drop_pipe_total_witness :
  returns (pressure_drop_pipe 1050 0.002 (lpm_to_m3s 20) 0.01905 10
             default_k None).
Proof.
  destruct (pressure_drop_pipe_total 1050 0.002 (lpm_to_m3s 20) 0.01905 10
              default_k None) as [Hiff _];
    try (unfold ordinary_or_zero, ordinary, default_k, lpm_to_m3s; lra).
  apply Hiff. exists 0. reflexivity.
Defined.

(** X9.  Laminar flow obeys Hagen-Poiseuille: when the Reynolds number of
    the flow is below 2300 the reported friction loss is
    [32 mu L v / d^2 = 128 mu L Q / (pi d^4)], proportional to the flow and
    independent of density and roughness, and the friction factor is
    [64 / Re]. *)
Theorem laminar_pressure_drop (rho mu Q d L k : R)
    (fittings : option (list string)) (pd : PressureDropResult) :
  0 < rho -> 0 < mu -> 0 < Q ->
  rho * (Q / area d) * d / mu < 2300 ->
  pressure_drop_pipe rho mu Q d L k fittings = Ok pd ->
  pd_friction_factor pd = 64 / pd_Re pd
  /\ pd_friction_loss_Pa pd = 32 * mu * L * pd_velocity_m_s pd / d ^ 2
  /\ pd_friction_loss_Pa pd = 128 * mu * L * Q / (PI * d ^ 4).
Proof.
  intros Hrho Hmu HQ Hlam H.
  destruct (pressure_drop_pipe_inv _ _ _ _ _ _ _ _ H)
    as (Re0 & f & K & (_ & Hd & HL) & HRe & Hf & HK & Hpd).
  assert (HA := area_pos d ltac:(lra)).
  assert (Hv : 0 < Q / area d) by (apply Rdiv_lt_0_compat; assumption).
  destruct (decide (0 < Q / area d)) as [_ | ?]; [| contradiction].
  rewrite reynolds_number_ok in HRe by assumption.
  injection HRe as <-.
  assert (HRe0 : 0 < rho * (Q / area d) * d / mu).
  { apply Rdiv_lt_0_compat; [| exact Hmu].
    apply Rmult_lt_0_compat; [| exact Hd].
    apply Rmult_lt_0_compat; assumption. }
  rewrite friction_factor_laminar in Hf by lra. injection Hf as <-.
  rewrite Hpd. cbn [pd_friction_factor pd_Re pd_friction_loss_Pa
                    pd_velocity_m_s].
  split; [reflexivity |].
  assert (E : 64 / (rho * (Q / area d) * d / mu) * (L / d) * 0.5 * rho
                * (Q / area d) ^ 2
              = 32 * mu * L * (Q / area d) / d ^ 2).
  { set (v := Q / area d) in *. clearbody v. replace 0.5 with (/ 2) by lra.
    field. repeat split; lra. }
  split; [exact E |]. rewrite E. unfold area.
  assert (HPI := PI_RGT_0). field. repeat split; lra.
Qed.

(** X10.  For one flow through pipes that differ only in length, the
    velocity, Reynolds number, friction factor and minor loss agree, and
    the friction losses are in the ratio of the lengths. *)
Theorem pressure_drop_pipe_length (rho mu Q d L1 L2 k : R)
    (fittings : option (list string)) (pd1 pd2 : PressureDropResult) :
  pressure_drop_pipe rho mu Q d L1 k fittings = Ok pd1 ->
  pressure_drop_pipe rho mu Q d L2 k fittings = Ok pd2 ->
  pd_velocity_m_s pd1 = pd_velocity_m_s pd2
  /\ pd_Re pd1 = pd_Re pd2
  /\ pd_friction_factor pd1 = pd_friction_factor pd2
  /\ pd_minor_loss_Pa pd1 = pd_minor_loss_Pa pd2
  /\ pd_friction_loss_Pa pd1 * L2 = pd_friction_loss_Pa pd2 * L1.
Proof.
  intros H1 H2.
  destruct (pressure_drop_pipe_inv _ _ _ _ _ _ _ _ H1)
    as (Re1 & f1 & K1 & (_ & Hd & _) & HRe1 & Hf1 & HK1 & ->).
  destruct (pressure_drop_pipe_inv _ _ _ _ _ _ _ _ H2)
    as (Re2 & f2 & K2 & _ & HRe2 & Hf2 & HK2 & ->).
  assert (ERe : Re1 = Re2) by congruence. subst Re2.
  assert (Ef : f1 = f2) by congruence. subst f2.
  assert (EK : K1 = K2) by congruence. subst K2.
  cbn [pd_velocity_m_s pd_Re pd_friction_factor pd_minor_loss_Pa
       pd_friction_loss_Pa].
  assert (HA := area_pos d ltac:(lra)).
  repeat split. generalize 0.5. intros c. field. lra.
Qed.

Lemma one_lpm_is_laminar :
  0 < lpm_to_m3s 1 / area 0.01905
  /\ 1050 * (lpm_to_m3s 1 / area 0.01905) * 0.01905 / 0.002 < 2300.
Proof.
  assert (HA := area_pos 0.01905 ltac:(lra)).
  assert (HP : 3 < PI) by (assert (H := PI2_3_2); lra).
  assert (E : lpm_to_m3s 1 / area 0.01905 * area 0.01905 = lpm_to_m3s 1)
    by (field; lra).
  assert (Hpos : 0 < lpm_to_m3s 1 / area 0.01905)
    by (apply Rdiv_lt_0_compat; [unfold lpm_to_m3s; lra | exact HA]).
  split; [exact Hpos |].
  unfold area, lpm_to_m3s in *.
  generalize dependent (1 / 1000 / 60 / (PI * (0.01905 / 2) ^ 2)).
  generalize dependent PI. intros p _ Hp v Hv Hvp. nra.
Qed.

Lemma laminar_pressure_drop_witness :
  exists pd,
    pressure_drop_pipe 1050 0.002 (lpm_to_m3s 1) 0.01905 10 default_k None
      = Ok pd
    /\ pd_friction_loss_Pa pd
       = 128 * 0.002 * 10 * lpm_to_m3s 1 / (PI * 0.01905 ^ 4).
Proof.
  destruct one_lpm_is_laminar as [_ Hlam].
  destruct (pressure_drop_pipe_defined 1050 0.002 (lpm_to_m3s 1) 0.01905 10
              default_k None) with (K := 0) as [pd Hpd];
    try (unfold default_k, lpm_to_m3s; lra); [reflexivity |].
  exists pd. split; [exact Hpd |].
  apply (laminar_pressure_drop 1050 0.002 (lpm_to_m3s 1) 0.01905 10
           default_k None pd); try (unfold lpm_to_m3s; lra); assumption.
Defined.

Lemma pressure_drop_pipe_length_witness :
  exists pd1 pd2,
    pressure_drop_pipe 1050 0.002 (lpm_to_m3s 20) 0.01905 10 default_k None
      = Ok pd1
    /\ pressure_drop_pipe 1050 0.002 (lpm_to_m3s 20) 0.01905 20 default_k None
       = Ok pd2
    /\ pd_friction_loss_Pa pd1 * 20 = pd_friction_loss_Pa pd2 * 10.
Proof.
  destruct (pressure_drop_pipe_defined 1050 0.002 (lpm_to_m3s 20) 0.01905 10
              default_k None) with (K := 0) as [pd1 H1];
    try (unfold default_k, lpm_to_m3s; lra); [reflexivity |].
  destruct (pressure_drop_pipe_defined 1050 0.002 (lpm_to_m3s 20) 0.01905 20
              default_k None) with (K := 0) as [pd2 H2];
    try (unfold default_k, lpm_to_m3s; lra); [reflexivity |].
  exists pd1, pd2. split; [exact H1 | split; [exact H2 |]].
  apply (pressure_drop_pipe_length _ _ _ _ _ _ _ _ _ _ H1 H2).
Defined.

(* ===================================================================== *)
(** * Inverse solver on valid inputs                                      *)
(* ===================================================================== *)

Section ValidInverse.

Variables rho mu d L pump_deltaP_pa k K_total tol : R.
Hypothesis Hrho : 0 < rho.
Hypothesis Hmu : 0 < mu.
Hypothesis Hd : 0 < d.
Hypothesis HL : 0 <= L.
Hypothesis Hk : 0 <= k <= d.
Hypothesis HP : 0 < pump_deltaP_pa.
Hypothesis HK : 0 <= K_total.
Hypothesis Hloss : 0 < L \/ 0 < K_total.

Lemma loss_factor_pos (f : R) : 0 < f -> 0 < rho * (f * (L / d) + K_total).
Proof.
  intros Hf. apply Rmult_lt_0_compat; [exact Hrho |].
  assert (Hi : 0 < / d) by (apply Rinv_0_lt_compat, Hd).
  assert (HLd : 0 <= L / d) by (apply Rmult_le_pos; lra).
  destruct Hloss as [HLpos | HKpos].
  - assert (0 < L / d) by (apply Rmult_lt_0_compat; assumption).
    assert (0 < f * (L / d)) by (apply Rmult_lt_0_compat; assumption).
    lra.
  - assert (0 <= f * (L / d)) by (apply Rmult_le_pos; lra). lra.
Qed.

Lemma seed_velocity_defined :
  exists v0, seed_velocity rho d L pump_deltaP_pa K_total = Ok v0 /\ 0 < v0.
Proof.
  assert (Hden := loss_factor_pos 0.02 ltac:(lra)).
  unfold seed_velocity. rewrite div_ok by lra. cbn [Py.bind].
  rewrite div_ok by lra. cbn [Py.bind].
  assert (Hq : 0 < 2 * pump_deltaP_pa / (rho * (0.02 * (L / d) + K_total)))
    by (apply Rdiv_lt_0_compat; lra).
  rewrite sqrt_ok by lra. eexists. split; [reflexivity |].
  apply sqrt_lt_R0, Hq.
Qed.

Lemma velocity_update_defined (v : R) :
  0 < v ->
  exists v', velocity_update rho mu d L pump_deltaP_pa k K_total v = Ok v'
             /\ 0 < v'.
Proof.
  intros Hv. unfold velocity_update.
  rewrite reynolds_number_ok by assumption. cbn [Py.bind].
  destruct (decide (0 < v)) as [_ | ?]; [| contradiction].
  assert (HRe : 0 < rho * v * d / mu).
  { apply Rdiv_lt_0_compat; [| exact Hmu].
    apply Rmult_lt_0_compat; [| exact Hd].
    apply Rmult_lt_0_compat; assumption. }
  destruct (friction_factor_defined d k _ Hd Hk HRe) as (f & -> & Hf).
  cbn [Py.bind]. rewrite div_ok by lra. cbn [Py.bind].
  assert (Hden := loss_factor_pos f Hf).
  destruct (decide (_ <= 0)) as [? | _]; [lra |].
  rewrite div_ok by lra. cbn [Py.bind].
  assert (Hq : 0 < pump_deltaP_pa / (rho * (f * (L / d) + K_total) / 2))
    by (apply Rdiv_lt_0_compat; lra).
  rewrite sqrt_ok by lra. eexists. split; [reflexivity |].
  apply sqrt_lt_R0, Hq.
Qed.

Lemma solver_loop_defined (n : nat) :
  forall v Q, 0 < v -> 0 < Q ->
    exists e,
      solver_loop rho mu d L pump_deltaP_pa k K_total tol n v Q = Ok e
      /\ 0 < exit_v e /\ 0 < exit_Q e.
Proof.
  assert (HA := area_pos d ltac:(lra)).
  induction n as [| n IH]; intros v Q Hv HQ.
  - exists (Exhausted v Q). cbn. auto.
  - rewrite solver_loop_S.
    destruct (velocity_update_defined v Hv) as (v' & -> & Hv').
    cbn [Py.bind].
    destruct (decide (Rabs (v' - v) < tol)).
    + exists (Break v' Q). cbn. auto.
    + apply IH; [exact Hv' |]. apply Rmult_lt_0_compat; assumption.
Qed.

End ValidInverse.

Lemma flow_snapshot_positive (rho mu d k v Q : R) (r : FlowEstimateResult) :
  0 < rho -> 0 < v -> 0 < Q ->
  flow_snapshot rho mu d k v Q = Ok r ->
  0 < Q_m3s r /\ 0 < Q_lpm r /\ 0 < velocity_m_s r /\ 0 < Re r
  /\ 0 < friction_factor r.
Proof.
  intros Hrho Hv HQ Hr.
  destruct (flow_snapshot_fields _ _ _ _ _ _ _ Hr)
    as (HQr & Hlpm & Hvr & Hpos & _).
  destruct (Hpos Hv) as [HRe Hf].
  rewrite HQr, Hlpm, Hvr. repeat split; try lra.
  - unfold reynolds_number in HRe.
    destruct (decide (mu <= 0 \/ d <= 0)) as [? | Hn]; [discriminate HRe |].
    assert (Hmu : 0 < mu)
      by (destruct (Rlt_dec 0 mu); [assumption |]; exfalso; apply Hn; left; lra).
    assert (Hd : 0 < d)
      by (destruct (Rlt_dec 0 d); [assumption |]; exfalso; apply Hn; right; lra).
    rewrite div_ok in HRe by lra.
    assert (E : Re r = rho * v * d / mu) by congruence. rewrite E.
    apply Rdiv_lt_0_compat; [| exact Hmu].
    apply Rmult_lt_0_compat; [| exact Hd].
    apply Rmult_lt_0_compat; assumption.
  - exact (friction_factor_positive _ _ _ _ Hf).
Qed.

Lemma flow_from_pump_pressure_defined (rho mu d L pump_deltaP_pa k : R)
    (fittings : option (list string)) (tol : R) (maxiter : Z) :
  0 < rho -> 0 < mu -> 0 < d -> 0 <= L -> 0 <= k <= d ->
  0 < pump_deltaP_pa ->
  returns (if Py.truthy fittings then minor_loss_coeffs fittings else Ok 0) ->
  0 < L \/ Py.truthy fittings = true ->
  exists r,
    flow_from_pump_pressure rho mu d L pump_deltaP_pa k fittings tol maxiter
      = Ok (RetDict r)
    /\ 0 < Q_m3s r /\ 0 < Q_lpm r /\ 0 < velocity_m_s r /\ 0 < Re r
    /\ 0 < friction_factor r.
Proof.
  intros Hrho Hmu Hd HL Hk HP [K HK] Hloss.
  assert (HK0 := optional_K_nonneg _ _ HK).
  assert (Hloss' : 0 < L \/ 0 < K).
  { destruct Hloss as [? | Ht]; [left; assumption | right].
    rewrite Ht in HK. destruct fittings as [[| f fs] |]; try discriminate Ht.
    rewrite minor_loss_coeffs_Some in HK.
    destruct (sum_fitting_K_bounds _ _ _ HK) as [_ Hpos].
    apply Hpos. discriminate. }
  assert (HA := area_pos d ltac:(lra)).
  unfold flow_from_pump_pressure.
  destruct (decide (pump_deltaP_pa <= 0)) as [? | _]; [lra |].
  rewrite HK. cbn [Py.bind].
  destruct (seed_velocity_defined rho d L pump_deltaP_pa K Hrho Hd HL HP HK0
              Hloss') as (v0 & -> & Hv0).
  cbn [Py.bind].
  destruct (solver_loop_defined rho mu d L pump_deltaP_pa k K tol Hrho Hmu Hd
              HL Hk HP HK0 Hloss' (Z.to_nat maxiter) v0 (area d * v0) Hv0
              ltac:(apply Rmult_lt_0_compat; assumption))
    as (e & -> & Hev & HeQ).
  cbn [Py.bind].
  destruct (flow_snapshot_defined rho mu d k (exit_v e) (exit_Q e)
              Hrho Hmu Hd Hk) as [r Hr].
  rewrite Hr. cbn [Py.bind]. exists r. split; [reflexivity |].
  exact (flow_snapshot_positive _ _ _ _ _ _ _ Hrho Hev HeQ Hr).
Qed.

(** X11.  On a fluid and pipe of ordinary magnitude ([rho], [mu], [d] and
    the pump pressure between [1e-10] and [1e10], [L] zero or in that
    range, roughness between 0 and [d]) with known fittings and something
    to lose the pressure on (a positive length or at least one fitting),
    the inverse solver always returns a dict, whatever the tolerance and
    the iteration count: the [RuntimeError] guard cannot fire, and the
    flow, velocity, Reynolds number and friction factor are all
    positive. *)
Theorem flow_from_pump_pressure_total (rho mu d L pump_deltaP_pa k : R)
    (fittings : option (list string)) (tol : R) (maxiter : Z) :
  ordinary rho -> ordinary mu -> ordinary d -> ordinary_or_zero L ->
  0 <= k <= d -> ordinary pump_deltaP_pa ->
  returns (if Py.truthy fittings then minor_loss_coeffs fittings else Ok 0) ->
  0 < L \/ Py.truthy fittings = true ->
  exists r,
    flow_from_pump_pressure rho mu d L pump_deltaP_pa k fittings tol maxiter
      = Ok (RetDict r)
    /\ 0 < Q_m3s r /\ 0 < Q_lpm r /\ 0 < velocity_m_s r /\ 0 < Re r
    /\ 0 < friction_factor r.
Proof.
  intros Hrho Hmu Hd HL Hk HP.
  apply ordinary_pos in Hrho, Hmu, Hd, HP.
  apply ordinary_or_zero_nonneg in HL.
  apply flow_from_pump_pressure_defined; assumption.
Qed.


Lemma flow_from_pump_pressure_total_witness :
  exists r,
    flow_from_pump_pressure 1050 0.002 0.01905 10 (psi_to_pa 50) default_k
      (Some ["filter"]%string) default_tol default_maxiter = Ok (RetDict r)
    /\ 0 < Q_lpm r.
Proof.
  destruct (flow_from_pump_pressure_total 1050 0.002 0.01905 10 (psi_to_pa 50)
              default_k (Some ["filter"]%string) default_tol default_maxiter)
    as (r & Hr & _ & Hlpm & _);
    try (unfold ordinary_or_zero, ordinary, default_k, psi_to_pa; lra).
  - exists (0 + 1). cbn [Py.truthy minor_loss_coeffs sum_fitting_K].
    rewrite lookup_filter. reflexivity.
  - exists r. auto.
Defined.

(* ===================================================================== *)
(** * Inverse solver: argument errors                                     *)
(* ===================================================================== *)

(** X12.  With a positive pump pressure the inverse solver looks at the
    fittings right after the pipe area: for a diameter of magnitude up to
    [1e10] an unknown name raises [KeyError] whatever the fluid, length,
    roughness, tolerance and iteration count are.  On an otherwise valid
    pipe of ordinary magnitude a non-positive viscosity raises
    [ValueError] for every tolerance and iteration count, also with no
    iterations at all. *)
Theorem flow_from_pump_pressure_argument_errors
    (rho mu d L pump_deltaP_pa k : R) (fs : list string)
    (fittings : option (list string)) (tol : R) (maxiter : Z) :
  0 < pump_deltaP_pa ->
  (-1e10 <= d <= 1e10 ->
   (exists f, f ∈ fs /\ STANDARD_FITTING_K !! f = None) ->
   raises is_UnknownFitting
     (flow_from_pump_pressure rho mu d L pump_deltaP_pa k (Some fs)
        tol maxiter))
  /\ (mu <= 0 -> ordinary rho -> ordinary d -> ordinary_or_zero L ->
      ordinary pump_deltaP_pa ->
      returns (if Py.truthy fittings then minor_loss_coeffs fittings
               else Ok 0) ->
      0 < L \/ Py.truthy fittings = true ->
      raises is_InvalidArgument
        (flow_from_pump_pressure rho mu d L pump_deltaP_pa k fittings
           tol maxiter)).
Proof.
  intros HP. split.
  - intros _ Hbad. unfold flow_from_pump_pressure.
    destruct (decide (pump_deltaP_pa <= 0)) as [? | _]; [lra |].
    assert (Ht : Py.truthy (Some fs) = true).
    { destruct Hbad as [f [Hin _]]. destruct fs; [inversion Hin | reflexivity]. }
    rewrite Ht.
    destruct (minor_loss_coeffs_unknown fs Hbad) as (f & _ & _ & ->).
    cbn [Py.bind]. apply raises_Raise. reflexivity.
  - intros Hmu Hrho Hd HL _ [K HK] Hloss.
    apply ordinary_pos in Hrho, Hd. apply ordinary_or_zero_nonneg in HL.
    assert (HK0 := optional_K_nonneg _ _ HK).
    assert (Hloss' : 0 < L \/ 0 < K).
    { destruct Hloss as [? | Ht]; [left; assumption | right].
      rewrite Ht in HK. destruct fittings as [[| f fs'] |]; try discriminate Ht.
      rewrite minor_loss_coeffs_Some in HK.
      destruct (sum_fitting_K_bounds _ _ _ HK) as [_ Hpos].
      apply Hpos. discriminate. }
    unfold flow_from_pump_pressure.
    destruct (decide (pump_deltaP_pa <= 0)) as [? | _]; [lra |].
    rewrite HK. cbn [Py.bind].
    destruct (seed_velocity_defined rho d L pump_deltaP_pa K Hrho Hd HL HP HK0
                Hloss') as (v0 & -> & Hv0).
    cbn [Py.bind].
    destruct (Z.to_nat maxiter) as [| n].
    + cbn [solver_loop Py.bind exit_v exit_Q]. unfold flow_snapshot.
      destruct (decide (0 < v0)) as [_ | ?]; [| contradiction].
      rewrite reynolds_number_invalid by (left; exact Hmu).
      cbn [Py.bind]. apply raises_Raise. reflexivity.
    + rewrite solver_loop_S. unfold velocity_update.
      rewrite reynolds_number_invalid by (left; exact Hmu).
      cbn [Py.bind]. apply raises_Raise. reflexivity.
Qed.

Lemma flow_from_pump_pressure_argument_errors_witness :
  raises is_UnknownFitting
    (flow_from_pump_pressure 1050 0.002 0.01905 10 1000 default_k
       (Some ["not_a_real_fitting"]%string) default_tol default_maxiter)
  /\ raises is_InvalidArgument
       (flow_from_pump_pressure 1050 0 0.01905 10 1000 default_k None
          default_tol default_maxiter).
Proof.
  destruct (flow_from_pump_pressure_argument_errors 1050 0.002 0.01905 10
              1000 default_k ["not_a_real_fitting"]%string None default_tol
              default_maxiter ltac:(lra)) as [Hkey _].
  destruct (flow_from_pump_pressure_argument_errors 1050 0 0.01905 10
              1000 default_k [] None default_tol
              default_maxiter ltac:(lra)) as [_ Hval].
  split.
  - apply Hkey; [lra |]. exists "not_a_real_fitting"%string. split.
    + apply elem_of_cons. left. reflexivity.
    + apply lookup_not_a_real_fitting.
  - apply Hval; try (unfold ordinary_or_zero, ordinary; lra).
    exists 0. reflexivity.
Defined.

(* ===================================================================== *)
(** * Inverse solver: how far Q can be from the velocity                  *)
(* ===================================================================== *)

(** X13.  In every returned dict [Q_m3s] is the pipe area times a velocity
    that differs from the reported one by less than the tolerance: the gap
    between [Q_m3s] and [A * velocity] is at most [A * tol], and there is
    no gap at all when the tolerance is not positive. *)
Theorem flow_from_pump_pressure_Q_gap (rho mu d L pump_deltaP_pa k : R)
    (fittings : option (list string)) (tol : R) (maxiter : Z)
    (r : FlowEstimateResult) :
  flow_from_pump_pressure rho mu d L pump_deltaP_pa k fittings tol maxiter
    = Ok (RetDict r) ->
  Rabs (Q_m3s r - area d * velocity_m_s r) <= area d * Rmax 0 tol
  /\ (tol <= 0 -> Q_m3s r = area d * velocity_m_s r).
Proof.
  intros H.
  destruct (flow_from_pump_pressure_consistency _ _ _ _ _ _ _ _ _ _ H)
    as (_ & _ & v_prev & HQ & Hclose).
  assert (HA : 0 <= area d).
  { unfold area. apply Rmult_le_pos; [left; apply PI_RGT_0 |].
    apply pow2_ge_0. }
  assert (Hmax := Rmax_l 0 tol). assert (Hmax' := Rmax_r 0 tol).
  rewrite HQ. destruct Hclose as [-> | Hlt].
  - split; [| reflexivity].
    replace (area d * velocity_m_s r - area d * velocity_m_s r) with 0 by ring.
    rewrite Rabs_R0. apply Rmult_le_pos; assumption.
  - split.
    + replace (area d * v_prev - area d * velocity_m_s r)
        with (area d * (v_prev - velocity_m_s r)) by ring.
      rewrite Rabs_mult, (Rabs_pos_eq (area d)) by exact HA.
      apply Rmult_le_compat_l; [exact HA |].
      rewrite Rabs_minus_sym. lra.
    + intros Htol. assert (H0 := Rabs_pos (velocity_m_s r - v_prev)). lra.
Qed.

Lemma flow_from_pump_pressure_Q_gap_witness :
  exists r,
    flow_from_pump_pressure 1050 0.002 0.01905 10 (psi_to_pa 50) default_k
      None default_tol default_maxiter = Ok (RetDict r)
    /\ Rabs (Q_m3s r - area 0.01905 * velocity_m_s r)
       <= area 0.01905 * Rmax 0 default_tol.
Proof.
  destruct (flow_from_pump_pressure_defined 1050 0.002 0.01905 10
              (psi_to_pa 50) default_k None default_tol default_maxiter)
    as (r & Hr & _); try (unfold default_k, psi_to_pa; lra).
  - exists 0. reflexivity.
  - exists r. split; [exact Hr |].
    apply (flow_from_pump_pressure_Q_gap _ _ _ _ _ _ _ _ _ _ Hr).
Defined.

(* ===================================================================== *)
(** * Forward and inverse solver agree at fixed points                    *)
(* ===================================================================== *)

(** Every update solves the energy balance
    [dP = 0.5 rho v_new^2 (f (L/d) + K)] with the friction factor of the
    velocity it started from. *)
Lemma velocity_update_inv (rho mu d L pump_deltaP_pa k K_total v v' : R) :
  velocity_update rho mu d L pump_deltaP_pa k K_total v = Ok v' ->
  exists Re0 f,
    (0 < mu /\ 0 < d)
    /\ reynolds_number rho mu v d = Ok Re0
    /\ (if decide (0 < v) then friction_factor_haland d k Re0 else Ok 0) = Ok f
    /\ 0 < rho * (f * (L / d) + K_total) / 2
    /\ 0 <= v'
    /\ v' * v' * (rho * (f * (L / d) + K_total) / 2) = pump_deltaP_pa.
Proof.
  unfold velocity_update. intros H.
  destruct (reynolds_number rho mu v d) as [Re0 |] eqn:HRe; [| discriminate H].
  cbn [Py.bind] in H.
  assert (Hval : 0 < mu /\ 0 < d).
  { unfold reynolds_number in HRe.
    destruct (decide (mu <= 0 \/ d <= 0)) as [? | Hn]; [discriminate HRe |].
    split.
    - destruct (Rlt_dec 0 mu); [assumption |]. exfalso. apply Hn. left. lra.
    - destruct (Rlt_dec 0 d); [assumption |]. exfalso. apply Hn. right. lra. }
  destruct (if decide (0 < v) then friction_factor_haland d k Re0 else Ok 0)
    as [f |] eqn:Hf; [| discriminate H].
  cbn [Py.bind] in H. rewrite div_ok in H by lra. cbn [Py.bind] in H.
  destruct (decide (_ <= 0)) as [? | Hden]; [discriminate H |].
  rewrite div_ok in H by lra. cbn [Py.bind] in H.
  unfold Py.sqrt in H. destruct (decide (_ < 0)) as [? | Hq]; [discriminate H |].
  exists Re0, f. split; [exact Hval |]. split; [reflexivity |].
  split; [exact Hf |]. split; [lra |].
  assert (Ev : v' = R_sqrt.sqrt
                      (pump_deltaP_pa / (rho * (f * (L / d) + K_total) / 2)))
    by congruence.
  split; [rewrite Ev; apply sqrt_pos |].
  rewrite Ev. clear Ev H Hf.
  generalize dependent (rho * (f * (L / d) + K_total) / 2).
  intros D HD Hq. rewrite sqrt_sqrt by lra. field. lra.
Qed.

(** X14.  The fixed points of the update are the flows whose forward
    pressure drop is the pump pressure, on a fluid and pipe of ordinary
    magnitude.  A velocity of ordinary magnitude that the update maps to
    itself, put through [pressure_drop_pipe] as [Q = A * v], loses exactly
    the pump pressure; and the velocity of the forward result for a flow
    of ordinary magnitude is mapped to itself by the update run on that
    result's total loss. *)
Theorem fixed_point_iff_forward (rho mu d L k : R)
    (fittings : option (list string)) (K_total : R) :
  ordinary rho -> ordinary mu -> ordinary d -> ordinary_or_zero L ->
  0 <= k <= d ->
  (if Py.truthy fittings then minor_loss_coeffs fittings else Ok 0)
    = Ok K_total ->
  (forall pump_deltaP_pa v,
      ordinary v ->
      velocity_update rho mu d L pump_deltaP_pa k K_total v = Ok v ->
      exists pd,
        pressure_drop_pipe rho mu (area d * v) d L k fittings = Ok pd
        /\ pd_velocity_m_s pd = v
        /\ pd_total_loss_Pa pd = pump_deltaP_pa)
  /\ (forall Q pd,
        ordinary Q -> 0 < L \/ Py.truthy fittings = true ->
        pressure_drop_pipe rho mu Q d L k fittings = Ok pd ->
        velocity_update rho mu d L (pd_total_loss_Pa pd) k K_total
          (pd_velocity_m_s pd) = Ok (pd_velocity_m_s pd)).
Proof.
  intros Hrho _ _ HL _ HK.
  apply ordinary_pos in Hrho. apply ordinary_or_zero_nonneg in HL. split.
  - intros dP v Hv Hfix. apply ordinary_pos in Hv.
    destruct (velocity_update_inv _ _ _ _ _ _ _ _ _ Hfix)
      as (Re0 & f & (Hmu & Hd) & HRe & Hf & Hden & _ & Hbal).
    assert (HA := area_pos d ltac:(lra)).
    rewrite pressure_drop_pipe_body; [| nra | exact Hd | exact HL].
    cbv zeta.
    replace (area d * v / area d) with v by (field; lra).
    destruct (decide (0 < v)) as [_ | ?]; [| contradiction].
    rewrite HRe. cbn [Py.bind]. rewrite Hf. cbn [Py.bind].
    rewrite HK. cbn [Py.bind]. eexists. split; [reflexivity |].
    cbn [pd_velocity_m_s pd_total_loss_Pa]. split; [reflexivity |].
    rewrite <- Hbal. lra.
  - intros Q pd HQ Hloss Hpd. apply ordinary_pos in HQ.
    destruct (pressure_drop_pipe_inv _ _ _ _ _ _ _ _ Hpd)
      as (Re0 & f & K & (_ & Hd & _) & HRe & Hf & HK' & ->).
    assert (EK : K = K_total) by congruence. subst K.
    assert (HA := area_pos d ltac:(lra)).
    cbn [pd_velocity_m_s pd_total_loss_Pa].
    set (v := Q / area d) in *.
    assert (Hv : 0 < v) by (apply Rdiv_lt_0_compat; assumption).
    destruct (decide (0 < v)) as [_ | ?]; [| contradiction].
    assert (Hf0 := friction_factor_positive _ _ _ _ Hf).
    assert (HK0 := optional_K_nonneg _ _ HK).
    assert (Hloss' : 0 < L \/ 0 < K_total).
    { destruct Hloss as [? | Ht]; [left; assumption | right].
      rewrite Ht in HK. destruct fittings as [[| g fs] |]; try discriminate Ht.
      rewrite minor_loss_coeffs_Some in HK.
      destruct (sum_fitting_K_bounds _ _ _ HK) as [_ Hpos].
      apply Hpos. discriminate. }
    assert (Hden := loss_factor_pos rho d L K_total Hrho Hd HL HK0 Hloss' f Hf0).
    unfold velocity_update. rewrite HRe. cbn [Py.bind].
    destruct (decide (0 < v)) as [_ | ?]; [| contradiction].
    rewrite Hf. cbn [Py.bind]. rewrite div_ok by lra. cbn [Py.bind].
    destruct (decide (_ <= 0)) as [? | _]; [lra |].
    rewrite div_ok by lra. cbn [Py.bind].
    apply sqrt_eval; [lra |].
    replace 0.5 with (/ 2) by lra.
    assert (HX : 0 < f * (L / d) + K_total) by nra.
    generalize dependent (f * (L / d)). intros X. intros.
    clearbody v. field. lra.
Qed.

Lemma fixed_point_iff_forward_witness :
  exists pd,
    pressure_drop_pipe 1050 0.002 (lpm_to_m3s 20) 0.01905 10 default_k None
      = Ok pd
    /\ velocity_update 1050 0.002 0.01905 10 (pd_total_loss_Pa pd) default_k 0
         (pd_velocity_m_s pd) = Ok (pd_velocity_m_s pd).
Proof.
  destruct (pressure_drop_pipe_defined 1050 0.002 (lpm_to_m3s 20) 0.01905 10
              default_k None) with (K := 0) as [pd Hpd];
    try (unfold default_k, lpm_to_m3s; lra); [reflexivity |].
  exists pd. split; [exact Hpd |].
  destruct (fixed_point_iff_forward 1050 0.002 0.01905 10 default_k None 0)
    as [_ Hfix];
    try (unfold ordinary_or_zero, ordinary, default_k; lra);
    [reflexivity |].
  apply (Hfix (lpm_to_m3s 20) pd);
    try (unfold ordinary, lpm_to_m3s; lra).
  exact Hpd.
Defined.

(* ===================================================================== *)
(** * Turbulent round trip on any pipe without fittings                   *)
(* ===================================================================== *)

Lemma haaland_term_le_third (d k Re0 : R) :
  0 < d -> 0 <= k <= d -> 2300 <= Re0 -> haaland_term d k Re0 <= / 3.
Proof.
  intros Hd [Hk0 Hkd] HRe. unfold haaland_term.
  assert (Hrel : 0 <= k / (3.7 * d) <= 0.3).
  { split.
    - unfold Rdiv. apply Rmult_le_pos; [exact Hk0 |].
      left. apply Rinv_0_lt_compat. lra.
    - apply (div_window k (3.7 * d) 0 0.3); lra. }
  assert (Hp := real_power_le_self (k / (3.7 * d)) ltac:(lra)).
  assert (Hr : 0 <= 6.9 / Re0 <= 0.003)
    by (apply (div_window 6.9 Re0 0 0.003); lra).
  lra.
Qed.

Lemma ln_third : ln (/ 3) <= -1.
Proof.
  rewrite ln_Rinv by lra.
  assert (H : 1 <= ln 3).
  { rewrite <- (ln_exp 1). apply ln_le; [apply exp_pos | apply exp_le_3]. }
  lra.
Qed.

(** X15.  Round trip on any turbulent flow of ordinary magnitude through
    a pipe without fittings whose friction factor is at least the initial
    guess 0.02: fed with the forward pressure drop, the inverse solver
    returns, for every tolerance and iteration count, a velocity and a
    flow that are not below the true ones and not above the initial
    guess, which is the true value times [sqrt (f / 0.02)]. *)
Theorem turbulent_round_trip_bracket (rho mu d L k Q : R)
    (tol : R) (maxiter : Z) (pd : PressureDropResult) :
  ordinary rho -> ordinary mu -> ordinary d -> ordinary L ->
  0 <= k <= d -> ordinary Q ->
  pressure_drop_pipe rho mu Q d L k None = Ok pd ->
  2300 <= pd_Re pd -> 0.02 <= pd_friction_factor pd ->
  exists r,
    flow_from_pump_pressure rho mu d L (pd_total_loss_Pa pd) k None
      tol maxiter = Ok (RetDict r)
    /\ pd_velocity_m_s pd <= velocity_m_s r
       <= pd_velocity_m_s pd * R_sqrt.sqrt (pd_friction_factor pd / 0.02)
    /\ Q <= Q_m3s r <= Q * R_sqrt.sqrt (pd_friction_factor pd / 0.02).
Proof.
  intros Hrho Hmu _ HL Hk HQ Hpd HRe Hf.
  apply ordinary_pos in Hrho, Hmu, HL, HQ.
  destruct (pressure_drop_pipe_inv _ _ _ _ _ _ _ _ Hpd)
    as (Re0 & f & K & (_ & Hd & _) & HRe0 & Hf0 & HK & ->).
  cbn [pd_Re pd_friction_factor pd_velocity_m_s pd_total_loss_Pa] in *.
  cbn [Py.truthy] in HK. injection HK as <-.
  assert (HA := area_pos d ltac:(lra)).
  set (vs := Q / area d) in *.
  assert (Hvs : 0 < vs) by (apply Rdiv_lt_0_compat; assumption).
  destruct (decide (0 < vs)) as [_ | ?]; [| contradiction].
  rewrite reynolds_number_ok in HRe0 by assumption.
  injection HRe0 as <-.
  assert (Hlt := haaland_term_lt_1 d k _ Hd Hk HRe).
  rewrite friction_factor_turbulent in Hf0 by (lra || assumption).
  injection Hf0 as <-.
  set (fs := haaland_value d k (rho * vs * d / mu)) in *.
  set (r0 := R_sqrt.sqrt (fs / 0.02)).
  assert (Hr0 : 1 <= r0).
  { unfold r0. rewrite <- sqrt_1. apply sqrt_le_1_alt.
    apply (div_window fs 0.02 1 (fs / 0.02 + 1)); [lra |].
    split; [lra |]. unfold Rdiv. lra. }
  assert (HM : 1 <= - ln (haaland_term d k (rho * vs * d / mu))).
  { assert (H3 := haaland_term_le_third d k _ Hd Hk HRe).
    assert (Hpos := haaland_term_pos d k (rho * vs * d / mu) ltac:(lra)).
    assert (Hln := ln_le _ _ Hpos H3). assert (Ht := ln_third). lra. }
  unfold flow_from_pump_pressure.
  destruct (decide (_ <= 0)) as [Hneg | _].
  { exfalso. assert (Hfs : 0 < fs) by lra.
    assert (HLd : 0 < L / d) by (apply Rdiv_lt_0_compat; assumption).
    assert (Hs : 0 < vs ^ 2) by (apply pow_lt; exact Hvs).
    assert (H1 : 0 < fs * (L / d)) by (apply Rmult_lt_0_compat; assumption).
    assert (H2 : 0 < rho * vs ^ 2) by (apply Rmult_lt_0_compat; assumption).
    clearbody vs fs. nra. }
  cbn [Py.truthy Py.bind].
  unfold fs. rewrite (seed_formula rho mu d L k vs) by assumption.
  cbn [Py.bind]. fold fs r0.
  assert (Hband : vs <= vs * r0 <= (1 + (r0 - 1)) * vs) by nra.
  destruct (loop_stays_close rho mu d L k vs Hrho Hmu Hd HL Hk Hvs HRe
              tol (r0 - 1) HM (Z.to_nat maxiter) (vs * r0) Hband)
    as (e & He & Hev & HeQ).
  fold fs in He. rewrite He. cbn [Py.bind].
  destruct (flow_snapshot_defined rho mu d k (exit_v e) (exit_Q e)
              Hrho Hmu Hd Hk) as [r Hr].
  rewrite Hr. cbn [Py.bind]. exists r. split; [reflexivity |].
  destruct (flow_snapshot_fields _ _ _ _ _ _ _ Hr) as (HQr & _ & Hvr & _).
  rewrite HQr, Hvr.
  assert (EQ : area d * vs = Q) by (unfold vs; field; lra).
  rewrite EQ in HeQ.
  split; [split; nra | split; nra].
Qed.

Lemma scenario_forward_fields :
  exists pd,
    pressure_drop_pipe 1050 0.002 (lpm_to_m3s 20) 0.01905 10 default_k None
      = Ok pd
    /\ pd_Re pd = scenario_Re /\ pd_friction_factor pd = scenario_f.
Proof.
  assert (Hk := scenario_roughness). assert (Ht := scenario_turbulent).
  rewrite pressure_drop_pipe_body by (unfold lpm_to_m3s; lra).
  cbv zeta. fold scenario_v.
  destruct (decide (0 < scenario_v)) as [_ | Hn];
    [| exfalso; apply Hn, scenario_v_pos].
  rewrite reynolds_number_ok by lra. cbn [Py.bind].
  assert (Hlt := haaland_term_lt_1 0.01905 default_k _ ltac:(lra) Hk Ht).
  rewrite friction_factor_turbulent by (lra || assumption).
  cbn [Py.bind Py.truthy]. eexists. split; [reflexivity |].
  split; reflexivity.
Qed.

Lemma turbulent_round_trip_bracket_witness :
  exists pd r,
    pressure_drop_pipe 1050 0.002 (lpm_to_m3s 20) 0.01905 10 default_k None
      = Ok pd
    /\ flow_from_pump_pressure 1050 0.002 0.01905 10 (pd_total_loss_Pa pd)
         default_k None 1e-3 5 = Ok (RetDict r)
    /\ lpm_to_m3s 20 <= Q_m3s r.
Proof.
  destruct scenario_forward_fields as (pd & Hpd & HRe & Hf).
  assert (Hfw := scenario_f_window). assert (HRew := scenario_Re_window).
  destruct (turbulent_round_trip_bracket 1050 0.002 0.01905 10 default_k
              (lpm_to_m3s 20) 1e-3 5 pd) as (r & Hr & _ & HQ & _);
    try (unfold ordinary, lpm_to_m3s; lra); try apply scenario_roughness;
    try exact Hpd.
  exists pd, r. auto.
Defined.

(* ===================================================================== *)
(** * Inverse solver without iterations                                   *)
(* ===================================================================== *)

(** X16.  With [maxiter <= 0] the loop body never runs: on a fluid, pipe
    and pump pressure of ordinary magnitude the call returns the initial
    guess, the velocity that balances the pump pressure with the assumed
    friction factor 0.02, whatever the tolerance is, and [Q_m3s] is the
    area times that velocity. *)
Theorem no_iterations_returns_seed (rho mu d L pump_deltaP_pa k : R)
    (fittings : option (list string)) (tol : R) (maxiter : Z) (K_total : R) :
  (maxiter <= 0)%Z ->
  ordinary rho -> ordinary mu -> ordinary d -> ordinary_or_zero L ->
  0 <= k <= d -> ordinary pump_deltaP_pa ->
  (if Py.truthy fittings then minor_loss_coeffs fittings else Ok 0)
    = Ok K_total ->
  0 < L \/ Py.truthy fittings = true ->
  exists r,
    flow_from_pump_pressure rho mu d L pump_deltaP_pa k fittings tol maxiter
      = Ok (RetDict r)
    /\ velocity_m_s r
       = R_sqrt.sqrt (2 * pump_deltaP_pa
                      / (rho * (0.02 * (L / d) + K_total)))
    /\ Q_m3s r = area d * velocity_m_s r
    /\ 0.5 * rho * velocity_m_s r ^ 2 * (0.02 * (L / d) + K_total)
       = pump_deltaP_pa.
Proof.
  intros Hmax Hrho Hmu Hd HL Hk HP HK Hloss.
  apply ordinary_pos in Hrho, Hmu, Hd, HP.
  apply ordinary_or_zero_nonneg in HL.
  assert (HK0 := optional_K_nonneg _ _ HK).
  assert (Hloss' : 0 < L \/ 0 < K_total).
  { destruct Hloss as [? | Ht]; [left; assumption | right].
    rewrite Ht in HK. destruct fittings as [[| g fs] |]; try discriminate Ht.
    rewrite minor_loss_coeffs_Some in HK.
    destruct (sum_fitting_K_bounds _ _ _ HK) as [_ Hpos].
    apply Hpos. discriminate. }
  assert (Hden := loss_factor_pos rho d L K_total Hrho Hd HL HK0 Hloss' 0.02
                    ltac:(lra)).
  unfold flow_from_pump_pressure.
  destruct (decide (pump_deltaP_pa <= 0)) as [? | _]; [lra |].
  rewrite HK. cbn [Py.bind]. unfold seed_velocity.
  rewrite div_ok by lra. cbn [Py.bind]. rewrite div_ok by lra.
  cbn [Py.bind].
  assert (Hq : 0 < 2 * pump_deltaP_pa / (rho * (0.02 * (L / d) + K_total)))
    by (apply Rdiv_lt_0_compat; lra).
  rewrite sqrt_ok by lra. cbn [Py.bind].
  replace (Z.to_nat maxiter) with 0%nat by lia.
  cbn [solver_loop Py.bind exit_v exit_Q].
  destruct (flow_snapshot_defined rho mu d k
              (R_sqrt.sqrt (2 * pump_deltaP_pa
                            / (rho * (0.02 * (L / d) + K_total))))
              (area d * R_sqrt.sqrt (2 * pump_deltaP_pa
                            / (rho * (0.02 * (L / d) + K_total))))
              Hrho Hmu Hd Hk) as [r Hr].
  rewrite Hr. cbn [Py.bind]. exists r. split; [reflexivity |].
  destruct (flow_snapshot_fields _ _ _ _ _ _ _ Hr) as (HQr & _ & Hvr & _).
  rewrite HQr, Hvr. split; [reflexivity | split; [reflexivity |]].
  replace (R_sqrt.sqrt (2 * pump_deltaP_pa
                        / (rho * (0.02 * (L / d) + K_total))) ^ 2)
    with (2 * pump_deltaP_pa / (rho * (0.02 * (L / d) + K_total))).
  - replace 0.5 with (/ 2) by lra.
    generalize dependent (0.02 * (L / d) + K_total). intros X. intros.
    assert (HX : X <> 0) by nra. field. lra.
  - rewrite <- (sqrt_sqrt (2 * pump_deltaP_pa
                          / (rho * (0.02 * (L / d) + K_total)))) at 1 by lra.
    ring.
Qed.

Lemma no_iterations_returns_seed_witness :
  exists r,
    flow_from_pump_pressure 1000 0.001 0.02 10 8 default_k None default_tol 0
      = Ok (RetDict r)
    /\ Q_m3s r = area 0.02 * velocity_m_s r.
Proof.
  destruct (no_iterations_returns_seed 1000 0.001 0.02 10 8 default_k None
              default_tol 0 0) as (r & Hr & _ & HQ & _);
    try (unfold ordinary_or_zero, ordinary, default_k; lra); try lia;
    try reflexivity.
  exists r. auto.
Defined.

(* ===================================================================== *)
(** * Command line: the fitting list                                      *)
(* ===================================================================== *)

Lemma split_nonempty (sep : ascii) (s : string) : split sep s <> [].
Proof.
  destruct s as [| c s]; cbn; [discriminate |].
  destruct (Ascii.eqb c sep); [discriminate |].
  destruct (split sep s); discriminate.
Qed.

Lemma split_no_sep (sep : ascii) (s : string) :
  contains_char sep s = false -> split sep s = [s].
Proof.
  induction s as [| c s IH]; cbn; [reflexivity |].
  intros H. apply orb_false_iff in H as [Hc Hs].
  rewrite Hc, (IH Hs). reflexivity.
Qed.

Lemma split_parts_no_sep (sep : ascii) (s : string) :
  Forall (fun p => contains_char sep p = false) (split sep s).
Proof.
  induction s as [| c s IH]; cbn.
  - constructor; [reflexivity | constructor].
  - destruct (Ascii.eqb c sep) eqn:Hc.
    + constructor; [reflexivity | exact IH].
    + destruct (split sep s) as [| h t]; inversion IH; subst.
      * constructor; [cbn; rewrite Hc; reflexivity | constructor].
      * constructor; [cbn; rewrite Hc; assumption | assumption].
Qed.

Lemma split_app_sep (sep : ascii) (s t : string) :
  contains_char sep s = false ->
  split sep (String.append s (String sep t)) = s :: split sep t.
Proof.
  induction s as [| c s IH].
  - intros _. change (split sep (String sep t) = EmptyString :: split sep t).
    cbn [split]. rewrite Ascii.eqb_refl. reflexivity.
  - intros H. cbn [contains_char] in H.
    apply orb_false_iff in H as [Hc Hs].
    change (split sep (String c (String.append s (String sep t)))
            = String c s :: split sep t).
    cbn [split]. rewrite Hc, (IH Hs). reflexivity.
Qed.

Lemma split_join (sep : ascii) (names : list string) :
  names <> [] ->
  Forall (fun n => contains_char sep n = false) names ->
  split sep (join (String sep EmptyString) names) = names.
Proof.
  induction names as [| n names IH]; [congruence |].
  intros _ Hall. inversion Hall as [| ? ? Hn Hrest]; subst.
  destruct names as [| m names].
  - cbn. apply split_no_sep, Hn.
  - change (join (String sep EmptyString) (n :: m :: names))
      with (String.append n
              (String.append (String sep EmptyString)
                 (join (String sep EmptyString) (m :: names)))).
    change (String.append (String sep EmptyString)
              (join (String sep EmptyString) (m :: names)))
      with (String sep (join (String sep EmptyString) (m :: names))).
    rewrite split_app_sep by exact Hn.
    rewrite IH; [reflexivity | discriminate | exact Hrest].
Qed.

Lemma rstrip_idem (s : string) : rstrip (rstrip s) = rstrip s.
Proof.
  induction s as [| c s IH]; [reflexivity |].
  cbn [rstrip]. destruct (rstrip s) as [| c' t] eqn:E.
  - destruct (is_space c) eqn:Hc; [reflexivity |].
    cbn [rstrip]. rewrite Hc. reflexivity.
  - change (rstrip (String c (String c' t)))
      with (match rstrip (String c' t) with
            | EmptyString =>
                if is_space c then EmptyString else String c EmptyString
            | u => String c u
            end).
    rewrite IH. reflexivity.
Qed.

Lemma lstrip_head (s : string) :
  match lstrip s with
  | EmptyString => True
  | String c _ => is_space c = false
  end.
Proof.
  induction s as [| c s IH]; cbn; [exact I |].
  destruct (is_space c) eqn:Hc; [exact IH | exact Hc].
Qed.

Lemma rstrip_keeps_head (c : ascii) (s : string) :
  is_space c = false -> exists t, rstrip (String c s) = String c t.
Proof.
  intros Hc. cbn. destruct (rstrip s); rewrite ?Hc; eauto.
Qed.

Lemma strip_idem (s : string) : strip (strip s) = strip s.
Proof.
  unfold strip. assert (Hh := lstrip_head s).
  destruct (lstrip s) as [| c u] eqn:E; [reflexivity |].
  destruct (rstrip_keeps_head c u Hh) as [t Ht]. rewrite Ht.
  cbn [lstrip]. rewrite Hh, <- Ht. apply rstrip_idem.
Qed.

Lemma strip_no_sep (sep : ascii) (s : string) :
  contains_char sep s = false -> contains_char sep (strip s) = false.
Proof.
  unfold strip. intros H.
  assert (Hl : contains_char sep (lstrip s) = false).
  { induction s as [| c s IH]; cbn in *; [reflexivity |].
    apply orb_false_iff in H as [Hc Hs].
    destruct (is_space c); [apply IH, Hs |]. cbn. rewrite Hc. exact Hs. }
  clear H. induction (lstrip s) as [| c u IH]; cbn in *; [reflexivity |].
  apply orb_false_iff in Hl as [Hc Hu]. specialize (IH Hu).
  destruct (rstrip u) as [| c' t].
  - destruct (is_space c); [reflexivity |]. cbn. rewrite Hc. reflexivity.
  - cbn [contains_char] in *. rewrite Hc. exact IH.
Qed.

(** X17.  The fitting list of the command line: every parsed name is
    non-empty, carries no surrounding whitespace and no comma; and names
    that are themselves non-empty, stripped and comma-free come back
    unchanged, in order, from their comma-joined text. *)
Theorem parse_fittings_round_trip (s : string) (names : list string) :
  Forall (fun f => f <> EmptyString /\ strip f = f
                   /\ contains_char ","%char f = false) (parse_fittings s)
  /\ (Forall (fun n => n <> EmptyString /\ strip n = n
                       /\ contains_char ","%char n = false) names ->
      parse_fittings (join "," names) = names).
Proof.
  split.
  - unfold parse_fittings.
    destruct (decide (s = EmptyString)); [constructor |].
    apply Forall_forall. intros f Hf.
    apply list_elem_of_filter in Hf as [Hne Hin].
    apply list_elem_of_fmap in Hin as (p & -> & Hp).
    split; [exact Hne | split; [apply strip_idem |]].
    apply strip_no_sep.
    assert (Hall := split_parts_no_sep ","%char s).
    rewrite Forall_forall in Hall. apply Hall, Hp.
  - intros Hall. unfold parse_fittings.
    destruct names as [| n names]; [reflexivity |].
    destruct (decide (join "," (n :: names) = EmptyString)) as [E | _].
    { exfalso. inversion Hall as [| ? ? (Hn & _) _]; subst.
      destruct names; cbn in E; [congruence |].
      destruct n; [congruence | discriminate E]. }
    rewrite split_join.
    + assert (Hmap : map strip (n :: names) = n :: names).
      { clear -Hall. induction Hall as [| m l (_ & Hm & _) _ IH];
          [reflexivity |]. cbn [map]. rewrite Hm. f_equal. exact IH. }
      rewrite Hmap. clear Hmap.
      induction Hall as [| m l (Hm & _) _ IH]; [reflexivity |].
      rewrite filter_cons_True by exact Hm. f_equal. exact IH.
    + discriminate.
    + eapply Forall_impl; [exact Hall |]. intros m (_ & _ & Hm). exact Hm.
Qed.

Lemma parse_fittings_round_trip_witness :
  parse_fittings (join "," ["90_elbow_smooth"; "full_port_ball_valve"])
  = ["90_elbow_smooth"; "full_port_ball_valve"]%string.
Proof.
  apply (proj2 (parse_fittings_round_trip ""
                  ["90_elbow_smooth"; "full_port_ball_valve"]%string)).
  repeat constructor; discriminate.
Defined.

(* ===================================================================== *)
(** * Command line: [main]                                                *)
(* ===================================================================== *)

Lemma flow_from_pump_pressure_float (rho mu d L pump_deltaP_pa k : R)
    (fittings : option (list string)) (tol : R) (maxiter : Z) (x : R) :
  flow_from_pump_pressure rho mu d L pump_deltaP_pa k fittings tol maxiter
    = Ok (RetFloat x) ->
  pump_deltaP_pa <= 0 /\ x = 0.
Proof.
  unfold flow_from_pump_pressure.
  destruct (decide (pump_deltaP_pa <= 0)) as [H | _].
  - intros E. split; [exact H | congruence].
  - cbv zeta.
    destruct (if Py.truthy fittings then minor_loss_coeffs fittings else Ok 0)
      as [K |]; cbn [Py.bind]; [| discriminate].
    destruct (seed_velocity rho d L pump_deltaP_pa K) as [v |];
      cbn [Py.bind]; [| discriminate].
    destruct (solver_loop _ _ _ _ _ _ _ _ _ _ _) as [e |];
      cbn [Py.bind]; [| discriminate].
    destruct (flow_snapshot _ _ _ _ _ _) as [r |]; cbn [Py.bind]; discriminate.
Qed.

Lemma flow_lines_dict (r : FlowEstimateResult) :
  flow_lines (RetDict r)
  = ([Line_estimated_flow (Q_lpm r); Line_velocity (velocity_m_s r);
      Line_Re (Re r); Line_friction_factor (friction_factor r)], Returned).
Proof. reflexivity. Qed.

Lemma flow_lines_float (x : R) :
  flow_lines (RetFloat x) = ([], Uncaught TypeError).
Proof. reflexivity. Qed.

Lemma psi_to_pa_sign (p : R) : psi_to_pa p <= 0 <-> p <= 0.
Proof. unfold psi_to_pa. split; intros H; lra. Qed.

Lemma main_pump_mode (args : Args) (p : R) :
  args_flow args = None -> args_pump_psi args = Some p ->
  main args =
    match flow_from_pump_pressure (args_rho args) (args_mu args)
            (diameter_m args) (args_length args) (psi_to_pa p)
            (args_roughness args)
            (Some (parse_fittings (args_fittings args)))
            default_tol default_maxiter with
    | Raise e => ([], Uncaught e)
    | Ok (RetFloat _) =>
        ([Line_input_pump p (m_to_mm (diameter_m args)) (args_length args)],
         Uncaught TypeError)
    | Ok (RetDict r) =>
        ([Line_input_pump p (m_to_mm (diameter_m args)) (args_length args);
          Line_estimated_flow (Q_lpm r); Line_velocity (velocity_m_s r);
          Line_Re (Re r); Line_friction_factor (friction_factor r)], Returned)
    end.
Proof.
  intros Hf Hp. unfold main. rewrite Hf, Hp. cbv zeta.
  destruct (flow_from_pump_pressure _ _ _ _ _ _ _ _ _) as [[x | r] | e];
    reflexivity.
Qed.

Lemma main_flow_mode (args : Args) (q : R) :
  args_flow args = Some q -> args_pump_psi args = None ->
  main args =
    match pressure_drop_pipe (args_rho args) (args_mu args) (lpm_to_m3s q)
            (diameter_m args) (args_length args) (args_roughness args)
            (Some (parse_fittings (args_fittings args))) with
    | Raise e => ([], Uncaught e)
    | Ok result =>
        (pressure_drop_lines q (diameter_m args) (args_length args) result,
         Returned)
    end.
Proof. intros Hf Hp. unfold main. rewrite Hf, Hp. reflexivity. Qed.

(** X18.  Once [parse_args] has returned its namespace, the rest of
    [main] calls [sys.exit] exactly when both [flow] and [pump_psi] are
    set: it then prints the one line asking for either and exits with
    status 1, whatever the other fields hold (the body looks at none of
    them first); with neither set it prints the six usage lines and
    returns.  The exits of [argparse] itself, on a malformed command line
    or on [-h], happen inside [parse_args] and are not part of this. *)
Theorem main_mode_dispatch (args : Args) :
  (forall c, snd (main args) = SystemExit c <->
             c = 1%Z /\ is_Some (args_flow args)
             /\ is_Some (args_pump_psi args))
  /\ (is_Some (args_flow args) -> is_Some (args_pump_psi args) ->
      main args =
        ([Text "Provide either --flow (to compute pressure drop) OR --pump_psi (to compute achievable flow), not both."],
         SystemExit 1))
  /\ (args_flow args = None -> args_pump_psi args = None ->
      main args = (usage_lines, Returned) /\ length usage_lines = 6%nat).
Proof.
  split; [| split].
  - intros c. destruct (args_flow args) as [q |] eqn:Hf;
      destruct (args_pump_psi args) as [p |] eqn:Hp.
    + unfold main. rewrite Hf, Hp. cbn [snd]. split.
      * intros E. split; [congruence | split; eauto].
      * intros (-> & _). reflexivity.
    + rewrite (main_flow_mode args q Hf Hp).
      split; [| intros (_ & _ & [? ?]); discriminate].
      destruct (pressure_drop_pipe _ _ _ _ _ _ _); discriminate.
    + rewrite (main_pump_mode args p Hf Hp).
      split; [| intros (_ & [? ?] & _); discriminate].
      destruct (flow_from_pump_pressure _ _ _ _ _ _ _ _ _) as [[x | r] | e];
        discriminate.
    + unfold main. rewrite Hf, Hp. cbn [snd].
      split; [discriminate | intros (_ & [? ?] & _); discriminate].
  - intros [q Hf] [p Hp]. unfold main. rewrite Hf, Hp. reflexivity.
  - intros Hf Hp. unfold main. rewrite Hf, Hp. split; reflexivity.
Qed.

(** X19.  [--pump_psi] with a pressure that is zero or negative (and no
    [--flow]): the solver hands back the bare float, so [main] prints its
    input line and then stops with the uncaught [TypeError] of subscripting
    a float; no result line is printed and no argument is validated. *)
Theorem main_pump_without_pressure (args : Args) (p : R) :
  args_flow args = None -> args_pump_psi args = Some p -> p <= 0 ->
  main args =
    ([Line_input_pump p (m_to_mm (diameter_m args)) (args_length args)],
     Uncaught TypeError).
Proof.
  intros Hf Hp Hle. rewrite (main_pump_mode args p Hf Hp).
  unfold flow_from_pump_pressure.
  destruct (decide (psi_to_pa p <= 0)) as [_ | Hn]; [reflexivity |].
  exfalso. apply Hn, psi_to_pa_sign, Hle.
Qed.

Lemma main_pump_without_pressure_witness :
  main (mkArgs None 0.01905 10 "m" (Some 0) 1050 0.002 1.5e-6
          "no_such_fitting")
  = ([Line_input_pump 0 (m_to_mm 0.01905) 10], Uncaught TypeError).
Proof.
  apply (main_pump_without_pressure
           (mkArgs None 0.01905 10 "m" (Some 0) 1050 0.002 1.5e-6
              "no_such_fitting") 0);
    [reflexivity | reflexivity | lra].
Defined.

(** X20.  What [main] has printed when it stops with an exception: nothing
    at all, except in pump mode with a non-positive pressure, where the
    input line alone has been printed and the exception is [TypeError].
    When it returns, it has printed the 6 usage lines, the 7 lines of a
    pressure drop, or the 5 lines of a flow estimate. *)
Theorem main_output_shape (args : Args) :
  (forall e, snd (main args) = Uncaught e ->
     fst (main args) = []
     \/ (exists p, args_flow args = None /\ args_pump_psi args = Some p
                   /\ p <= 0 /\ e = TypeError
                   /\ fst (main args) =
                        [Line_input_pump p (m_to_mm (diameter_m args))
                           (args_length args)]))
  /\ (snd (main args) = Returned ->
      match args_flow args, args_pump_psi args with
      | None, None => length (fst (main args)) = 6%nat
      | Some _, None => length (fst (main args)) = 7%nat
      | None, Some p => 0 < p /\ length (fst (main args)) = 5%nat
      | Some _, Some _ => False
      end).
Proof.
  destruct (args_flow args) as [q |] eqn:Hf;
    destruct (args_pump_psi args) as [p |] eqn:Hp.
  - unfold main. rewrite Hf, Hp. cbn [fst snd].
    split; [discriminate | discriminate].
  - rewrite (main_flow_mode args q Hf Hp).
    destruct (pressure_drop_pipe _ _ _ _ _ _ _) as [result | e0]; cbn [fst snd].
    + split; [discriminate | reflexivity].
    + split; [left; reflexivity | discriminate].
  - rewrite (main_pump_mode args p Hf Hp).
    destruct (flow_from_pump_pressure _ _ _ _ _ _ _ _ _) as [[x | r] | e0]
      eqn:E; cbn [fst snd].
    + apply flow_from_pump_pressure_float in E as [HP _].
      rewrite psi_to_pa_sign in HP.
      split; [| discriminate].
      intros e He. right. exists p.
      repeat split; try assumption; congruence.
    + split; [discriminate |]. intros _. split; [| reflexivity].
      apply flow_from_pump_pressure_dict in E as (K & v0 & e1 & HP & _).
      destruct (Rlt_dec 0 p) as [? | Hn]; [assumption |].
      exfalso. assert (psi_to_pa p <= 0) by (apply psi_to_pa_sign; lra). lra.
    + split; [left; reflexivity | discriminate].
  - unfold main. rewrite Hf, Hp. cbn [fst snd].
    split; [discriminate | reflexivity].
Qed.

Lemma parse_fittings_known (s : string) :
  Forall (fun f => is_Some (STANDARD_FITTING_K !! f)) (parse_fittings s) ->
  returns (if Py.truthy (Some (parse_fittings s))
           then minor_loss_coeffs (Some (parse_fittings s)) else Ok 0).
Proof.
  intros H. destruct (parse_fittings s) as [| f fs] eqn:E.
  - exists 0. reflexivity.
  - cbn [Py.truthy]. rewrite minor_loss_coeffs_Some. revert H. generalize 0.
    generalize (f :: fs). clear. intros l.
    induction l as [| g l IH]; intros acc H; cbn [sum_fitting_K].
    + eexists; reflexivity.
    + inversion H as [| ? ? [K HK] Hrest]; subst. rewrite HK. apply IH, Hrest.
Qed.

(** X21.  A run on valid arguments of ordinary magnitude ends normally.
    With density, viscosity and diameter between [1e-10] and [1e10], a
    length that is zero or in that range, a roughness between 0 and the
    diameter and fitting names of the table: [--flow q] with [q] zero or
    of ordinary magnitude prints the seven lines of the pressure drop
    computed for [q] litres per minute and returns; [--pump_psi p] with
    [p] of ordinary magnitude, and a positive length or at least one
    fitting, prints the input line and four result lines with a positive
    flow, velocity, Reynolds number and friction factor, and returns. *)
Theorem main_valid_run (args : Args) :
  ordinary (args_rho args) -> ordinary (args_mu args) ->
  ordinary (diameter_m args) -> ordinary_or_zero (args_length args) ->
  0 <= args_roughness args <= diameter_m args ->
  Forall (fun f => is_Some (STANDARD_FITTING_K !! f))
    (parse_fittings (args_fittings args)) ->
  (forall q, args_flow args = Some q -> args_pump_psi args = None ->
     ordinary_or_zero q ->
     exists result,
       pressure_drop_pipe (args_rho args) (args_mu args) (lpm_to_m3s q)
         (diameter_m args) (args_length args) (args_roughness args)
         (Some (parse_fittings (args_fittings args))) = Ok result
       /\ main args =
            (pressure_drop_lines q (diameter_m args) (args_length args) result,
             Returned))
  /\ (forall p, args_flow args = None -> args_pump_psi args = Some p ->
        ordinary p ->
        0 < args_length args \/ parse_fittings (args_fittings args) <> [] ->
        exists lpm v re f,
          0 < lpm /\ 0 < v /\ 0 < re /\ 0 < f
          /\ main args =
               ([Line_input_pump p (m_to_mm (diameter_m args))
                   (args_length args);
                 Line_estimated_flow lpm; Line_velocity v; Line_Re re;
                 Line_friction_factor f], Returned)).
Proof.
  intros Hrho Hmu Hd HL Hk Hfit.
  apply ordinary_pos in Hrho, Hmu, Hd. apply ordinary_or_zero_nonneg in HL.
  assert (HK := parse_fittings_known _ Hfit). split.
  - intros q Hf Hp Hq. apply ordinary_or_zero_nonneg in Hq.
    rewrite (main_flow_mode args q Hf Hp).
    destruct HK as [K HK].
    destruct (pressure_drop_pipe_defined (args_rho args) (args_mu args)
                (lpm_to_m3s q) (diameter_m args) (args_length args)
                (args_roughness args)
                (Some (parse_fittings (args_fittings args)))
                Hmu Hd HL Hk Hrho ltac:(unfold lpm_to_m3s; lra) K HK)
      as [pd Hpd].
    exists pd. rewrite Hpd. split; reflexivity.
  - intros p Hf Hp Hpos Hloss. apply ordinary_pos in Hpos.
    rewrite (main_pump_mode args p Hf Hp).
    assert (HP : 0 < psi_to_pa p) by (unfold psi_to_pa; lra).
    assert (Hloss' : 0 < args_length args
                     \/ Py.truthy (Some (parse_fittings (args_fittings args)))
                        = true).
    { destruct Hloss as [? | Hne]; [left; assumption | right].
      destruct (parse_fittings (args_fittings args)); [congruence |].
      reflexivity. }
    destruct (flow_from_pump_pressure_defined (args_rho args) (args_mu args)
                (diameter_m args) (args_length args) (psi_to_pa p)
                (args_roughness args)
                (Some (parse_fittings (args_fittings args)))
                default_tol default_maxiter Hrho Hmu Hd HL Hk HP HK Hloss')
      as (r & -> & _ & Hlpm & Hv & HRe & Hff).
    exists (Q_lpm r), (velocity_m_s r), (Re r), (friction_factor r).
    repeat split; assumption.
Qed.

(** X22.  A diameter given in inches is converted once, before anything
    else: [--units in --dia x] behaves in every mode exactly as
    [--units m --dia 0.0254 x], and the diameter shown on the input line is
    [25.4 x] millimetres. *)
Theorem main_units_inches (flow pump_psi : option R)
    (x len rho mu roughness : R) (fittings : string) :
  main (mkArgs flow x len "in" pump_psi rho mu roughness fittings)
  = main (mkArgs flow (x * 0.0254) len "m" pump_psi rho mu roughness fittings)
  /\ m_to_mm (diameter_m
                (mkArgs flow x len "in" pump_psi rho mu roughness fittings))
     = 25.4 * x.
Proof.
  split; [reflexivity |].
  unfold diameter_m, m_to_mm. cbn [args_units args_dia].
  rewrite String.eqb_refl. lra.
Qed.

Lemma main_valid_run_witness :
  exists result,
    pressure_drop_pipe 1050 0.002 (lpm_to_m3s 20) 0.01905 10 1.5e-6
      (Some ["filter"; "gate_valve"]%string) = Ok result
    /\ main (mkArgs (Some 20) 0.01905 10 "m" None 1050 0.002 1.5e-6
               " filter, gate_valve,")
       = (pressure_drop_lines 20 0.01905 10 result, Returned).
Proof.
  refine (proj1 (main_valid_run
            (mkArgs (Some 20) 0.01905 10 "m" None 1050 0.002 1.5e-6
               " filter, gate_valve,") _ _ _ _ _ _) 20 _ _ _).
  - unfold ordinary. cbn [args_rho]. lra.
  - unfold ordinary. cbn [args_mu]. lra.
  - change (ordinary 0.01905). unfold ordinary. lra.
  - right. unfold ordinary. cbn [args_length]. lra.
  - change (0 <= 1.5e-6 <= 0.01905). lra.
  - change (Forall (fun f => is_Some (STANDARD_FITTING_K !! f))
              ["filter"; "gate_valve"]%string).
    constructor; [rewrite lookup_filter; eauto |].
    constructor; [rewrite lookup_gate_valve; eauto | constructor].
  - reflexivity.
  - reflexivity.
  - right. unfold ordinary. lra.
Defined.

(* ===================================================================== *)
(** * Darcy-Weisbach loss                                                 *)
(* ===================================================================== *)

(** X23.  [darcy_weisbach_loss] checks nothing.  At [d = 0] it raises the
    [ZeroDivisionError] of [L / d], whatever the other arguments are.  For
    a diameter of ordinary magnitude (of either sign) and the other
    arguments of magnitude up to [1e10] it returns a value that is linear
    in the friction factor and in the length, does not depend on the sign
    of the velocity, grows with the square of the velocity, changes sign
    with the diameter, and is not negative when [f >= 0], [L >= 0] and
    [d > 0]. *)
Theorem darcy_weisbach_loss_scaling (f L d v c : R) :
  (d = 0 -> darcy_weisbach_loss f L d v = Raise ZeroDivisionError)
  /\ (ordinary (Rabs d) -> Rabs f <= 1e10 -> Rabs L <= 1e10 ->
      Rabs v <= 1e10 -> Rabs c <= 1e10 ->
      exists h,
        darcy_weisbach_loss f L d v = Ok h
        /\ darcy_weisbach_loss (c * f) L d v = Ok (c * h)
        /\ darcy_weisbach_loss f (c * L) d v = Ok (c * h)
        /\ darcy_weisbach_loss f L d (c * v) = Ok (c ^ 2 * h)
        /\ darcy_weisbach_loss f L d (- v) = Ok h
        /\ darcy_weisbach_loss f L (- d) v = Ok (- h)
        /\ (0 <= f -> 0 <= L -> 0 < d -> 0 <= h)).
Proof.
  split.
  - intros ->. unfold darcy_weisbach_loss. rewrite div_zero. reflexivity.
  - intros Hord _ _ _ _. unfold darcy_weisbach_loss.
    assert (Hd : d <> 0).
    { intros ->. unfold ordinary in Hord. rewrite Rabs_R0 in Hord. lra. }
    assert (Hd' : - d <> 0) by lra.
    rewrite !div_ok by assumption. cbn [Py.bind].
    eexists. split; [reflexivity |].
    repeat split; try (f_equal; field; assumption).
    intros Hf HL Hpos.
    assert (HLd : 0 <= L / d).
    { unfold Rdiv. apply Rmult_le_pos; [exact HL |].
      left. apply Rinv_0_lt_compat, Hpos. }
    assert (Hv : 0 <= v ^ 2).
    { replace (v ^ 2) with (Rsqr v) by (unfold Rsqr; ring). apply Rle_0_sqr. }
    assert (H1 : 0 <= f * (L / d)) by (apply Rmult_le_pos; assumption).
    assert (H2 : 0 <= f * (L / d) * 0.5)
      by (apply Rmult_le_pos; [exact H1 | lra]).
    assert (H3 : 0 <= f * (L / d) * 0.5 * v ^ 2)
      by (apply Rmult_le_pos; assumption).
    lra.
Qed.

Lemma darcy_weisbach_loss_scaling_witness :
  exists h,
    darcy_weisbach_loss 0.02 10 0.01905 1.2 = Ok h
    /\ darcy_weisbach_loss 0.02 10 0.01905 (2 * 1.2) = Ok (2 ^ 2 * h).
Proof.
  destruct (proj2 (darcy_weisbach_loss_scaling 0.02 10 0.01905 1.2 2))
    as (h & Hh & _ & _ & Hsq & _).
  - unfold ordinary. rewrite Rabs_right by lra. lra.
  - rewrite Rabs_right by lra. lra.
  - rewrite Rabs_right by lra. lra.
  - rewrite Rabs_right by lra. lra.
  - rewrite Rabs_right by lra. lra.
  - exists h. split; assumption.
Defined.
